(** * Hand-sign recognition on YOLO11: the detector, its workers and the history log

    A shallow embedding of [detector.py], [utils.py] and the worker and
    history classes of [widgets.py].  The Python objects are threaded
    explicitly: a [World] holds the file system, the cameras, the clock, the
    single [HandSignDetector] shared by all tabs and the Qt signals and
    dialogs shown so far.  Every method is a computation in the monad [M],
    which keeps the state reached when an exception is raised, as Python
    does. *)

From Stdlib Require Import ZArith Ascii String List Lia.
From stdpp Require Import base option list strings gmap pretty.

Open Scope string_scope.
Open Scope list_scope.

(** ** Exceptions *)

Inductive exn_class :=
  | FileNotFoundError
  | ValueError
  | ZeroDivisionError
  | IndexError
  | LibraryError.

(** [str e] is the text that [str(e)] gives in an [except Exception as e]
    handler. *)
Record exn := Exn { class_of : exn_class; str : string }.

(** A call returns, raises, or is still looping when the fuel given to a
    camera loop is used up. *)
Inductive outcome (A : Type) :=
  | Return (a : A)
  | Raise (e : exn)
  | OutOfFuel.
Arguments Return {A} a.
Arguments Raise {A} e.
Arguments OutOfFuel {A}.

(** ** What the libraries provide

    OpenCV, ultralytics, numpy, [time] and [datetime] are not part of the
    repository.  Their behaviour is a parameter of the development. *)

Class Externals := {
  (** numpy pixel buffers *)
  Image : Type;
  (** Python floats: clock readings, frame rates, progress values *)
  Float : Type;
  (** a loaded [YOLO] object *)
  Model : Type;
  (** one ultralytics [Results] object, and one entry of its [boxes] *)
  Results : Type;
  Box : Type;
  (** [YOLO(path)]: loading may raise *)
  YOLO : string -> exn + Model;
  (** [model(frame)]: a list of [Results], or an exception *)
  predict : Model -> Image -> exn + list Results;
  boxes : Results -> list Box;
  (** [int(box.cls)] *)
  box_cls : Box -> Z;
  (** [results.plot()]: a fresh image with the overlays drawn *)
  plot : Results -> Image;
  (** [a / b] on ints with [b] non-zero, [x * y], [x - y], [float(n)],
      [int(x)] *)
  truediv : Z -> Z -> Float;
  fmul : Float -> Float -> Float;
  fsub : Float -> Float -> Float;
  float_of_int : Z -> Float;
  int_of_float : Float -> Z;
  (** the clock: [time.time()] and [datetime.now().strftime(fmt)] at the
      n-th reading *)
  clock_time : nat -> Float;
  clock_strftime : string -> nat -> string;
  (** [os.path.expanduser("~")] *)
  expanduser : string;
  (** whether [cv2.imwrite] can encode to this path *)
  imwrite_ok : string -> bool;
  (** the [cv2.error] that [cv2.imwrite] raises instead of returning
      [False], as it does for a file name it has no encoder for *)
  imwrite_error : string -> option exn;
  (** what [cv2.VideoCapture] delivers for the picture file at a path, if
      it opens it: frame rate, frame count, width, height and the frames *)
  VideoCapture_image : string -> Image -> option (Float * Float * Float * Float * list Image);
  (** whether a [cv2.VideoWriter] opens at this path *)
  VideoWriter_ok : string -> bool
}.

Section Program.
Context `{Ext : Externals}.

(** ** Data model *)

(** The values stored in a history record (a Python [dict]). *)
Inductive value :=
  | VStr (s : string)
  | VInt (n : Z)
  | VFloat (x : Float)
  | VList (l : list Z).

(** A [dict] literal keeps its keys in insertion order. *)
Definition pydict := list (string * value).

Fixpoint dict_get (k : string) (d : pydict) : option value :=
  match d with
  | [] => None
  | (k', v) :: d' => if String.eqb k k' then Some v else dict_get k d'
  end.

(** [self.results] holds the whole list after [detect_image] and a single
    [Results] after a video or webcam frame. *)
Inductive PyResults :=
  | ResList (rs : list Results)
  | ResOne (r : Results).

Record Detector := {
  model : Model;
  results : option PyResults;
  current_frame : option Image;
  detection_history : list pydict
}.

(** What [cv2.VideoCapture.get] reports for a container, and the frames that
    [read] delivers until it fails. *)
Record Video := {
  CAP_PROP_FPS : Float;
  CAP_PROP_FRAME_COUNT : Float;
  CAP_PROP_FRAME_WIDTH : Float;
  CAP_PROP_FRAME_HEIGHT : Float;
  frames : list Image
}.

Inductive Node :=
  | Dir
  | ImageFile (img : Image)
  | VideoFile (v : Video)
  | CsvFile (rows : list pydict)
  | OtherFile.

(** Qt signals emitted by the workers and dialogs shown by the tabs, in the
    order they happen. *)
Inductive Event :=
  | sig_result_image (img : Image) (r : Results)
  | sig_result_video (output_path : option string) (all_results : list Results)
  | sig_error (msg : string)
  | sig_finished
  | sig_progress (p : Z) (frame : Image)
  | sig_frame_ready (frame : Image) (r : Results)
  | information (title msg : string)
  | critical (title msg : string)
  | question (title msg : string)
  | status_message (msg : string)
  | history_table (total image video webcam : nat).

Record World := {
  fs : gmap string Node;
  (** a camera that opens delivers a frame or fails at each [read] *)
  cameras : Z -> option (nat -> option Image);
  ticks : nat;
  detector : Detector;
  emitted : list Event
}.

Definition with_fs (f : gmap string Node -> gmap string Node) (w : World) : World :=
  {| fs := f (fs w); cameras := cameras w; ticks := ticks w;
     detector := detector w; emitted := emitted w |}.

Definition with_ticks (f : nat -> nat) (w : World) : World :=
  {| fs := fs w; cameras := cameras w; ticks := f (ticks w);
     detector := detector w; emitted := emitted w |}.

Definition with_detector (f : Detector -> Detector) (w : World) : World :=
  {| fs := fs w; cameras := cameras w; ticks := ticks w;
     detector := f (detector w); emitted := emitted w |}.

Definition with_emitted (f : list Event -> list Event) (w : World) : World :=
  {| fs := fs w; cameras := cameras w; ticks := ticks w;
     detector := detector w; emitted := f (emitted w) |}.

(** ** The monad *)

Definition M (A : Type) : Type := World -> World * outcome A.

#[export] Instance M_ret : MRet M := fun A a w => (w, Return a).

#[export] Instance M_bind : MBind M := fun A B f m w =>
  match m w with
  | (w', Return a) => f a w'
  | (w', Raise e) => (w', Raise e)
  | (w', OutOfFuel) => (w', OutOfFuel)
  end.

Definition raise {A} (e : exn) : M A := fun w => (w, Raise e).
Definition gets {A} (f : World -> A) : M A := fun w => (w, Return (f w)).
Definition modify (f : World -> World) : M unit := fun w => (f w, Return tt).

(** A library call that returns or raises without touching the world. *)
Definition lift {A} (r : exn + A) : M A :=
  match r with
  | inl e => raise e
  | inr a => mret a
  end.

(** [try: body / except Exception as e: handler e / finally: fin]. *)
Definition try_except_finally {A} (body : M A) (handler : exn -> M A) (fin : M unit) : M A :=
  fun w =>
    match body w with
    | (w1, Return a) =>
        match fin w1 with
        | (w2, Return _) => (w2, Return a)
        | (w2, Raise e) => (w2, Raise e)
        | (w2, OutOfFuel) => (w2, OutOfFuel)
        end
    | (w1, Raise e) =>
        match handler e w1 with
        | (w2, OutOfFuel) => (w2, OutOfFuel)
        | (w2, r) =>
            match fin w2 with
            | (w3, Return _) => (w3, r)
            | (w3, Raise e') => (w3, Raise e')
            | (w3, OutOfFuel) => (w3, OutOfFuel)
            end
        end
    | (w1, OutOfFuel) => (w1, OutOfFuel)
    end.

(** ** Paths, files, cameras and the clock *)

(** [p[:p.rfind('/') + 1]], when [p] has a slash. *)
Fixpoint path_head (p : string) : option string :=
  match p with
  | EmptyString => None
  | String c rest =>
      match path_head rest with
      | Some h => Some (String c h)
      | None => if Ascii.eqb c "/"%char then Some (String c EmptyString) else None
      end
  end.

(** [s.rstrip('/')] *)
Fixpoint rstrip_slash (s : string) : string :=
  match s with
  | EmptyString => EmptyString
  | String c rest =>
      match rstrip_slash rest with
      | EmptyString => if Ascii.eqb c "/"%char then EmptyString else String c EmptyString
      | r => String c r
      end
  end.

(** [os.path.dirname] of [posixpath]: a head made of slashes only is kept as
    it is. *)
Definition os_path_dirname (p : string) : string :=
  let head := default "" (path_head p) in
  match rstrip_slash head with
  | EmptyString => head
  | stripped => stripped
  end.

(** [p[p.rfind('/') + 1:]] *)
Fixpoint os_path_basename (p : string) : string :=
  match p with
  | EmptyString => EmptyString
  | String c rest =>
      match path_head rest with
      | Some _ => os_path_basename rest
      | None => if Ascii.eqb c "/"%char then rest else p
      end
  end.

Definition ends_with_slash (a : string) : bool :=
  match rstrip_slash a with
  | EmptyString => negb (String.eqb a "")
  | r => negb (String.eqb r a)
  end.

(** [os.path.join(a, b)] *)
Definition os_path_join (a b : string) : string :=
  match b with
  | String "/"%char _ => b
  | _ => if String.eqb a "" || ends_with_slash a then a +:+ b else a +:+ "/" +:+ b
  end.

(** Truth value of a string, and of an optional string argument. *)
Definition truthy (s : string) : bool := negb (String.eqb s "").

Definition opt_truthy (o : option string) : bool :=
  match o with
  | Some s => truthy s
  | None => false
  end.

Definition os_path_exists (p : string) : M bool :=
  gets (fun w => match fs w !! p with Some _ => true | None => false end).

(** [d] and the directories above it, outermost first. *)
Fixpoint ancestors (fuel : nat) (d : string) : list string :=
  match fuel with
  | O => []
  | S fuel' =>
      let head := os_path_dirname d in
      if String.eqb head "" || String.eqb head d then [d]
      else ancestors fuel' head ++ [d]
  end.

Definition mkdir_missing (m : gmap string Node) (d : string) : gmap string Node :=
  match m !! d with
  | None => <[d := Dir]> m
  | Some _ => m
  end.

(** [os.makedirs(d)] makes [d] and every ancestor of [d] that is missing.
    The callers test [os.path.exists(d)] first.  The tree is taken to allow
    it: the [OSError] of a tree in which an ancestor is a regular file, or
    in which the process may not write, is not modelled. *)
Definition os_makedirs (d : string) : M unit :=
  modify (with_fs (fun m => foldl mkdir_missing m (ancestors (String.length d) d))).

(** [cv2.imread] gives [None] for anything that does not decode. *)
Definition cv2_imread (p : string) : M (option Image) :=
  gets (fun w => match fs w !! p with Some (ImageFile img) => Some img | _ => None end).

(** [cv2.imwrite] writes and returns [True], returns [False], or raises
    [cv2.error]. *)
Definition cv2_imwrite (p : string) (img : Image) : M bool :=
  if imwrite_ok p
  then (modify (with_fs (fun m => <[p := ImageFile img]> m));; mret true)
  else
    match imwrite_error p with
    | Some e => raise e
    | None => mret false
    end.

(** The capture opened on a picture file. *)
Definition still_capture (p : string) (img : Image) : option Video :=
  match VideoCapture_image p img with
  | Some (fps, frame_count, width, height, fs) =>
      Some {| CAP_PROP_FPS := fps; CAP_PROP_FRAME_COUNT := frame_count;
              CAP_PROP_FRAME_WIDTH := width; CAP_PROP_FRAME_HEIGHT := height;
              frames := fs |}
  | None => None
  end.

(** What [cv2.VideoCapture(path)] opens on what is at [path]: a video
    file opens, and so may a picture file. *)
Definition capture (p : string) (n : option Node) : option Video :=
  match n with
  | Some (VideoFile v) => Some v
  | Some (ImageFile img) => still_capture p img
  | _ => None
  end.

(** [cv2.VideoCapture(path)]: [None] when [isOpened()] is false. *)
Definition cv2_VideoCapture (p : string) : M (option Video) :=
  gets (fun w => capture p (fs w !! p)).

(** [cv2.VideoCapture(cam_id)] *)
Definition cv2_VideoCapture_cam (cam_id : Z) : M (option (nat -> option Image)) :=
  gets (fun w => cameras w cam_id).

(** [cv2.VideoWriter(path, fourcc, fps, (width, height))] starts an empty
    container when it opens; [out.write(frame)] adds a frame to it.  A
    writer that did not open raises nothing and writes nothing, and the
    code never asks [out.isOpened()]. *)
Definition cv2_VideoWriter (p : string) (fps : Float) (width height : Z) : M unit :=
  if VideoWriter_ok p
  then
    modify (with_fs (fun m =>
      <[p := VideoFile {| CAP_PROP_FPS := fps;
                          CAP_PROP_FRAME_COUNT := float_of_int 0;
                          CAP_PROP_FRAME_WIDTH := float_of_int width;
                          CAP_PROP_FRAME_HEIGHT := float_of_int height;
                          frames := [] |}]> m))
  else mret tt.

Definition add_frame (frame : Image) (n : Node) : Node :=
  match n with
  | VideoFile v =>
      VideoFile {| CAP_PROP_FPS := CAP_PROP_FPS v;
                   CAP_PROP_FRAME_COUNT :=
                     float_of_int (Z.of_nat (length (frames v ++ [frame])));
                   CAP_PROP_FRAME_WIDTH := CAP_PROP_FRAME_WIDTH v;
                   CAP_PROP_FRAME_HEIGHT := CAP_PROP_FRAME_HEIGHT v;
                   frames := frames v ++ [frame] |}
  | other => other
  end.

Definition out_write (p : string) (frame : Image) : M unit :=
  if VideoWriter_ok p
  then modify (with_fs (fun m => alter (add_frame frame) p m))
  else mret tt.

(** [time.time()] and [datetime.now().strftime(fmt)] read the clock. *)
Definition time_time : M Float :=
  fun w => (with_ticks S w, Return (clock_time (ticks w))).

Definition now_strftime (fmt : string) : M string :=
  fun w => (with_ticks S w, Return (clock_strftime fmt (ticks w))).

Definition emit (e : Event) : M unit :=
  modify (with_emitted (fun l => l ++ [e])).

(** ** detector.py: [HandSignDetector] *)

Definition set_results (r : PyResults) : M unit :=
  modify (with_detector (fun d =>
    {| model := model d; results := Some r; current_frame := current_frame d;
       detection_history := detection_history d |})).

Definition set_current_frame (frame : Image) : M unit :=
  modify (with_detector (fun d =>
    {| model := model d; results := results d; current_frame := Some frame;
       detection_history := detection_history d |})).

(** [self.detection_history.append(detection_info)] *)
Definition history_append (detection_info : pydict) : M unit :=
  modify (with_detector (fun d =>
    {| model := model d; results := results d; current_frame := current_frame d;
       detection_history := detection_history d ++ [detection_info] |})).

(** [self.detection_history = []] *)
Definition history_reset : M unit :=
  modify (with_detector (fun d =>
    {| model := model d; results := results d; current_frame := current_frame d;
       detection_history := [] |})).

(** [self.model(frame)] *)
Definition call_model (frame : Image) : M (list Results) :=
  m ← gets (fun w => model (detector w));
  lift (predict m frame).

(** [results[0]] *)
Definition first_result (rs : list Results) : M Results :=
  match rs with
  | r :: _ => mret r
  | [] => raise (Exn IndexError "list index out of range")
  end.

(** [frame_idx / frame_count * 100] *)
Definition progress_of (frame_idx frame_count : Z) : M Float :=
  if (frame_count =? 0)%Z
  then raise (Exn ZeroDivisionError "division by zero")
  else mret (fmul (truediv frame_idx frame_count) (float_of_int 100)).

(** The attributes that [__init__] sets once the model is loaded. *)
Definition new_detector (m : Model) : Detector :=
  {| model := m; results := None; current_frame := None; detection_history := [] |}.

(** [HandSignDetector.__init__]: the detector that the constructor builds. *)
Definition HandSignDetector_init (model_path : option string) : M Detector :=
  use_default ← match model_path with
                | None => mret true
                | Some p => ex ← os_path_exists p; mret (negb ex)
                end;
  m ← (if use_default : bool
       then lift (YOLO "yolo11n.pt")
       else lift (YOLO (default "" model_path)));
  mret (new_detector m).

Definition image_record (image_path timestamp : string) (r : Results)
    (start_time end_time : Float) : pydict :=
  [ ("type", VStr "image");
    ("source", VStr image_path);
    ("timestamp", VStr timestamp);
    ("detections", VInt (Z.of_nat (length (boxes r))));
    ("processing_time", VFloat (fsub end_time start_time));
    ("classes", VList (map box_cls (boxes r))) ].

Definition detect_image (image_path : string) : M (Image * Results) :=
  ex ← os_path_exists image_path;
  if negb ex
  then raise (Exn FileNotFoundError ("找不到图片文件: " +:+ image_path))
  else
    img ← cv2_imread image_path;
    match img with
    | None => raise (Exn ValueError ("无法读取图片: " +:+ image_path))
    | Some img =>
        let img_display := img in
        start_time ← time_time;
        results ← call_model img;
        end_time ← time_time;
        set_results (ResList results);;
        set_current_frame img_display;;
        r0 ← first_result results;
        let annotated_img := plot r0 in
        timestamp ← now_strftime "%Y-%m-%d %H:%M:%S";
        history_append (image_record image_path timestamp r0 start_time end_time);;
        mret (annotated_img, r0)
    end.

Definition frames_record (kind source timestamp : string) (frame_count : Z)
    (start_time end_time : Float) : pydict :=
  [ ("type", VStr kind);
    ("source", VStr source);
    ("timestamp", VStr timestamp);
    ("frames", VInt frame_count);
    ("processing_time", VFloat (fsub end_time start_time)) ].

(** [if output_path: ... out = cv2.VideoWriter(...)] *)
Definition open_output (output_path : option string) (fps : Float) (width height : Z) : M unit :=
  if opt_truthy output_path
  then
    let p := default "" output_path in
    let output_dir := os_path_dirname p in
    ex ← os_path_exists output_dir;
    (if truthy output_dir && negb ex then os_makedirs output_dir else mret tt);;
    cv2_VideoWriter p fps width height
  else mret tt.

Definition write_output (output_path : option string) (frame : Image) : M unit :=
  if opt_truthy output_path then out_write (default "" output_path) frame else mret tt.

(** The [while cap.isOpened()] loop of [detect_video]: [pending] are the
    frames the capture still has, and the loop ends when [read] fails. *)
Fixpoint detect_video_loop (output_path : option string)
    (progress_callback : option (Float -> Image -> M unit)) (frame_count : Z)
    (pending : list Image) (frame_idx : Z) (all_results : list Results)
    : M (list Results) :=
  match pending with
  | [] => mret all_results
  | frame :: pending' =>
      results ← call_model frame;
      r0 ← first_result results;
      let all_results := all_results ++ [r0] in
      let annotated_frame := plot r0 in
      write_output output_path annotated_frame;;
      set_current_frame annotated_frame;;
      set_results (ResOne r0);;
      let frame_idx := (frame_idx + 1)%Z in
      progress ← progress_of frame_idx frame_count;
      match progress_callback with
      | Some callback => callback progress annotated_frame
      | None => mret tt
      end;;
      detect_video_loop output_path progress_callback frame_count pending'
        frame_idx all_results
  end.

Definition detect_video (video_path : string) (output_path : option string)
    (progress_callback : option (Float -> Image -> M unit))
    : M (option Image * list Results) :=
  ex ← os_path_exists video_path;
  if negb ex
  then raise (Exn FileNotFoundError ("找不到视频文件: " +:+ video_path))
  else
    cap ← cv2_VideoCapture video_path;
    match cap with
    | None => raise (Exn ValueError ("无法打开视频: " +:+ video_path))
    | Some cap =>
        let fps := CAP_PROP_FPS cap in
        let frame_count := int_of_float (CAP_PROP_FRAME_COUNT cap) in
        let width := int_of_float (CAP_PROP_FRAME_WIDTH cap) in
        let height := int_of_float (CAP_PROP_FRAME_HEIGHT cap) in
        open_output output_path fps width height;;
        start_time ← time_time;
        all_results ← detect_video_loop output_path progress_callback frame_count
                        (frames cap) 0 [];
        end_time ← time_time;
        timestamp ← now_strftime "%Y-%m-%d %H:%M:%S";
        history_append (frames_record "video" video_path timestamp frame_count
                          start_time end_time);;
        frame ← gets (fun w => current_frame (detector w));
        mret (frame, all_results)
    end.

Definition out_of_fuel {A} : M A := fun w => (w, OutOfFuel).

(** The [while cap.isOpened()] loop of [detect_webcam].  [frame_count] frames
    were read so far; [stop_signal n] is what the [n]-th call of the flag
    returns and [cap n] what the [n]-th [read] delivers. *)
Fixpoint detect_webcam_loop (fuel : nat) (stop_signal : option (nat -> bool))
    (frame_callback : option (Image -> Results -> M unit))
    (cap : nat -> option Image) (frame_count : nat) : M nat :=
  match fuel with
  | O => out_of_fuel
  | S fuel' =>
      if match stop_signal with Some stop => stop frame_count | None => false end
      then mret frame_count
      else
        match cap frame_count with
        | None => mret frame_count
        | Some frame =>
            results ← call_model frame;
            r0 ← first_result results;
            let annotated_frame := plot r0 in
            set_current_frame annotated_frame;;
            set_results (ResOne r0);;
            match frame_callback with
            | Some callback => callback annotated_frame r0
            | None => mret tt
            end;;
            detect_webcam_loop fuel' stop_signal frame_callback cap (S frame_count)
        end
  end.

Definition webcam_source (cam_id : Z) : string := "摄像头 ID: " +:+ pretty cam_id.

Definition detect_webcam (fuel : nat) (cam_id : Z) (stop_signal : option (nat -> bool))
    (frame_callback : option (Image -> Results -> M unit))
    : M (option Image * option PyResults) :=
  cap ← cv2_VideoCapture_cam cam_id;
  match cap with
  | None => raise (Exn ValueError ("无法打开摄像头ID: " +:+ pretty cam_id))
  | Some cap =>
      start_time ← time_time;
      frame_count ← detect_webcam_loop fuel stop_signal frame_callback cap 0;
      end_time ← time_time;
      timestamp ← now_strftime "%Y-%m-%d %H:%M:%S";
      history_append (frames_record "webcam" (webcam_source cam_id) timestamp
                        (Z.of_nat frame_count) start_time end_time);;
      d ← gets detector;
      mret (current_frame d, results d)
  end.

(** The method returns the list itself; its callers only read it. *)
Definition get_detection_history : M (list pydict) :=
  gets (fun w => detection_history (detector w)).

Definition save_current_frame (save_path : string) : M bool :=
  frame ← gets (fun w => current_frame (detector w));
  match frame with
  | None => mret false
  | Some frame =>
      let save_dir := os_path_dirname save_path in
      ex ← os_path_exists save_dir;
      (if truthy save_dir && negb ex then os_makedirs save_dir else mret tt);;
      cv2_imwrite save_path frame
  end.

(** ** utils.py *)

(** [pd.DataFrame(history).to_csv(export_path, ...)] writes one row per
    record.  pandas refuses a path whose parent is not a directory, and
    [open] refuses a directory, the empty name and a name that ends with a
    slash. *)
Definition to_csv (export_path : string) (history : list pydict) : M unit :=
  let parent := os_path_dirname export_path in
  above ← gets (fun w => fs w !! parent);
  if truthy parent && negb (ends_with_slash export_path)
     && negb match above with Some Dir => true | _ => false end
  then raise (Exn LibraryError
                ("Cannot save file into a non-existent directory: '" +:+ parent +:+ "'"))
  else if negb (truthy export_path)
  then raise (Exn FileNotFoundError "[Errno 2] No such file or directory: ''")
  else
    node ← gets (fun w => fs w !! export_path);
    match node with
    | Some Dir =>
        raise (Exn LibraryError ("[Errno 21] Is a directory: '" +:+ export_path +:+ "'"))
    | _ =>
        if ends_with_slash export_path
        then raise (Exn LibraryError
                      ("[Errno 21] Is a directory: '" +:+ export_path +:+ "'"))
        else modify (with_fs (fun m => <[export_path := CsvFile history]> m))
    end.

Definition export_detection_history (history : list pydict) (export_path : string) : M bool :=
  match history with
  | [] => mret false
  | _ =>
      let export_dir := os_path_dirname export_path in
      ex ← os_path_exists export_dir;
      (if truthy export_dir && negb ex then os_makedirs export_dir else mret tt);;
      to_csv export_path history;;
      mret true
  end.

Definition show_info_message (title message : string) : M unit :=
  emit (information title message).

Definition show_error_message (title message : string) : M unit :=
  emit (critical title message).

(** The dialog returns what the user answers. *)
Definition show_question_message (title message : string) (answer : bool) : M bool :=
  emit (question title message);; mret answer.

Definition get_default_save_path (file_type : string) : M string :=
  let base_dir := os_path_join expanduser "手语识别结果" in
  ex ← os_path_exists base_dir;
  (if negb ex then os_makedirs base_dir else mret tt);;
  timestamp ← now_strftime "%Y%m%d_%H%M%S";
  if String.eqb file_type "image"
  then mret (os_path_join base_dir ("检测结果_" +:+ timestamp +:+ ".jpg"))
  else if String.eqb file_type "video"
  then mret (os_path_join base_dir ("视频检测_" +:+ timestamp +:+ ".mp4"))
  else if String.eqb file_type "csv"
  then mret (os_path_join base_dir ("检测历史_" +:+ timestamp +:+ ".csv"))
  else mret (os_path_join base_dir ("结果_" +:+ timestamp)).

(** ** widgets.py: the background workers *)

Definition ImageDetectionWorker_run (image_path : string) : M unit :=
  try_except_finally
    ('(result_img, results) ← detect_image image_path;
     emit (sig_result_image result_img results))
    (fun e => emit (sig_error (str e)))
    (emit sig_finished).

(** The [while cap.isOpened() and self.is_running] loop of the video worker.
    [is_running n] is the value of the flag at the [n]-th test; [stop()]
    clears it from the GUI thread. *)
Fixpoint video_worker_loop (output_path : option string) (is_running : nat -> bool)
    (frame_count : Z) (pending : list Image) (tests : nat) (frame_idx : Z)
    (all_results : list Results) : M (list Results) :=
  if negb (is_running tests) then mret all_results
  else
    match pending with
    | [] => mret all_results
    | frame :: pending' =>
        results ← call_model frame;
        r0 ← first_result results;
        let all_results := all_results ++ [r0] in
        let annotated_frame := plot r0 in
        write_output output_path annotated_frame;;
        let frame_idx := (frame_idx + 1)%Z in
        progress ← progress_of frame_idx frame_count;
        emit (sig_progress (int_of_float progress) annotated_frame);;
        video_worker_loop output_path is_running frame_count pending' (S tests)
          frame_idx all_results
    end.

Definition VideoDetectionWorker_body (video_path : string) (output_path : option string)
    (is_running : nat -> bool) : M unit :=
  cap ← cv2_VideoCapture video_path;
  match cap with
  | None => raise (Exn ValueError ("无法打开视频: " +:+ video_path))
  | Some cap =>
      let fps := CAP_PROP_FPS cap in
      let frame_count := int_of_float (CAP_PROP_FRAME_COUNT cap) in
      let width := int_of_float (CAP_PROP_FRAME_WIDTH cap) in
      let height := int_of_float (CAP_PROP_FRAME_HEIGHT cap) in
      open_output output_path fps width height;;
      start_time ← time_time;
      all_results ← video_worker_loop output_path is_running frame_count
                      (frames cap) 0 0 [];
      end_time ← time_time;
      timestamp ← now_strftime "%Y-%m-%d %H:%M:%S";
      history_append (frames_record "video" video_path timestamp frame_count
                        start_time end_time);;
      emit (sig_result_video output_path all_results)
  end.

Definition VideoDetectionWorker_run (video_path : string) (output_path : option string)
    (is_running : nat -> bool) : M unit :=
  try_except_finally
    (VideoDetectionWorker_body video_path output_path is_running)
    (fun e => emit (sig_error (str e)))
    (emit sig_finished).

(** The [while self.running] loop of the webcam thread; [running n] is the
    value of the flag at the [n]-th test. *)
Fixpoint webcam_thread_loop (fuel : nat) (running : nat -> bool)
    (cap : nat -> option Image) (frame_count : nat) : M nat :=
  match fuel with
  | O => out_of_fuel
  | S fuel' =>
      if negb (running frame_count) then mret frame_count
      else
        match cap frame_count with
        | None => mret frame_count
        | Some frame =>
            results ← call_model frame;
            r0 ← first_result results;
            let annotated_frame := plot r0 in
            emit (sig_frame_ready annotated_frame r0);;
            webcam_thread_loop fuel' running cap (S frame_count)
        end
  end.

Definition WebcamDetectionThread_run (fuel : nat) (cam_id : Z) (running : nat -> bool)
    : M unit :=
  cap ← cv2_VideoCapture_cam cam_id;
  match cap with
  | None => emit (sig_error ("无法打开摄像头 ID: " +:+ pretty cam_id))
  | Some cap =>
      start_time ← time_time;
      frame_count ← webcam_thread_loop fuel running cap 0;
      if (0 <? frame_count)%nat
      then
        end_time ← time_time;
        timestamp ← now_strftime "%Y-%m-%d %H:%M:%S";
        history_append (frames_record "webcam" (webcam_source cam_id) timestamp
                          (Z.of_nat frame_count) start_time end_time)
      else mret tt
  end.

(** ** widgets.py: the slots of the tabs that touch the detector *)

(** [VideoDetectionTab.update_progress] *)
Definition update_progress (p : Z) (frame : Image) : M unit :=
  set_current_frame frame.

(** [WebcamDetectionTab.update_frame] *)
Definition update_frame (frame : Image) (r : Results) : M unit :=
  set_current_frame frame.

(** [ImageDetectionTab.save_result]; [getSaveFileName] is the path the file
    dialog returns for the proposed one, empty when the user cancels. *)
Definition save_result (getSaveFileName : string -> string) : M unit :=
  frame ← gets (fun w => current_frame (detector w));
  match frame with
  | None => mret tt
  | Some _ =>
      default_path ← get_default_save_path "image";
      let file_path := getSaveFileName default_path in
      if truthy file_path
      then
        success ← save_current_frame file_path;
        if success : bool
        then emit (status_message ("检测结果已保存: " +:+ os_path_basename file_path))
        else emit (status_message "保存检测结果失败")
      else mret tt
  end.

(** [WebcamDetectionTab.take_snapshot] *)
Definition take_snapshot (detection_active : bool) (getSaveFileName : string -> string)
    : M unit :=
  frame ← gets (fun w => current_frame (detector w));
  match frame with
  | Some _ =>
      if detection_active
      then
        default_path ← get_default_save_path "image";
        let file_path := getSaveFileName default_path in
        if truthy file_path
        then
          success ← save_current_frame file_path;
          if success : bool
          then emit (status_message ("摄像头截图已保存: " +:+ os_path_basename file_path))
          else emit (status_message "摄像头截图保存失败")
        else mret tt
      else mret tt
  | None => mret tt
  end.

(** ** widgets.py: [HistoryTab] *)

(** [item.get("type") == kind] *)
Definition has_type (kind : string) (item : pydict) : bool :=
  match dict_get "type" item with
  | Some (VStr s) => String.eqb s kind
  | _ => false
  end.

(** The per-kind counts shown above the table; the table rows themselves
    are presentation only. *)
Definition update_history_table : M unit :=
  history ← get_detection_history;
  emit (history_table (length history)
          (length (filter (fun item => has_type "image" item = true) history))
          (length (filter (fun item => has_type "video" item = true) history))
          (length (filter (fun item => has_type "webcam" item = true) history)));;
  emit (status_message "检测历史已刷新").

Definition export_history (getSaveFileName : string -> string) : M unit :=
  history ← get_detection_history;
  match history with
  | [] => show_info_message "导出失败" "没有历史数据可导出"
  | _ =>
      default_path ← get_default_save_path "csv";
      let file_path := getSaveFileName default_path in
      if truthy file_path
      then
        success ← export_detection_history history file_path;
        if success : bool
        then
          emit (status_message ("历史数据已导出: " +:+ os_path_basename file_path));;
          show_info_message "导出成功" ("历史数据已导出到: " +:+ file_path)
        else
          emit (status_message "历史数据导出失败");;
          show_error_message "导出失败" "无法导出历史数据"
      else mret tt
  end.

(** [answer] is what the user replies if the confirmation dialog is
    shown. *)
Definition clear_history (answer : bool) : M unit :=
  history ← get_detection_history;
  match history with
  | [] => show_info_message "清空历史" "历史记录已经为空"
  | _ =>
      confirm ← show_question_message "确认清空"
                  "确定要清空所有历史记录吗？此操作不可撤销。" answer;
      if confirm : bool
      then
        history_reset;;
        update_history_table;;
        emit (status_message "历史记录已清空");;
        show_info_message "清空完成" "所有历史记录已清空"
      else mret tt
  end.

(** ** Operations on the shared detector

    Everything the application can do to the detector, as one step function:
    the detector's own methods, the three workers and the slots of the
    tabs. *)

Inductive Op :=
  | op_detect_image (image_path : string)
  | op_detect_video (video_path : string) (output_path : option string)
      (progress_callback : option (Float -> Image -> M unit))
  | op_detect_webcam (fuel : nat) (cam_id : Z) (stop_signal : option (nat -> bool))
      (frame_callback : option (Image -> Results -> M unit))
  | op_get_detection_history
  | op_save_current_frame (save_path : string)
  | op_image_worker (image_path : string)
  | op_video_worker (video_path : string) (output_path : option string)
      (is_running : nat -> bool)
  | op_webcam_thread (fuel : nat) (cam_id : Z) (running : nat -> bool)
  | op_update_progress (p : Z) (frame : Image)
  | op_update_frame (frame : Image) (r : Results)
  | op_save_result (getSaveFileName : string -> string)
  | op_take_snapshot (detection_active : bool) (getSaveFileName : string -> string)
  | op_update_history_table
  | op_export_history (getSaveFileName : string -> string)
  | op_clear_history (answer : bool).

Definition void {A} (m : M A) : M unit := _ ← m; mret tt.

Definition run_op (op : Op) : M unit :=
  match op with
  | op_detect_image p => void (detect_image p)
  | op_detect_video p out cb => void (detect_video p out cb)
  | op_detect_webcam fuel cam stop cb => void (detect_webcam fuel cam stop cb)
  | op_get_detection_history => void get_detection_history
  | op_save_current_frame p => void (save_current_frame p)
  | op_image_worker p => ImageDetectionWorker_run p
  | op_video_worker p out is_running => VideoDetectionWorker_run p out is_running
  | op_webcam_thread fuel cam running => WebcamDetectionThread_run fuel cam running
  | op_update_progress p frame => update_progress p frame
  | op_update_frame frame r => update_frame frame r
  | op_save_result dialog => save_result dialog
  | op_take_snapshot active dialog => take_snapshot active dialog
  | op_update_history_table => update_history_table
  | op_export_history dialog => export_history dialog
  | op_clear_history answer => clear_history answer
  end.

End Program.

(** ** Vocabulary of the statements *)

Section Vocabulary.
Context `{Ext : Externals}.

(** The history log of the shared detector. *)
Definition history_of (w : World) : list pydict := detection_history (detector w).

(** A computation that leaves a part of the world as it found it, however
    it ends. *)
Definition keeps {X A} (part : World -> X) (m : M A) : Prop :=
  forall w, part (m w).1 = part w.

(** A part of the world that does not depend on the files, on the clock, or
    on the signals emitted. *)
Definition ignores_fs {X} (part : World -> X) : Prop :=
  forall f w, part (with_fs f w) = part w.

Definition ignores_ticks {X} (part : World -> X) : Prop :=
  forall f w, part (with_ticks f w) = part w.

Definition ignores_emitted {X} (part : World -> X) : Prop :=
  forall f w, part (with_emitted f w) = part w.

(** A callback handed to [detect_video] or [detect_webcam] that only
    observes: whatever else it does, it leaves the detector alone. *)
Definition observer {A B} (callback : option (A -> B -> M unit)) : Prop :=
  match callback with
  | Some f => forall a b, keeps detector (f a b)
  | None => True
  end.

(** The operations whose callbacks, if any, only observe. *)
Definition op_observes (op : Op) : Prop :=
  match op with
  | op_detect_video _ _ progress_callback => observer progress_callback
  | op_detect_webcam _ _ _ frame_callback => observer frame_callback
  | _ => True
  end.

(** The operations that carry a detection to its end on [w]: a method of
    the detector that returns, and a worker whose detection returns, so that
    it sends its [result] signal. *)
Definition completes_detection (op : Op) (w : World) : Prop :=
  match op with
  | op_detect_image _ | op_detect_video _ _ _ | op_detect_webcam _ _ _ _ =>
      (run_op op w).2 = Return tt
  | op_image_worker image_path =>
      exists w' result, detect_image image_path w = (w', Return result)
  | op_video_worker video_path output_path is_running =>
      exists w',
        VideoDetectionWorker_body video_path output_path is_running w = (w', Return tt)
  | _ => False
  end.

(** A computation that adds at most one record to the end of the log and
    changes nothing else in it. *)
Definition appends_at_most_one {A} (m : M A) : Prop :=
  forall w,
    history_of (m w).1 = history_of w \/
    exists r, history_of (m w).1 = history_of w ++ [r].

(** A computation that, when it returns, has added exactly one record, with
    property [P], to the end of the log, and that leaves the log as it was
    when it does not return. *)
Definition appends_on_return {A} (P : pydict -> Prop) (m : M A) : Prop :=
  forall w,
    match m w with
    | (w', Return _) => exists rec, history_of w' = history_of w ++ [rec] /\ P rec
    | (w', _) => history_of w' = history_of w
    end.

(** The signal that carries one processed webcam frame to the tab. *)
Definition is_frame_ready (e : Event) : bool :=
  match e with
  | sig_frame_ready _ _ => true
  | _ => false
  end.

(** A computation that cannot raise or loop. *)
Definition always_returns {A} (m : M A) : Prop :=
  forall w, exists w' a, m w = (w', Return a).

(** A callback that returns whenever it is called. *)
Definition returning {A B} (callback : option (A -> B -> M unit)) : Prop :=
  match callback with
  | Some f => forall a b, always_returns (f a b)
  | None => True
  end.

End Vocabulary.

(** ** widgets.py: the tabs and their widgets

    The state of a tab is what its slots read and write: the attributes set
    on [self] and, for each widget, whether it is enabled or what it shows.
    Texts that are only assembled for display are left out.  A slot takes
    the state of its tab and gives the new one; what it does to the
    detector, the files and the status bar happens in the world. *)

Module ImageDetectionTab.
Section Tab.
Context `{Ext : Externals}.

Record state := {
  file_path : option string;
  file_path_label : string;
  detect_btn : bool;
  select_btn : bool;
  save_btn : bool;
  image_label : option Image;
  status_label : string
}.

(** The tab as [__init__] and [init_ui] leave it. *)
Definition init : state :=
  {| file_path := None; file_path_label := "未选择文件"; detect_btn := false;
     select_btn := true; save_btn := false; image_label := None;
     status_label := "就绪" |}.

(** [chosen] is what the file dialog returns, empty when cancelled. *)
Definition select_image (chosen : string) (t : state) : M state :=
  if truthy chosen
  then
    img ← cv2_imread chosen;
    match img with
    | Some img =>
        emit (status_message ("已加载图片: " +:+ os_path_basename chosen));;
        mret {| file_path := Some chosen;
                file_path_label := os_path_basename chosen;
                detect_btn := true; select_btn := select_btn t;
                save_btn := save_btn t; image_label := Some img;
                status_label := status_label t |}
    | None =>
        mret {| file_path := Some chosen;
                file_path_label := os_path_basename chosen;
                detect_btn := true; select_btn := select_btn t;
                save_btn := save_btn t; image_label := image_label t;
                status_label := status_label t |}
    end
  else mret t.

(** Returns the path given to the worker it starts, if it starts one. *)
Definition start_detection (t : state) : M (state * option string) :=
  match file_path t with
  | None => mret (t, None)
  | Some p =>
      emit (status_message "正在进行图片检测...");;
      mret ({| file_path := file_path t; file_path_label := file_path_label t;
               detect_btn := false; select_btn := false; save_btn := false;
               image_label := image_label t; status_label := "正在检测..." |},
            Some p)
  end.

Definition detection_complete (result_img : Image) (results : Results) (t : state)
    : M state :=
  emit (status_message "图片检测完成");;
  mret {| file_path := file_path t; file_path_label := file_path_label t;
          detect_btn := detect_btn t; select_btn := select_btn t; save_btn := true;
          image_label := Some result_img; status_label := "检测完成" |}.

Definition detection_error (error_msg : string) (t : state) : M state :=
  emit (status_message ("图片检测错误: " +:+ error_msg));;
  mret {| file_path := file_path t; file_path_label := file_path_label t;
          detect_btn := detect_btn t; select_btn := select_btn t;
          save_btn := save_btn t; image_label := image_label t;
          status_label := "检测错误: " +:+ error_msg |}.

Definition detection_finished (t : state) : M state :=
  mret {| file_path := file_path t; file_path_label := file_path_label t;
          detect_btn := true; select_btn := true; save_btn := save_btn t;
          image_label := image_label t; status_label := status_label t |}.

(** The connections made in [start_detection]: which slot a signal of the
    worker reaches. *)
Definition deliver (e : Event) (t : state) : M state :=
  match e with
  | sig_result_image img r => detection_complete img r t
  | sig_error msg => detection_error msg t
  | sig_finished => detection_finished t
  | _ => mret t
  end.

Fixpoint deliver_all (evs : list Event) (t : state) : M state :=
  match evs with
  | [] => mret t
  | e :: evs' => t' ← deliver e t; deliver_all evs' t'
  end.

(** A click on the detect button, followed through: the slot starts the
    worker, the worker runs, and the signals it sent are delivered to the
    slots in the order they were sent. *)
Definition press_detect (t : state) : M state :=
  '(t1, started) ← start_detection t;
  match started with
  | None => mret t1
  | Some image_path =>
      before ← gets emitted;
      ImageDetectionWorker_run image_path;;
      after ← gets emitted;
      deliver_all (drop (length before) after) t1
  end.

End Tab.
End ImageDetectionTab.

Module VideoDetectionTab.
Section Tab.
Context `{Ext : Externals}.

Record state := {
  file_path : option string;
  file_path_label : string;
  output_path : option string;
  detect_btn : bool;
  select_btn : bool;
  stop_btn : bool;
  save_btn : bool;
  progress_bar : Z;
  video_label : option Image;
  (** the video path and the output path of the worker in flight *)
  current_worker : option (string * string);
  status_label : string
}.

Definition init : state :=
  {| file_path := None; file_path_label := "未选择文件"; output_path := None;
     detect_btn := false; select_btn := true; stop_btn := false; save_btn := false;
     progress_bar := 0; video_label := None; current_worker := None;
     status_label := "就绪" |}.

Definition select_video (chosen : string) (t : state) : M state :=
  if truthy chosen
  then
    cap ← cv2_VideoCapture chosen;
    emit (status_message ("已加载视频: " +:+ os_path_basename chosen));;
    mret {| file_path := Some chosen; file_path_label := os_path_basename chosen;
            output_path := output_path t; detect_btn := true;
            select_btn := select_btn t; stop_btn := stop_btn t;
            save_btn := save_btn t; progress_bar := progress_bar t;
            video_label :=
              match cap with
              | Some v =>
                  match frames v with
                  | frame :: _ => Some frame
                  | [] => video_label t
                  end
              | None => video_label t
              end;
            current_worker := current_worker t; status_label := status_label t |}
  else mret t.

Definition start_detection (t : state) : M (state * option (string * string)) :=
  match file_path t with
  | None => mret (t, None)
  | Some p =>
      out ← get_default_save_path "video";
      emit (status_message "正在进行视频检测...");;
      mret ({| file_path := file_path t; file_path_label := file_path_label t;
               output_path := output_path t; detect_btn := false;
               select_btn := false; stop_btn := true; save_btn := false;
               progress_bar := 0; video_label := video_label t;
               current_worker := Some (p, out); status_label := "正在检测..." |},
            Some (p, out))
  end.

(** [self.current_worker.stop()] clears the flag of the worker, which the
    worker sees at one of its next tests. *)
Definition stop_detection (t : state) : M state :=
  match current_worker t with
  | Some _ =>
      emit (status_message "正在停止视频检测...");;
      mret {| file_path := file_path t; file_path_label := file_path_label t;
              output_path := output_path t; detect_btn := detect_btn t;
              select_btn := select_btn t; stop_btn := stop_btn t;
              save_btn := save_btn t; progress_bar := progress_bar t;
              video_label := video_label t; current_worker := current_worker t;
              status_label := "正在停止检测..." |}
  | None => mret t
  end.

Definition update_progress (p : Z) (frame : Image) (t : state) : M state :=
  update_progress p frame;;
  mret {| file_path := file_path t; file_path_label := file_path_label t;
          output_path := output_path t; detect_btn := detect_btn t;
          select_btn := select_btn t; stop_btn := stop_btn t;
          save_btn := save_btn t; progress_bar := p; video_label := Some frame;
          current_worker := current_worker t; status_label := status_label t |}.

Definition detection_complete (out : string) (results : list Results) (t : state)
    : M state :=
  emit (status_message ("视频检测完成: " +:+ os_path_basename out));;
  mret {| file_path := file_path t; file_path_label := file_path_label t;
          output_path := Some out; detect_btn := detect_btn t;
          select_btn := select_btn t; stop_btn := stop_btn t; save_btn := true;
          progress_bar := progress_bar t; video_label := video_label t;
          current_worker := current_worker t;
          status_label := "检测完成: " +:+ os_path_basename out |}.

Definition detection_error (error_msg : string) (t : state) : M state :=
  emit (status_message ("视频检测错误: " +:+ error_msg));;
  mret {| file_path := file_path t; file_path_label := file_path_label t;
          output_path := output_path t; detect_btn := detect_btn t;
          select_btn := select_btn t; stop_btn := stop_btn t;
          save_btn := save_btn t; progress_bar := progress_bar t;
          video_label := video_label t; current_worker := current_worker t;
          status_label := "检测错误: " +:+ error_msg |}.

Definition detection_finished (t : state) : M state :=
  mret {| file_path := file_path t; file_path_label := file_path_label t;
          output_path := output_path t; detect_btn := true; select_btn := true;
          stop_btn := false; save_btn := save_btn t;
          progress_bar := progress_bar t; video_label := video_label t;
          current_worker := None; status_label := status_label t |}.

(** [open(src, 'rb')] then [open(dst, 'wb')] and the copy of the bytes.  A
    directory opens for neither, and a file is created only in a directory
    that exists (the empty directory name is the current directory). *)
Definition copy_file (src dst : string) : M unit :=
  s ← gets (fun w => fs w !! src);
  match s with
  | None =>
      raise (Exn FileNotFoundError
               ("[Errno 2] No such file or directory: '" +:+ src +:+ "'"))
  | Some Dir =>
      raise (Exn LibraryError ("[Errno 21] Is a directory: '" +:+ src +:+ "'"))
  | Some node =>
      d ← gets (fun w => fs w !! dst);
      match d with
      | Some Dir =>
          raise (Exn LibraryError ("[Errno 21] Is a directory: '" +:+ dst +:+ "'"))
      | Some _ => modify (with_fs (fun m => <[dst := node]> m))
      | None =>
          if truthy (os_path_dirname dst)
          then
            parent ← gets (fun w => fs w !! os_path_dirname dst);
            match parent with
            | Some Dir => modify (with_fs (fun m => <[dst := node]> m))
            | Some _ =>
                raise (Exn LibraryError
                         ("[Errno 20] Not a directory: '" +:+ dst +:+ "'"))
            | None =>
                raise (Exn FileNotFoundError
                         ("[Errno 2] No such file or directory: '" +:+ dst +:+ "'"))
            end
          else modify (with_fs (fun m => <[dst := node]> m))
      end
  end.

(** [getSaveFileName] is the path the dialog returns for the proposed
    one. *)
Definition save_result (getSaveFileName : string -> string) (t : state) : M state :=
  match output_path t with
  | None => mret t
  | Some out =>
      ex ← os_path_exists out;
      if negb ex then mret t
      else
        let chosen := getSaveFileName out in
        if truthy chosen && negb (String.eqb chosen out)
        then
          try_except_finally
            (copy_file out chosen;;
             emit (status_message ("检测结果已保存: " +:+ os_path_basename chosen));;
             mret {| file_path := file_path t; file_path_label := file_path_label t;
                     output_path := output_path t; detect_btn := detect_btn t;
                     select_btn := select_btn t; stop_btn := stop_btn t;
                     save_btn := save_btn t; progress_bar := progress_bar t;
                     video_label := video_label t;
                     current_worker := current_worker t;
                     status_label :=
                       "结果已保存: " +:+ os_path_basename chosen |})
            (fun e =>
               emit (status_message ("保存检测结果失败: " +:+ str e));;
               mret {| file_path := file_path t;
                       file_path_label := file_path_label t;
                       output_path := output_path t; detect_btn := detect_btn t;
                       select_btn := select_btn t; stop_btn := stop_btn t;
                       save_btn := save_btn t; progress_bar := progress_bar t;
                       video_label := video_label t;
                       current_worker := current_worker t;
                       status_label := "保存失败: " +:+ str e |})
            (mret tt)
        else mret t
  end.

(** The connections made in [start_detection].  The worker of the tab is
    always given an output path; [os.path.basename] raises on [None]. *)
Definition deliver (e : Event) (t : state) : M state :=
  match e with
  | sig_progress p frame => update_progress p frame t
  | sig_result_video (Some out) rs => detection_complete out rs t
  | sig_result_video None rs =>
      raise (Exn LibraryError
               "expected str, bytes or os.PathLike object, not NoneType")
  | sig_error msg => detection_error msg t
  | sig_finished => detection_finished t
  | _ => mret t
  end.

Fixpoint deliver_all (evs : list Event) (t : state) : M state :=
  match evs with
  | [] => mret t
  | e :: evs' => t' ← deliver e t; deliver_all evs' t'
  end.

(** A click on the detect button, followed through, with [is_running] the
    values the worker sees in its flag. *)
Definition press_detect (is_running : nat -> bool) (t : state) : M state :=
  '(t1, started) ← start_detection t;
  match started with
  | None => mret t1
  | Some (video_path, out) =>
      before ← gets emitted;
      VideoDetectionWorker_run video_path (Some out) is_running;;
      after ← gets emitted;
      deliver_all (drop (length before) after) t1
  end.

End Tab.
End VideoDetectionTab.

Module WebcamDetectionTab.
Section Tab.
Context `{Ext : Externals}.

Record state := {
  (** the camera of the thread in flight *)
  detection_thread : option Z;
  detection_active : bool;
  current_results : option Results;
  (** [camera_combo.currentData()] and whether the combo is enabled *)
  currentData : Z;
  camera_combo : bool;
  start_btn : bool;
  stop_btn : bool;
  snapshot_btn : bool;
  webcam_label : option Image;
  count_value : string;
  status_label : string
}.

Definition init : state :=
  {| detection_thread := None; detection_active := false; current_results := None;
     currentData := 0; camera_combo := true; start_btn := true; stop_btn := false;
     snapshot_btn := false; webcam_label := None; count_value := "0";
     status_label := "就绪" |}.

(** Returns the camera of the thread it starts, if it starts one. *)
Definition start_detection (t : state) : M (state * option Z) :=
  if detection_active t then mret (t, None)
  else
    let cam_id := currentData t in
    emit (status_message "已开始摄像头实时检测");;
    mret ({| detection_thread := Some cam_id; detection_active := true;
             current_results := current_results t; currentData := currentData t;
             camera_combo := false; start_btn := false; stop_btn := true;
             snapshot_btn := true; webcam_label := webcam_label t;
             count_value := count_value t;
             status_label := "正在进行实时检测..." |},
          Some cam_id).

(** [stop()] clears the flag of the thread and [wait()] returns when the
    thread has ended. *)
Definition stop_detection (t : state) : M state :=
  if negb (detection_active t) then mret t
  else
    emit (status_message "摄像头实时检测已停止");;
    mret {| detection_thread := None; detection_active := false;
            current_results := current_results t; currentData := currentData t;
            camera_combo := true; start_btn := true; stop_btn := false;
            snapshot_btn := false; webcam_label := webcam_label t;
            count_value := count_value t; status_label := "实时检测已停止" |}.

Definition update_frame (frame : Image) (results : Results) (t : state) : M state :=
  update_frame frame results;;
  mret {| detection_thread := detection_thread t;
          detection_active := detection_active t;
          current_results := Some results; currentData := currentData t;
          camera_combo := camera_combo t; start_btn := start_btn t;
          stop_btn := stop_btn t; snapshot_btn := snapshot_btn t;
          webcam_label := Some frame;
          count_value :=
            if (0 <? length (boxes results))%nat
            then pretty (length (boxes results))
            else "0";
          status_label := status_label t |}.

Definition detection_error (error_msg : string) (t : state) : M state :=
  emit (status_message ("摄像头检测错误: " +:+ error_msg));;
  stop_detection
    {| detection_thread := detection_thread t;
       detection_active := detection_active t;
       current_results := current_results t; currentData := currentData t;
       camera_combo := camera_combo t; start_btn := start_btn t;
       stop_btn := stop_btn t; snapshot_btn := snapshot_btn t;
       webcam_label := webcam_label t; count_value := count_value t;
       status_label := "检测错误: " +:+ error_msg |}.

(** The connections made in [start_detection]. *)
Definition deliver (e : Event) (t : state) : M state :=
  match e with
  | sig_frame_ready frame r => update_frame frame r t
  | sig_error msg => detection_error msg t
  | _ => mret t
  end.

Fixpoint deliver_all (evs : list Event) (t : state) : M state :=
  match evs with
  | [] => mret t
  | e :: evs' => t' ← deliver e t; deliver_all evs' t'
  end.

(** A click on the start button, followed through to the end of the
    thread: [running] is what the thread sees in its flag, cleared when the
    user stops the detection. *)
Definition press_start (fuel : nat) (running : nat -> bool) (t : state) : M state :=
  '(t1, started) ← start_detection t;
  match started with
  | None => mret t1
  | Some cam_id =>
      before ← gets emitted;
      WebcamDetectionThread_run fuel cam_id running;;
      after ← gets emitted;
      deliver_all (drop (length before) after) t1
  end.

End Tab.
End WebcamDetectionTab.

(** ** More vocabulary *)

Section More_vocabulary.
Context `{Ext : Externals}.

(** Between [w] and [w'] nothing happened but the emission of [evs]. *)
Definition only_emits (w w' : World) (evs : list Event) : Prop :=
  fs w' = fs w /\ ticks w' = ticks w /\ detector w' = detector w /\
  emitted w' = emitted w ++ evs.

(** Between the file systems [m] and [m'] nothing happened but the making
    of directories at paths where nothing was. *)
Definition only_new_directories (m m' : gmap string Node) : Prop :=
  forall q, m' !! q = m !! q \/ (m !! q = None /\ m' !! q = Some Dir).

(** A part of the world that does not depend on the detector. *)
Definition ignores_detector {X} (part : World -> X) : Prop :=
  forall f w, part (with_detector f w) = part w.

(** The error dialog of [utils.show_error_message]. *)
Definition is_critical (e : Event) : bool :=
  match e with
  | critical _ _ => true
  | _ => false
  end.

(** The kinds of signal a worker sends. *)
Definition is_progress (e : Event) : bool :=
  match e with
  | sig_progress _ _ => true
  | _ => false
  end.

(** The frames carried by the [progress] signals of a list of events. *)
Definition progress_frames (evs : list Event) : list Image :=
  omap (fun e => match e with sig_progress _ frame => Some frame | _ => None end) evs.

(** A record whose ["type"] is one of the three kinds the history tab counts. *)
Definition known_type (rec : pydict) : bool :=
  has_type "image" rec || has_type "video" rec || has_type "webcam" rec.

(** A computation that adds at most one record to the end of the log, and
    only a record with property [P]. *)
Definition appends_only {A} (P : pydict -> Prop) (m : M A) : Prop :=
  forall w,
    history_of (m w).1 = history_of w \/
    exists r, history_of (m w).1 = history_of w ++ [r] /\ P r.

(** The world after a sequence of operations, each run on the world the
    one before left, whether it returned or raised. *)
Fixpoint after_ops (ops : list Op) (w : World) : World :=
  match ops with
  | [] => w
  | op :: ops' => after_ops ops' (run_op op w).1
  end.

End More_vocabulary.

(** ** A concrete environment

    Frames are lists of pixel values, a model finds one box per pixel and
    drawing the overlays puts a marker in front of the frame.  It is used to
    run the methods on examples. *)

Module Sample.

(** Whether the name [p] ends with [suffix]. *)
Definition has_suffix (suffix p : string) : bool :=
  String.eqb suffix
    (substring (String.length p - String.length suffix) (String.length suffix) p).

Definition encodes (p : string) : bool :=
  has_suffix ".jpg" p || has_suffix ".jpeg" p || has_suffix ".png" p.

(** Floats are fixed-point numbers, in hundredths: [1 / 3 * 100] is [33.00],
    and [int] of it is [33].  The clock counts in hundredths of a second.  [imwrite] encodes to the three extensions of the save dialogs
    and raises on any other name; a picture opens as a video of one frame;
    every writer opens. *)
Definition ext : Externals :=
  {| Image := list Z;
     Float := Z;
     Model := string;
     Results := list Z * list Z;
     Box := Z;
     YOLO := fun path => inr path;
     predict := fun _ frame => inr [(frame, frame)];
     boxes := snd;
     box_cls := fun b => b;
     plot := fun r => (255 :: fst r)%Z;
     truediv := fun a b => (a * 100 / b)%Z;
     fmul := fun x y => (x * y / 100)%Z;
     fsub := Z.sub;
     float_of_int := fun n => (n * 100)%Z;
     int_of_float := fun x => (x ÷ 100)%Z;
     clock_time := Z.of_nat;
     clock_strftime := fun _ n => pretty n;
     expanduser := "/home/user";
     imwrite_ok := encodes;
     imwrite_error := fun p =>
       if encodes p then None
       else Some (Exn LibraryError
                    "could not find a writer for the specified extension");
     VideoCapture_image := fun _ img =>
       Some (2500, 100, 200, 100, [img])%Z;
     VideoWriter_ok := fun _ => true |}.

Definition det0 : @Detector ext := @Build_Detector ext "best.pt" None None [].

(** A container of 25 frames a second and 2 by 1 pixels that reports
    [count] frames and delivers [fs]. *)
Definition clip (count : Z) (fs : list (list Z)) : @Video ext :=
  @Build_Video ext 2500%Z (count * 100)%Z 200%Z 100%Z fs.

Definition files : gmap string (@Node ext) :=
  {[ "a.jpg" := @ImageFile ext [1; 2]%Z;
     "v.mp4" := @VideoFile ext (clip 3 [[1]; [2]; [3]]%Z);
     "z.mp4" := @VideoFile ext (clip 0 [[7]]%Z) ]}.

(** Camera 0 delivers the same frame for ever, camera 2 opens and fails at
    the first read, no other camera opens. *)
Definition devices (cam_id : Z) : option (nat -> option (list Z)) :=
  if (cam_id =? 0)%Z then Some (fun _ => Some [9]%Z)
  else if (cam_id =? 2)%Z then Some (fun _ => None)
  else None.

(** One picture, a three-frame clip, a clip whose container reports no
    frames, the cameras above, a new detector and nothing emitted yet. *)
Definition world0 : @World ext := @Build_World ext files devices 0 det0 [].

(** A world whose log already holds the record that an image run on
    [a.jpg] appends when the clock is at 0. *)
Definition world_seen : @World ext :=
  @Build_World ext files devices 0
    (@Build_Detector ext "best.pt" None None
       [ @image_record ext "a.jpg" "2" ([1; 2]%Z, [1; 2]%Z) 0%Z 1%Z ])
    [].

(** The sample world with a table of the log exported beside the clips. *)
Definition world_csv : @World ext :=
  @Build_World ext (<["log.csv" := @CsvFile ext []]> files) devices 0 det0 [].

(** A detector that has run once on the sample picture. *)
Definition det1 : @Detector ext :=
  @Build_Detector ext "best.pt" None (Some [5]%Z)
    [ @image_record ext "a.jpg" "1" ([1; 2]%Z, [1; 2]%Z) 0%Z 1%Z ].

Definition world1 : @World ext := @Build_World ext files devices 0 det1 [].

(** The tabs with a file chosen, and the webcam tab set on camera 1. *)
Definition image_tab : @ImageDetectionTab.state ext :=
  @ImageDetectionTab.Build_state ext (Some "a.jpg") "a.jpg" true true false None "就绪".

Definition video_tab : @VideoDetectionTab.state ext :=
  @VideoDetectionTab.Build_state ext (Some "v.mp4") "v.mp4" None true true false false
    0%Z None None "就绪".

Definition webcam_tab : @WebcamDetectionTab.state ext :=
  @WebcamDetectionTab.Build_state ext None false None 1%Z true true false false None
    "0" "就绪".

(** The video tab after a run whose output is [v.mp4]. *)
Definition video_tab_done : @VideoDetectionTab.state ext :=
  @VideoDetectionTab.Build_state ext (Some "v.mp4") "v.mp4" (Some "v.mp4") true true
    false true 100%Z None None "就绪".

End Sample.

(** * Properties *)

Create HintDb keeps.

Section Monad_facts.
Context `{Ext : Externals}.

(** ** Running a computation *)

Lemma bind_run {A B} (m : M A) (f : A -> M B) (w : World) :
  (m ≫= f) w =
  match m w with
  | (w', Return a) => f a w'
  | (w', Raise e) => (w', Raise e)
  | (w', OutOfFuel) => (w', OutOfFuel)
  end.
Proof. reflexivity. Qed.

Lemma bind_return {A B} (m : M A) (f : A -> M B) (w w' : World) (a : A) :
  m w = (w', Return a) -> (m ≫= f) w = f a w'.
Proof. intros H. rewrite bind_run, H. reflexivity. Qed.

Lemma bind_raise {A B} (m : M A) (f : A -> M B) (w w' : World) (e : exn) :
  m w = (w', Raise e) -> (m ≫= f) w = (w', Raise e).
Proof. intros H. rewrite bind_run, H. reflexivity. Qed.

(** Inverting a bind that returned. *)
Lemma bind_inv_return {A B} (m : M A) (f : A -> M B) (w w' : World) (b : B) :
  (m ≫= f) w = (w', Return b) ->
  exists w1 a, m w = (w1, Return a) /\ f a w1 = (w', Return b).
Proof.
  rewrite bind_run. destruct (m w) as [w1 [a|e|]]; intros H; try discriminate.
  exists w1, a. split; [reflexivity | exact H].
Qed.

(** ** Computations that leave a part of the world alone *)

Section Keeps.
Context {X : Type} (part : World -> X).

Lemma keeps_ret {A} (a : A) : keeps part (mret a).
Proof. intros w. reflexivity. Qed.

Lemma keeps_raise {A} (e : exn) : keeps part (raise e : M A).
Proof. intros w. reflexivity. Qed.

Lemma keeps_out_of_fuel {A} : keeps part (out_of_fuel : M A).
Proof. intros w. reflexivity. Qed.

Lemma keeps_gets {A} (f : World -> A) : keeps part (gets f).
Proof. intros w. reflexivity. Qed.

Lemma keeps_lift {A} (r : exn + A) : keeps part (lift r).
Proof. destruct r; intros w; reflexivity. Qed.

Lemma keeps_modify (g : World -> World) :
  (forall w, part (g w) = part w) -> keeps part (modify g).
Proof. intros H w. apply H. Qed.

Lemma keeps_bind {A B} (m : M A) (f : A -> M B) :
  keeps part m -> (forall a, keeps part (f a)) -> keeps part (m ≫= f).
Proof.
  intros Hm Hf w. rewrite bind_run. specialize (Hm w).
  destruct (m w) as [w1 [a|e|]]; simpl in *; try exact Hm.
  rewrite Hf. exact Hm.
Qed.

Lemma keeps_try {A} (body : M A) (handler : exn -> M A) (fin : M unit) :
  keeps part body -> (forall e, keeps part (handler e)) -> keeps part fin ->
  keeps part (try_except_finally body handler fin).
Proof.
  intros Hb Hh Hf w. unfold try_except_finally. specialize (Hb w).
  destruct (body w) as [w1 [a|e|]]; simpl in *; try exact Hb.
  - specialize (Hf w1). destruct (fin w1) as [w2 [[]|e|]]; simpl in *; congruence.
  - specialize (Hh e w1). destruct (handler e w1) as [w2 [a|e'|]]; simpl in *;
      try congruence;
      specialize (Hf w2); destruct (fin w2) as [w3 [[]|e''|]]; simpl in *; congruence.
Qed.

End Keeps.

End Monad_facts.

(** Splits a computation along its binds and branches. *)
Ltac keeps_go :=
  repeat first
    [ match goal with |- forall _, _ => intro end
    | apply keeps_ret | apply keeps_raise | apply keeps_gets | apply keeps_lift
    | apply keeps_out_of_fuel
    | solve [ eauto with keeps ]
    | apply keeps_bind
    | apply keeps_try
    | match goal with
      | |- keeps _ (if ?b then _ else _) => destruct b
      | |- keeps _ (match ?x with _ => _ end) => destruct x
      end ].

#[export] Hint Resolve keeps_ret keeps_raise keeps_out_of_fuel keeps_gets keeps_lift : keeps.

(** ** Which primitive touches what *)

Section Primitive_facts.
Context `{Ext : Externals} {X : Type} (part : World -> X).

Lemma keeps_emit (e : Event) : ignores_emitted part -> keeps part (emit e).
Proof. intros H. apply keeps_modify. intros w. apply H. Qed.

Lemma keeps_time_time : ignores_ticks part -> keeps part time_time.
Proof. intros H w. apply H. Qed.

Lemma keeps_now_strftime (fmt : string) : ignores_ticks part -> keeps part (now_strftime fmt).
Proof. intros H w. apply H. Qed.

Lemma keeps_os_makedirs (d : string) : ignores_fs part -> keeps part (os_makedirs d).
Proof. intros H. apply keeps_modify. intros w. apply H. Qed.

Lemma keeps_cv2_imwrite (p : string) (img : Image) :
  ignores_fs part -> keeps part (cv2_imwrite p img).
Proof.
  intros H. unfold cv2_imwrite.
  destruct (imwrite_ok p);
    [| destruct (imwrite_error p); [apply keeps_raise | apply keeps_ret]].
  apply keeps_bind; [| intros; apply keeps_ret].
  apply keeps_modify. intros w. apply H.
Qed.

Lemma keeps_cv2_VideoWriter (p : string) (fps : Float) (width height : Z) :
  ignores_fs part -> keeps part (cv2_VideoWriter p fps width height).
Proof.
  intros H. unfold cv2_VideoWriter. destruct (VideoWriter_ok p); [| apply keeps_ret].
  apply keeps_modify. intros w. apply H.
Qed.

Lemma keeps_out_write (p : string) (frame : Image) :
  ignores_fs part -> keeps part (out_write p frame).
Proof.
  intros H. unfold out_write. destruct (VideoWriter_ok p); [| apply keeps_ret].
  apply keeps_modify. intros w. apply H.
Qed.

Lemma keeps_to_csv (p : string) (history : list pydict) :
  ignores_fs part -> keeps part (to_csv p history).
Proof.
  intros H. unfold to_csv. keeps_go; apply keeps_modify; intros w; apply H.
Qed.

Lemma keeps_call_model (frame : Image) : keeps part (call_model frame).
Proof. unfold call_model. keeps_go. Qed.

Lemma keeps_first_result (rs : list Results) : keeps part (first_result rs).
Proof. unfold first_result. keeps_go. Qed.

Lemma keeps_progress_of (frame_idx frame_count : Z) :
  keeps part (progress_of frame_idx frame_count).
Proof. unfold progress_of. keeps_go. Qed.

Lemma keeps_os_path_exists (p : string) : keeps part (os_path_exists p).
Proof. apply keeps_gets. Qed.

Lemma keeps_cv2_imread (p : string) : keeps part (cv2_imread p).
Proof. apply keeps_gets. Qed.

Lemma keeps_cv2_VideoCapture (p : string) : keeps part (cv2_VideoCapture p).
Proof. apply keeps_gets. Qed.

Lemma keeps_cv2_VideoCapture_cam (cam_id : Z) : keeps part (cv2_VideoCapture_cam cam_id).
Proof. apply keeps_gets. Qed.

Lemma keeps_get_detection_history : keeps part get_detection_history.
Proof. apply keeps_gets. Qed.

End Primitive_facts.

#[export] Hint Resolve keeps_emit keeps_time_time keeps_now_strftime keeps_os_makedirs
  keeps_cv2_imwrite keeps_cv2_VideoWriter keeps_out_write keeps_to_csv keeps_call_model
  keeps_first_result keeps_progress_of keeps_os_path_exists keeps_cv2_imread
  keeps_cv2_VideoCapture keeps_cv2_VideoCapture_cam keeps_get_detection_history : keeps.

#[export] Hint Extern 1 (ignores_fs _) => (intros ? ?; reflexivity) : keeps.
#[export] Hint Extern 1 (ignores_ticks _) => (intros ? ?; reflexivity) : keeps.
#[export] Hint Extern 1 (ignores_emitted _) => (intros ? ?; reflexivity) : keeps.

(** Unfolds the primitives and the binds of a computation applied to a
    world. *)
Ltac run :=
  cbv beta iota zeta delta
    [mbind M_bind mret M_ret gets modify raise lift emit out_of_fuel
     os_path_exists os_makedirs cv2_imread cv2_imwrite cv2_VideoCapture
     cv2_VideoCapture_cam cv2_VideoWriter out_write time_time now_strftime
     set_results set_current_frame history_append history_reset call_model
     first_result progress_of get_detection_history to_csv show_info_message
     show_error_message show_question_message].

Section Facts.
Context `{Ext : Externals}.

(** ** The history log is touched in two places only *)

Lemma keeps_history_set_results (r : PyResults) : keeps history_of (set_results r).
Proof. intros w. reflexivity. Qed.

Lemma keeps_history_set_current_frame (frame : Image) :
  keeps history_of (set_current_frame frame).
Proof. intros w. reflexivity. Qed.

Lemma keeps_fs_set_results (r : PyResults) : keeps fs (set_results r).
Proof. intros w. reflexivity. Qed.

Lemma keeps_fs_set_current_frame (frame : Image) : keeps fs (set_current_frame frame).
Proof. intros w. reflexivity. Qed.

Lemma keeps_fs_history_append (r : pydict) : keeps fs (history_append r).
Proof. intros w. reflexivity. Qed.

Lemma keeps_fs_history_reset : keeps fs history_reset.
Proof. intros w. reflexivity. Qed.

#[local] Hint Resolve keeps_history_set_results keeps_history_set_current_frame
  keeps_fs_set_results keeps_fs_set_current_frame keeps_fs_history_append
  keeps_fs_history_reset : keeps.

(** ** Helpers of the methods *)

Lemma keeps_detector_history {A} (m : M A) : keeps detector m -> keeps history_of m.
Proof. intros H w. unfold history_of. rewrite H. reflexivity. Qed.

Lemma keeps_open_output {X} (part : World -> X) output_path fps width height :
  ignores_fs part -> keeps part (open_output output_path fps width height).
Proof. intros H. unfold open_output. keeps_go. Qed.

Lemma keeps_write_output {X} (part : World -> X) output_path frame :
  ignores_fs part -> keeps part (write_output output_path frame).
Proof. intros H. unfold write_output. keeps_go. Qed.

Lemma keeps_get_default_save_path {X} (part : World -> X) file_type :
  ignores_fs part -> ignores_ticks part -> keeps part (get_default_save_path file_type).
Proof. intros H1 H2. unfold get_default_save_path. keeps_go. Qed.

Lemma keeps_save_current_frame {X} (part : World -> X) save_path :
  ignores_fs part -> keeps part (save_current_frame save_path).
Proof. intros H. unfold save_current_frame. keeps_go. Qed.

Lemma keeps_export_detection_history {X} (part : World -> X) history export_path :
  ignores_fs part -> keeps part (export_detection_history history export_path).
Proof. intros H. unfold export_detection_history. keeps_go. Qed.

#[local] Hint Resolve keeps_open_output keeps_write_output keeps_get_default_save_path
  keeps_save_current_frame keeps_export_detection_history : keeps.

(** ** The loops leave the history log alone *)

Lemma keeps_history_observer {A B} (f : A -> B -> M unit) a b :
  observer (Some f) -> keeps history_of (f a b).
Proof. intros H. apply keeps_detector_history, H. Qed.

#[local] Hint Resolve keeps_history_observer : keeps.

Lemma keeps_history_detect_video_loop output_path progress_callback frame_count
    pending frame_idx all_results :
  observer progress_callback ->
  keeps history_of
    (detect_video_loop output_path progress_callback frame_count pending
       frame_idx all_results).
Proof.
  intros Hcb. revert frame_idx all_results.
  induction pending as [|frame pending IH]; intros frame_idx all_results; simpl.
  - apply keeps_ret.
  - keeps_go.
Qed.

Lemma keeps_history_video_worker_loop output_path is_running frame_count pending
    tests frame_idx all_results :
  keeps history_of
    (video_worker_loop output_path is_running frame_count pending tests
       frame_idx all_results).
Proof.
  revert tests frame_idx all_results.
  induction pending as [|frame pending IH]; intros tests frame_idx all_results; simpl.
  - destruct (negb (is_running tests)); apply keeps_ret.
  - keeps_go.
Qed.

Lemma keeps_history_detect_webcam_loop fuel stop_signal frame_callback cap frame_count :
  observer frame_callback ->
  keeps history_of (detect_webcam_loop fuel stop_signal frame_callback cap frame_count).
Proof.
  intros Hcb. revert frame_count.
  induction fuel as [|fuel IH]; intros frame_count; simpl.
  - apply keeps_out_of_fuel.
  - keeps_go.
Qed.

Lemma keeps_history_webcam_thread_loop fuel running cap frame_count :
  keeps history_of (webcam_thread_loop fuel running cap frame_count).
Proof.
  revert frame_count. induction fuel as [|fuel IH]; intros frame_count; simpl.
  - apply keeps_out_of_fuel.
  - keeps_go.
Qed.

#[local] Hint Resolve keeps_history_detect_video_loop keeps_history_video_worker_loop
  keeps_history_detect_webcam_loop keeps_history_webcam_thread_loop : keeps.

(** ** At most one record per run *)

Lemma grows_keeps {A} (m : M A) : keeps history_of m -> appends_at_most_one m.
Proof. intros H w. left. apply H. Qed.

Lemma grows_history_append (r : pydict) : appends_at_most_one (history_append r).
Proof. intros w. right. exists r. reflexivity. Qed.

Lemma grows_bind_l {A B} (m : M A) (f : A -> M B) :
  keeps history_of m -> (forall a, appends_at_most_one (f a)) ->
  appends_at_most_one (m ≫= f).
Proof.
  intros Hm Hf w. rewrite bind_run. specialize (Hm w).
  destruct (m w) as [w1 [a|e|]]; simpl in *; try (left; exact Hm).
  rewrite <- Hm. apply Hf.
Qed.

Lemma grows_bind_r {A B} (m : M A) (f : A -> M B) :
  appends_at_most_one m -> (forall a, keeps history_of (f a)) ->
  appends_at_most_one (m ≫= f).
Proof.
  intros Hm Hf w. rewrite bind_run. specialize (Hm w).
  destruct (m w) as [w1 [a|e|]]; simpl in *; try exact Hm.
  specialize (Hf a w1).
  destruct Hm as [H|[r H]]; [left | right; exists r]; congruence.
Qed.

Lemma grows_try {A} (body : M A) (handler : exn -> M A) (fin : M unit) :
  appends_at_most_one body -> (forall e, keeps history_of (handler e)) ->
  keeps history_of fin ->
  appends_at_most_one (try_except_finally body handler fin).
Proof.
  intros Hb Hh Hf w. unfold try_except_finally. specialize (Hb w).
  destruct (body w) as [w1 [a|e|]]; simpl in *; try exact Hb.
  - specialize (Hf w1). destruct (fin w1) as [w2 [[]|e|]]; simpl in *;
      (destruct Hb as [H|[r H]]; [left | right; exists r]; congruence).
  - specialize (Hh e w1). destruct (handler e w1) as [w2 [a|e'|]]; simpl in *;
      try (destruct Hb as [H|[r H]]; [left | right; exists r]; congruence);
      specialize (Hf w2); destruct (fin w2) as [w3 [[]|e''|]]; simpl in *;
      (destruct Hb as [H|[r H]]; [left | right; exists r]; congruence).
Qed.

Ltac grows_go :=
  repeat first
    [ match goal with |- forall _, _ => intro end
    | apply grows_history_append
    | apply grows_bind_r; [ apply grows_history_append | solve [ keeps_go ] ]
    | apply grows_bind_l; [ solve [ keeps_go ] | ]
    | apply grows_keeps; solve [ keeps_go ]
    | match goal with
      | |- appends_at_most_one (if ?b then _ else _) => destruct b
      | |- appends_at_most_one (match ?x with _ => _ end) => destruct x
      end ].

Lemma grows_detect_image image_path : appends_at_most_one (detect_image image_path).
Proof. unfold detect_image. grows_go. Qed.

Lemma grows_detect_video video_path output_path progress_callback :
  observer progress_callback ->
  appends_at_most_one (detect_video video_path output_path progress_callback).
Proof. intros H. unfold detect_video. grows_go. Qed.

Lemma grows_detect_webcam fuel cam_id stop_signal frame_callback :
  observer frame_callback ->
  appends_at_most_one (detect_webcam fuel cam_id stop_signal frame_callback).
Proof. intros H. unfold detect_webcam. grows_go. Qed.

Lemma grows_ImageDetectionWorker_run image_path :
  appends_at_most_one (ImageDetectionWorker_run image_path).
Proof.
  unfold ImageDetectionWorker_run. apply grows_try; [| keeps_go | keeps_go].
  apply grows_bind_r; [apply grows_detect_image |].
  intros [img r]. keeps_go.
Qed.

Lemma grows_VideoDetectionWorker_run video_path output_path is_running :
  appends_at_most_one (VideoDetectionWorker_run video_path output_path is_running).
Proof.
  unfold VideoDetectionWorker_run. apply grows_try; [| keeps_go | keeps_go].
  unfold VideoDetectionWorker_body. grows_go.
Qed.

Lemma grows_WebcamDetectionThread_run fuel cam_id running :
  appends_at_most_one (WebcamDetectionThread_run fuel cam_id running).
Proof. unfold WebcamDetectionThread_run. grows_go. Qed.

(** [clear_history] empties the log or leaves it as it is. *)
Lemma clear_history_all_or_nothing answer w :
  history_of (clear_history answer w).1 = history_of w \/
  history_of (clear_history answer w).1 = [].
Proof.
  unfold clear_history, history_of. rewrite bind_run. simpl.
  destruct (detection_history (detector w)) as [|r h] eqn:E.
  - left. simpl. exact E.
  - destruct answer; [right | left; rewrite <- E]; reflexivity.
Qed.

(** Whatever operation is run on the shared detector, the history log
    afterwards is the log before, or the log before with one record added at
    its end, or the empty log. *)
Lemma history_trichotomy (op : Op) (w : World) :
  op_observes op ->
  history_of (run_op op w).1 = history_of w \/
  (exists r, history_of (run_op op w).1 = history_of w ++ [r]) \/
  history_of (run_op op w).1 = [].
Proof.
  intros Hobs.
  assert (Hgrow : forall m : M unit, appends_at_most_one m ->
            history_of (m w).1 = history_of w \/
            (exists r, history_of (m w).1 = history_of w ++ [r]) \/
            history_of (m w).1 = []).
  { intros m Hm. destruct (Hm w) as [H|H]; [left | right; left]; exact H. }
  destruct op; simpl in Hobs; unfold run_op, void.
  - apply Hgrow. apply grows_bind_r; [apply grows_detect_image | keeps_go].
  - apply Hgrow. apply grows_bind_r; [apply grows_detect_video, Hobs | keeps_go].
  - apply Hgrow. apply grows_bind_r; [apply grows_detect_webcam, Hobs | keeps_go].
  - apply Hgrow. grows_go.
  - apply Hgrow. grows_go.
  - apply Hgrow, grows_ImageDetectionWorker_run.
  - apply Hgrow, grows_VideoDetectionWorker_run.
  - apply Hgrow, grows_WebcamDetectionThread_run.
  - apply Hgrow. unfold update_progress. grows_go.
  - apply Hgrow. unfold update_frame. grows_go.
  - apply Hgrow. unfold save_result. grows_go.
  - apply Hgrow. unfold take_snapshot. grows_go.
  - apply Hgrow. unfold update_history_table. grows_go.
  - apply Hgrow. unfold export_history, show_info_message, show_error_message. grows_go.
  - destruct (clear_history_all_or_nothing answer w) as [H|H]; [left | right; right];
      exact H.
Qed.

(** ** Running a computation whose parts are known *)

Lemma keeps_run {X A} (part : World -> X) (m : M A) w w' o :
  keeps part m -> m w = (w', o) -> part w' = part w.
Proof. intros H E. specialize (H w). rewrite E in H. exact H. Qed.

(** ** The constructor *)

(** C8. Built with no model path, or with a path at which nothing exists,
    the detector loads the default weights [yolo11n.pt]; built with a path
    that exists, it loads the model at that path.  In both cases the
    detector is what [YOLO] gives, or the constructor raises what [YOLO]
    raises. *)
Theorem init_loads_default_or_custom (w : World) (model_path : option string) :
  (match model_path with Some p => fs w !! p = None | None => True end ->
   HandSignDetector_init model_path w =
     (w, match YOLO "yolo11n.pt" with
         | inr m => Return (new_detector m)
         | inl e => Raise e
         end)) /\
  (forall p, model_path = Some p -> is_Some (fs w !! p) ->
   HandSignDetector_init model_path w =
     (w, match YOLO p with
         | inr m => Return (new_detector m)
         | inl e => Raise e
         end)).
Proof.
  split.
  - intros H. unfold HandSignDetector_init. destruct model_path as [p|].
    + rewrite bind_run. simpl. rewrite H. simpl.
      destruct (YOLO "yolo11n.pt"); reflexivity.
    + rewrite bind_run. simpl. destruct (YOLO "yolo11n.pt"); reflexivity.
  - intros p -> [n Hn]. unfold HandSignDetector_init.
    rewrite bind_run. simpl. rewrite Hn. simpl.
    destruct (YOLO p); reflexivity.
Qed.

(** ** A camera that does not open *)

(** C4. When the camera does not open, [detect_webcam] raises [ValueError]
    at once and the webcam thread signals the error and returns; in both the
    world is otherwise as before, so no record reaches the history log. *)
Theorem webcam_fails_when_camera_does_not_open (w : World) (fuel : nat) (cam_id : Z)
    (stop_signal : option (nat -> bool))
    (frame_callback : option (Image -> Results -> M unit)) (running : nat -> bool) :
  cameras w cam_id = None ->
  detect_webcam fuel cam_id stop_signal frame_callback w =
    (w, Raise (Exn ValueError ("无法打开摄像头ID: " +:+ pretty cam_id))) /\
  WebcamDetectionThread_run fuel cam_id running w =
    (with_emitted (fun l => l ++ [sig_error ("无法打开摄像头 ID: " +:+ pretty cam_id)]) w,
     Return tt) /\
  history_of (detect_webcam fuel cam_id stop_signal frame_callback w).1 = history_of w /\
  history_of (WebcamDetectionThread_run fuel cam_id running w).1 = history_of w.
Proof.
  intros H.
  assert (H1 : detect_webcam fuel cam_id stop_signal frame_callback w =
               (w, Raise (Exn ValueError ("无法打开摄像头ID: " +:+ pretty cam_id)))).
  { unfold detect_webcam. rewrite bind_run. simpl. rewrite H. reflexivity. }
  assert (H2 : WebcamDetectionThread_run fuel cam_id running w =
               (with_emitted
                  (fun l => l ++ [sig_error ("无法打开摄像头 ID: " +:+ pretty cam_id)]) w,
                Return tt)).
  { unfold WebcamDetectionThread_run. rewrite bind_run. simpl. rewrite H. reflexivity. }
  rewrite H1, H2. repeat split; reflexivity.
Qed.

(** ** Clearing and exporting an empty log *)

(** C6. Clearing an empty history shows the "already empty" information
    dialog and returns without raising; nothing else in the world changes,
    and the log stays empty. *)
Theorem clear_history_when_empty (w : World) (answer : bool) :
  history_of w = [] ->
  clear_history answer w =
    (with_emitted (fun l => l ++ [information "清空历史" "历史记录已经为空"]) w, Return tt) /\
  history_of (clear_history answer w).1 = [].
Proof.
  intros H. unfold history_of in H.
  assert (E : clear_history answer w =
              (with_emitted (fun l => l ++ [information "清空历史" "历史记录已经为空"]) w,
               Return tt)).
  { unfold clear_history. rewrite bind_run. simpl. rewrite H. reflexivity. }
  rewrite E. split; [reflexivity | exact H].
Qed.

(** C7. [export_detection_history] on an empty history returns [False] and
    leaves the world, files included, as it was; the history tab on an empty
    log shows the "nothing to export" dialog and writes no file either. *)
Theorem export_of_empty_history_writes_nothing (w : World) (export_path : string)
    (getSaveFileName : string -> string) :
  export_detection_history [] export_path w = (w, Return false) /\
  (history_of w = [] ->
   export_history getSaveFileName w =
     (with_emitted (fun l => l ++ [information "导出失败" "没有历史数据可导出"]) w,
      Return tt) /\
   fs (export_history getSaveFileName w).1 = fs w).
Proof.
  split; [reflexivity |].
  intros H. unfold history_of in H.
  assert (E : export_history getSaveFileName w =
              (with_emitted (fun l => l ++ [information "导出失败" "没有历史数据可导出"]) w,
               Return tt)).
  { unfold export_history. rewrite bind_run. simpl. rewrite H. reflexivity. }
  rewrite E. split; reflexivity.
Qed.

(** ** Image runs *)

(** What a successful [detect_image] read, computed and left behind. *)
Lemma detect_image_inv image_path w w' annotated r :
  detect_image image_path w = (w', Return (annotated, r)) ->
  exists img rs,
    fs w !! image_path = Some (ImageFile img) /\
    predict (model (detector w)) img = inr (r :: rs) /\
    annotated = plot r /\
    fs w' = fs w /\
    current_frame (detector w') = Some img /\
    results (detector w') = Some (ResList (r :: rs)) /\
    history_of w' =
      history_of w ++
      [image_record image_path
         (clock_strftime "%Y-%m-%d %H:%M:%S" (S (S (ticks w)))) r
         (clock_time (ticks w)) (clock_time (S (ticks w)))].
Proof.
  unfold detect_image. run.
  destruct (fs w !! image_path) as [[| img | | |]|] eqn:E; simpl; rewrite ?E; simpl;
    try discriminate.
  destruct (predict (model (detector w)) img) as [e|[|r0 rs]] eqn:P; simpl;
    try discriminate.
  intros H. inversion H; subst. exists img, rs.
  repeat split; try reflexivity; assumption.
Qed.

(** A picture that decodes and a model that answers make the run succeed. *)
Lemma detect_image_succeeds image_path w img r rs :
  fs w !! image_path = Some (ImageFile img) ->
  predict (model (detector w)) img = inr (r :: rs) ->
  exists w', detect_image image_path w = (w', Return (plot r, r)).
Proof.
  intros E P. unfold detect_image. run. rewrite E. simpl. rewrite E. simpl.
  rewrite P. simpl. eexists. reflexivity.
Qed.

(** C3. A successful image run appends exactly one record to the history
    log; its kind is "image" and its detection count is the number of boxes
    in the result the model returned for the picture read from the path. *)
Theorem image_run_appends_one_image_record image_path w w' annotated r :
  detect_image image_path w = (w', Return (annotated, r)) ->
  exists img rs rec,
    fs w !! image_path = Some (ImageFile img) /\
    predict (model (detector w)) img = inr (r :: rs) /\
    history_of w' = history_of w ++ [rec] /\
    dict_get "type" rec = Some (VStr "image") /\
    dict_get "detections" rec = Some (VInt (Z.of_nat (length (boxes r)))).
Proof.
  intros H. apply detect_image_inv in H as (img & rs & E & P & _ & _ & _ & _ & Hh).
  eexists img, rs, _. repeat split; [exact E | exact P | exact Hh | reflexivity..].
Qed.

(** ** Video runs *)

Lemma open_output_returns output_path fps width height w :
  exists w1,
    open_output output_path fps width height w = (w1, Return tt) /\
    detector w1 = detector w /\ ticks w1 = ticks w /\ emitted w1 = emitted w.
Proof.
  unfold open_output. destruct (opt_truthy output_path); run.
  - destruct (fs w !! os_path_dirname (default "" output_path));
      destruct (truthy (os_path_dirname (default "" output_path)));
      destruct (VideoWriter_ok (default "" output_path));
      simpl; eexists; repeat split.
  - eexists; repeat split.
Qed.

Lemma write_output_returns output_path frame w :
  exists w1,
    write_output output_path frame w = (w1, Return tt) /\
    detector w1 = detector w /\ ticks w1 = ticks w /\ emitted w1 = emitted w.
Proof.
  unfold write_output. destruct (opt_truthy output_path); run;
    try destruct (VideoWriter_ok (default "" output_path));
    eexists; repeat split.
Qed.

Lemma aor_bind_l {A B} (P : pydict -> Prop) (m : M A) (f : A -> M B) :
  keeps history_of m -> (forall a, appends_on_return P (f a)) ->
  appends_on_return P (m ≫= f).
Proof.
  intros Hm Hf w. rewrite bind_run. specialize (Hm w).
  destruct (m w) as [w1 [a|e|]]; simpl in *; try exact Hm.
  specialize (Hf a w1). rewrite <- Hm. exact Hf.
Qed.

Lemma aor_history_append (P : pydict -> Prop) (r : pydict) :
  P r -> appends_on_return P (history_append r).
Proof. intros H w. simpl. exists r. split; [reflexivity | exact H]. Qed.

Lemma aor_bind_r {A B} (P : pydict -> Prop) (m : M A) (f : A -> M B) :
  appends_on_return P m ->
  (forall a, keeps history_of (f a)) -> (forall a, always_returns (f a)) ->
  appends_on_return P (m ≫= f).
Proof.
  intros Hm Hk Hr w. rewrite bind_run. specialize (Hm w).
  destruct (m w) as [w1 [a|e|]]; simpl in *; try exact Hm.
  destruct (Hr a w1) as (w2 & b & E). specialize (Hk a w1).
  rewrite E in *. simpl in Hk. rewrite Hk. exact Hm.
Qed.

Lemma always_returns_emit (e : Event) : always_returns (emit e).
Proof. intros w. eexists _, _. reflexivity. Qed.

Lemma always_returns_current_frame (all_results : list Results) :
  always_returns
    (frame ← gets (fun w => current_frame (detector w));
     mret (frame, all_results)).
Proof. intros w. eexists _, _. reflexivity. Qed.

(** The record of a video run: its kind and its frame count. *)
Lemma frames_record_fields kind source timestamp frame_count start_time end_time :
  dict_get "type" (frames_record kind source timestamp frame_count start_time end_time)
    = Some (VStr kind) /\
  dict_get "frames" (frames_record kind source timestamp frame_count start_time end_time)
    = Some (VInt frame_count).
Proof. split; reflexivity. Qed.

Lemma aor_VideoDetectionWorker_body video_path output_path is_running v w :
  fs w !! video_path = Some (VideoFile v) ->
  match VideoDetectionWorker_body video_path output_path is_running w with
  | (w', Return _) =>
      exists rec,
        history_of w' = history_of w ++ [rec] /\
        dict_get "type" rec = Some (VStr "video") /\
        dict_get "frames" rec = Some (VInt (int_of_float (CAP_PROP_FRAME_COUNT v)))
  | (w', _) => history_of w' = history_of w
  end.
Proof.
  intros E. unfold VideoDetectionWorker_body.
  rewrite (bind_return _ _ w w (Some v)); [| unfold cv2_VideoCapture, gets; rewrite E; reflexivity].
  clear E. revert w.
  apply (aor_bind_l (fun rec => dict_get "type" rec = Some (VStr "video") /\
           dict_get "frames" rec = Some (VInt (int_of_float (CAP_PROP_FRAME_COUNT v))))).
  { keeps_go. }
  intros _. apply aor_bind_l; [keeps_go |]. intros start_time.
  apply aor_bind_l; [keeps_go |]. intros all_results.
  apply aor_bind_l; [keeps_go |]. intros end_time.
  apply aor_bind_l; [keeps_go |]. intros timestamp.
  apply aor_bind_r.
  - apply aor_history_append, frames_record_fields.
  - keeps_go.
  - intros _. apply always_returns_emit.
Qed.

Lemma aor_detect_video video_path output_path progress_callback v w :
  observer progress_callback ->
  fs w !! video_path = Some (VideoFile v) ->
  match detect_video video_path output_path progress_callback w with
  | (w', Return _) =>
      exists rec,
        history_of w' = history_of w ++ [rec] /\
        dict_get "type" rec = Some (VStr "video") /\
        dict_get "frames" rec = Some (VInt (int_of_float (CAP_PROP_FRAME_COUNT v)))
  | (w', _) => history_of w' = history_of w
  end.
Proof.
  intros Hcb E. unfold detect_video.
  rewrite (bind_return _ _ w w true);
    [| unfold os_path_exists, gets; rewrite E; reflexivity].
  cbv beta iota delta [negb].
  rewrite (bind_return _ _ w w (Some v));
    [| unfold cv2_VideoCapture, gets; rewrite E; reflexivity].
  clear E. revert w.
  apply (aor_bind_l (fun rec => dict_get "type" rec = Some (VStr "video") /\
           dict_get "frames" rec = Some (VInt (int_of_float (CAP_PROP_FRAME_COUNT v))))).
  { keeps_go. }
  intros _. apply aor_bind_l; [keeps_go |]. intros start_time.
  apply aor_bind_l; [keeps_go |]. intros all_results.
  apply aor_bind_l; [keeps_go |]. intros end_time.
  apply aor_bind_l; [keeps_go |]. intros timestamp.
  apply aor_bind_r.
  - apply aor_history_append, frames_record_fields.
  - keeps_go.
  - intros _. apply always_returns_current_frame.
Qed.

(** How far the worker gets: the results it returns are those of the frames
    read while the flag was still set, so a run whose flag is cleared at
    some test has processed fewer frames than the container delivers. *)
Lemma video_worker_loop_returns output_path is_running frame_count :
  forall pending tests frame_idx all_results w w' final,
    video_worker_loop output_path is_running frame_count pending tests frame_idx
      all_results w = (w', Return final) ->
    exists new,
      final = all_results ++ new /\
      length new <= length pending /\
      (forall j, j < length new -> is_running (tests + j) = true) /\
      (length new < length pending -> is_running (tests + length new) = false).
Proof.
  induction pending as [|frame pending IH];
    intros tests frame_idx all_results w w' final H; simpl in H.
  - exists []. rewrite app_nil_r. simpl.
    destruct (negb (is_running tests)); inversion H; subst;
      (split; [reflexivity |]; split; [lia |]; split; intros; lia).
  - destruct (is_running tests) eqn:R; simpl in H.
    + apply bind_inv_return in H as (w1 & rs & _ & H).
      apply bind_inv_return in H as (w2 & r & _ & H).
      apply bind_inv_return in H as (w3 & [] & _ & H).
      apply bind_inv_return in H as (w4 & p & _ & H).
      apply bind_inv_return in H as (w5 & [] & _ & H).
      apply IH in H as (new & -> & Hlen & Hrun & Hstop).
      exists (r :: new). rewrite <- app_assoc. simpl.
      split; [reflexivity |]. split; [lia |]. split.
      * intros [|j] Hj; [rewrite Nat.add_0_r; exact R |].
        replace (tests + S j) with (S tests + j) by lia. apply Hrun. lia.
      * intros Hlt. replace (tests + S (length new)) with (S tests + length new) by lia.
        apply Hstop. lia.
    + inversion H; subst. exists []. rewrite app_nil_r, Nat.add_0_r. simpl.
      split; [reflexivity |]. split; [lia |]. split; [intros; lia |].
      intros _. exact R.
Qed.

(** The handlers of the video worker only emit signals. *)
Lemma VideoDetectionWorker_run_history video_path output_path is_running w :
  history_of (VideoDetectionWorker_run video_path output_path is_running w).1 =
  history_of (VideoDetectionWorker_body video_path output_path is_running w).1.
Proof.
  unfold VideoDetectionWorker_run, try_except_finally.
  destruct (VideoDetectionWorker_body video_path output_path is_running w)
    as [w1 [[]|e|]]; reflexivity.
Qed.

(** Inference that answers on every frame of a list. *)
Lemma answers_tail (m : Model) (frame : Image) (pending : list Image) :
  (forall f, In f (frame :: pending) -> exists r rs, predict m f = inr (r :: rs)) ->
  (exists r rs, predict m frame = inr (r :: rs)) /\
  (forall f, In f pending -> exists r rs, predict m f = inr (r :: rs)).
Proof.
  intros H. split; [apply H; left; reflexivity | intros f Hf; apply H; right; exact Hf].
Qed.

(** The loop of the worker returns, under every schedule of the flag, when
    the model answers on every frame and the container does not report a
    frame count of zero. *)
Lemma video_worker_loop_total output_path is_running frame_count :
  forall pending tests frame_idx all_results w,
    (pending = [] \/ frame_count <> 0%Z) ->
    (forall f, In f pending ->
       exists r rs, predict (model (detector w)) f = inr (r :: rs)) ->
    exists w' final,
      video_worker_loop output_path is_running frame_count pending tests frame_idx
        all_results w = (w', Return final).
Proof.
  induction pending as [|frame pending IH];
    intros tests frame_idx all_results w Hc Hp; simpl.
  - destruct (negb (is_running tests)); eexists _, _; reflexivity.
  - destruct (negb (is_running tests)); [eexists _, _; reflexivity |].
    destruct Hc as [Hc|Hc]; [discriminate Hc |].
    apply answers_tail in Hp as [(r & rs & P) Hp].
    destruct (write_output_returns output_path (plot r) w) as (w1 & E1 & D1 & _ & _).
    rewrite (bind_return _ _ w w (r :: rs))
      by (unfold call_model; run; rewrite P; reflexivity).
    rewrite (bind_return _ _ w w r) by reflexivity.
    rewrite (bind_return _ _ _ _ _ E1).
    rewrite (bind_return _ _ w1 w1
               (fmul (truediv (frame_idx + 1) frame_count) (float_of_int 100))).
    2:{ unfold progress_of. destruct (Z.eqb_spec frame_count 0); [contradiction |].
        reflexivity. }
    rewrite bind_run. cbn [emit modify].
    apply IH; [right; exact Hc |].
    simpl. rewrite D1. exact Hp.
Qed.

(** So does the loop of [detect_video], when its callback returns. *)
Lemma detect_video_loop_total output_path progress_callback frame_count :
  observer progress_callback -> returning progress_callback ->
  forall pending frame_idx all_results w,
    (pending = [] \/ frame_count <> 0%Z) ->
    (forall f, In f pending ->
       exists r rs, predict (model (detector w)) f = inr (r :: rs)) ->
    exists w' new,
      detect_video_loop output_path progress_callback frame_count pending frame_idx
        all_results w = (w', Return (all_results ++ new)) /\
      length new = length pending.
Proof.
  intros Hobs Hret. induction pending as [|frame pending IH];
    intros frame_idx all_results w Hc Hp; simpl.
  - exists w, []. rewrite app_nil_r. split; reflexivity.
  - destruct Hc as [Hc|Hc]; [discriminate Hc |].
    apply answers_tail in Hp as [(r & rs & P) Hp].
    destruct (write_output_returns output_path (plot r) w) as (w1 & E1 & D1 & _ & _).
    rewrite (bind_return _ _ w w (r :: rs))
      by (unfold call_model; run; rewrite P; reflexivity).
    rewrite (bind_return _ _ w w r) by reflexivity.
    rewrite (bind_return _ _ _ _ _ E1).
    run. destruct (Z.eqb_spec frame_count 0) as [|_]; [contradiction |].
    cbv beta iota.
    destruct progress_callback as [f|].
    + match goal with
      | |- context [f ?a ?b ?w2] =>
          destruct (Hret a b w2) as (w3 & [] & E3);
          pose proof (keeps_run detector _ _ _ _ (Hobs a b) E3) as D3;
          rewrite E3
      end.
      destruct (IH (frame_idx + 1)%Z (all_results ++ [r]) w3) as (w' & new & E & Hlen);
        [right; exact Hc | rewrite D3; simpl; rewrite D1; exact Hp |].
      exists w', (r :: new). rewrite E, <- app_assoc. simpl.
      split; [reflexivity | lia].
    + match goal with
      | |- context [detect_video_loop _ _ _ _ _ _ ?w2] =>
          destruct (IH (frame_idx + 1)%Z (all_results ++ [r]) w2)
            as (w' & new & E & Hlen);
          [right; exact Hc | simpl; rewrite D1; exact Hp |]
      end.
      exists w', (r :: new). rewrite E, <- app_assoc. simpl.
      split; [reflexivity | lia].
Qed.


(** ** A container that reports no frames *)

Lemma detect_video_loop_divides_by_zero output_path progress_callback frame pending
    frame_idx all_results r rs w :
  predict (model (detector w)) frame = inr (r :: rs) ->
  exists w',
    detect_video_loop output_path progress_callback 0 (frame :: pending) frame_idx
      all_results w = (w', Raise (Exn ZeroDivisionError "division by zero")) /\
    history_of w' = history_of w /\ emitted w' = emitted w.
Proof.
  intros P.
  destruct (write_output_returns output_path (plot r) w) as (w1 & E1 & D1 & _ & M1).
  eexists. split.
  - simpl. run. rewrite P, E1. simpl. reflexivity.
  - unfold history_of. simpl. rewrite D1, M1. split; reflexivity.
Qed.

Lemma video_worker_loop_divides_by_zero output_path is_running frame pending tests
    frame_idx all_results r rs w :
  is_running tests = true ->
  predict (model (detector w)) frame = inr (r :: rs) ->
  exists w',
    video_worker_loop output_path is_running 0 (frame :: pending) tests frame_idx
      all_results w = (w', Raise (Exn ZeroDivisionError "division by zero")) /\
    history_of w' = history_of w /\ emitted w' = emitted w.
Proof.
  intros R P.
  destruct (write_output_returns output_path (plot r) w) as (w1 & E1 & D1 & _ & M1).
  eexists. split.
  - simpl. rewrite R. cbv beta iota delta [negb]. run. rewrite P, E1. simpl. reflexivity.
  - unfold history_of. simpl. rewrite D1, M1. split; reflexivity.
Qed.

(** C10. The progress value is [frame_idx / frame_count * 100] with no
    guard.  When the container reports a frame count of zero and a first
    frame is read and detected on, [detect_video] raises
    [ZeroDivisionError]; the worker, if its flag is still set at the first
    test, catches the same error, signals it, and finishes without a result.
    Neither appends a record. *)
Theorem zero_frame_count_aborts_video_run (w : World) (video_path : string)
    (output_path : option string) (v : Video) (frame : Image) (pending : list Image)
    (r : Results) (rs : list Results) :
  fs w !! video_path = Some (VideoFile v) ->
  int_of_float (CAP_PROP_FRAME_COUNT v) = 0%Z ->
  frames v = frame :: pending ->
  predict (model (detector w)) frame = inr (r :: rs) ->
  (forall progress_callback,
     (detect_video video_path output_path progress_callback w).2 =
       Raise (Exn ZeroDivisionError "division by zero") /\
     history_of (detect_video video_path output_path progress_callback w).1 =
       history_of w) /\
  (forall is_running,
     is_running 0 = true ->
     (VideoDetectionWorker_body video_path output_path is_running w).2 =
       Raise (Exn ZeroDivisionError "division by zero") /\
     (VideoDetectionWorker_run video_path output_path is_running w).2 = Return tt /\
     emitted (VideoDetectionWorker_run video_path output_path is_running w).1 =
       emitted w ++ [sig_error "division by zero"; sig_finished] /\
     history_of (VideoDetectionWorker_run video_path output_path is_running w).1 =
       history_of w).
Proof.
  intros E Hcount Hframes P.
  destruct (open_output_returns output_path (CAP_PROP_FPS v)
              (int_of_float (CAP_PROP_FRAME_WIDTH v))
              (int_of_float (CAP_PROP_FRAME_HEIGHT v)) w) as (w1 & E1 & D1 & T1 & M1).
  assert (P1 : predict (model (detector (with_ticks S w1))) frame = inr (r :: rs)).
  { simpl. rewrite D1. exact P. }
  split.
  - intros progress_callback.
    destruct (detect_video_loop_divides_by_zero output_path progress_callback frame
                pending 0 [] r rs (with_ticks S w1) P1) as (w2 & E2 & H2 & M2).
    assert (Hrun : detect_video video_path output_path progress_callback w =
                   (w2, Raise (Exn ZeroDivisionError "division by zero"))).
    { unfold detect_video.
      rewrite (bind_return _ _ w w true);
        [| unfold os_path_exists, gets; rewrite E; reflexivity].
      cbv beta iota delta [negb].
      rewrite (bind_return _ _ w w (Some v));
        [| unfold cv2_VideoCapture, gets; rewrite E; reflexivity].
      cbv beta iota zeta.
      rewrite (bind_return _ _ _ _ _ E1).
      rewrite (bind_return _ _ w1 (with_ticks S w1) (clock_time (ticks w1)));
        [| reflexivity].
      rewrite Hcount, Hframes. apply bind_raise, E2. }
    rewrite Hrun. simpl. split; [reflexivity |].
    rewrite H2. unfold history_of. simpl. rewrite D1. reflexivity.
  - intros is_running R.
    destruct (video_worker_loop_divides_by_zero output_path is_running frame
                pending 0 0 [] r rs (with_ticks S w1) R P1) as (w2 & E2 & H2 & M2).
    assert (Hbody : VideoDetectionWorker_body video_path output_path is_running w =
                    (w2, Raise (Exn ZeroDivisionError "division by zero"))).
    { unfold VideoDetectionWorker_body.
      rewrite (bind_return _ _ w w (Some v));
        [| unfold cv2_VideoCapture, gets; rewrite E; reflexivity].
      cbv beta iota zeta.
      rewrite (bind_return _ _ _ _ _ E1).
      rewrite (bind_return _ _ w1 (with_ticks S w1) (clock_time (ticks w1)));
        [| reflexivity].
      rewrite Hcount, Hframes. apply bind_raise, E2. }
    unfold VideoDetectionWorker_run, try_except_finally. rewrite Hbody. simpl.
    repeat split.
    + rewrite M2. simpl. rewrite M1. rewrite <- app_assoc. reflexivity.
    + unfold history_of in *. simpl in *. rewrite H2, D1. reflexivity.
Qed.

(** ** Webcam runs *)

Lemma call_model_inv frame w w1 rs :
  call_model frame w = (w1, Return rs) ->
  w1 = w /\ predict (model (detector w)) frame = inr rs.
Proof.
  unfold call_model. run.
  destruct (predict (model (detector w)) frame); intros H; inversion H; auto.
Qed.

Lemma first_result_inv rs w w1 r :
  first_result rs w = (w1, Return r) -> w1 = w /\ exists rs', rs = r :: rs'.
Proof.
  unfold first_result. run. destruct rs as [|r0 rs']; intros H; inversion H.
  subst. eauto.
Qed.

Lemma progress_of_inv frame_idx frame_count w w1 p :
  progress_of frame_idx frame_count w = (w1, Return p) ->
  w1 = w /\ frame_count <> 0%Z.
Proof.
  unfold progress_of. run. destruct (Z.eqb_spec frame_count 0); intros H; inversion H.
  auto.
Qed.

(** What the loop of the webcam thread has done when it returns [n]: it
    emitted one [frame_ready] signal per frame counted, left the log and the
    clock alone, and stopped on the flag or on a failed read. *)
Lemma webcam_thread_loop_returns fuel running cap :
  forall frame_count w w' n,
    webcam_thread_loop fuel running cap frame_count w = (w', Return n) ->
    frame_count <= n /\
    history_of w' = history_of w /\
    ticks w' = ticks w /\
    (running n = false \/ cap n = None) /\
    exists evs,
      emitted w' = emitted w ++ evs /\
      length evs = n - frame_count /\
      forallb is_frame_ready evs = true.
Proof.
  induction fuel as [|fuel IH]; intros k w w' n H; simpl in H.
  - discriminate.
  - destruct (running k) eqn:R; simpl in H.
    + destruct (cap k) as [frame|] eqn:C.
      * apply bind_inv_return in H as (w1 & rs & H1 & H).
        apply call_model_inv in H1 as [-> _].
        apply bind_inv_return in H as (w1 & r & H1 & H).
        apply first_result_inv in H1 as [-> _].
        apply bind_inv_return in H as (w1 & [] & H1 & H).
        inversion H1; subst w1; clear H1.
        apply IH in H as (Hle & Hh & Ht & Hend & evs & He & Hlen & Hall).
        repeat split; try assumption; try lia.
        exists (sig_frame_ready (plot r) r :: evs). simpl in *.
        rewrite He. rewrite <- app_assoc. repeat split; try assumption.
        rewrite Hlen. lia.
      * inversion H; subst. repeat split; try lia; auto.
        exists []. rewrite app_nil_r, Nat.sub_diag. auto.
    + inversion H; subst. repeat split; try lia; auto.
      exists []. rewrite app_nil_r, Nat.sub_diag. auto.
Qed.

(** The loop ends within the fuel once the flag is cleared or a read fails
    at some [n]. *)
Lemma webcam_thread_loop_terminates running cap n :
  running n = false \/ cap n = None ->
  forall fuel frame_count w,
    frame_count <= n -> n - frame_count < fuel ->
    (webcam_thread_loop fuel running cap frame_count w).2 <> OutOfFuel.
Proof.
  intros Hn. induction fuel as [|fuel IH]; intros k w Hk Hf; [lia |].
  simpl. destruct (running k) eqn:R; simpl; [| discriminate].
  destruct (cap k) as [frame|] eqn:C; [| discriminate].
  assert (k < n).
  { destruct (decide (k = n)) as [->|]; [| lia].
    destruct Hn; congruence. }
  repeat (rewrite bind_run;
          match goal with
          | |- context [match ?m w with _ => _ end] =>
              destruct (m w) as [w1 [a|e|]] eqn:E
          end; try discriminate).
  - apply call_model_inv in E as [-> _]. 
    rewrite bind_run. destruct (first_result a w) as [w1 [r|e|]] eqn:E;
      try discriminate.
    + rewrite bind_run. simpl. apply IH; lia.
    + unfold first_result in E. destruct a; inversion E.
  - unfold call_model in E. revert E. run.
    destruct (predict (model (detector w)) frame); discriminate.
Qed.

(** The webcam thread appends its record exactly when it counted a frame.
    The frames processed are the [frame_ready] signals it emitted. *)
Lemma webcam_thread_records_iff_frames fuel cam_id running cap w w' :
  cameras w cam_id = Some cap ->
  WebcamDetectionThread_run fuel cam_id running w = (w', Return tt) ->
  exists n evs,
    emitted w' = emitted w ++ evs /\
    length evs = n /\
    forallb is_frame_ready evs = true /\
    ((0 < n /\
      exists rec,
        history_of w' = history_of w ++ [rec] /\
        dict_get "type" rec = Some (VStr "webcam") /\
        dict_get "frames" rec = Some (VInt (Z.of_nat n))) \/
     (n = 0 /\ history_of w' = history_of w)).
Proof.
  intros C H. unfold WebcamDetectionThread_run in H.
  rewrite (bind_return _ _ w w (Some cap)) in H;
    [| unfold cv2_VideoCapture_cam, gets; rewrite C; reflexivity].
  cbv beta iota in H.
  rewrite (bind_return _ _ w (with_ticks S w) (clock_time (ticks w))) in H;
    [| reflexivity].
  apply bind_inv_return in H as (w1 & n & H1 & H).
  apply webcam_thread_loop_returns in H1 as (_ & Hh & _ & _ & evs & He & Hlen & Hall).
  exists n, evs. rewrite Nat.sub_0_r in Hlen.
  destruct (Nat.ltb_spec 0 n) as [Hn|Hn].
  - revert H. run. intros H. inversion H; subst w'; clear H.
    repeat split; try assumption.
    left. split; [exact Hn |]. eexists. split.
    { unfold history_of in *. simpl in *. rewrite Hh. reflexivity. }
    split; reflexivity.
  - inversion H; subst w'; clear H.
    repeat split; try assumption.
    right. split; [lia | exact Hh].
Qed.

(** The thread run ends within the fuel once the flag is cleared or a read
    fails at some [n]. *)
Lemma webcam_thread_run_terminates fuel cam_id running w n :
  (running n = false \/
   forall cap, cameras w cam_id = Some cap -> cap n = None) ->
  n < fuel ->
  (WebcamDetectionThread_run fuel cam_id running w).2 <> OutOfFuel.
Proof.
  intros Hn Hf. unfold WebcamDetectionThread_run. rewrite bind_run.
  unfold cv2_VideoCapture_cam, gets.
  destruct (cameras w cam_id) as [cap|] eqn:C; [| discriminate].
  rewrite (bind_return _ _ w (with_ticks S w) (clock_time (ticks w)));
    [| reflexivity].
  rewrite bind_run.
  pose proof (webcam_thread_loop_terminates running cap n) as T.
  specialize (T ltac:(destruct Hn as [Hn|Hn]; [left | right]; auto)
                fuel 0 (with_ticks S w) ltac:(lia) ltac:(lia)).
  destruct (webcam_thread_loop fuel running cap 0 (with_ticks S w)) as [w1 [k|e|]];
    simpl in T; try congruence; try discriminate.
  destruct (0 <? k)%nat; run; discriminate.
Qed.

(** What the loop of [detect_webcam] has done when it returns [n]. *)
Lemma detect_webcam_loop_returns fuel stop_signal frame_callback cap :
  observer frame_callback ->
  forall frame_count w w' n,
    detect_webcam_loop fuel stop_signal frame_callback cap frame_count w
      = (w', Return n) ->
    frame_count <= n /\
    history_of w' = history_of w /\
    model (detector w') = model (detector w) /\
    (match stop_signal with Some stop => stop n | None => false end = true \/
     cap n = None) /\
    (n = frame_count -> detector w' = detector w /\ ticks w' = ticks w) /\
    (frame_count < n ->
     exists frame r rs,
       cap (n - 1) = Some frame /\
       predict (model (detector w)) frame = inr (r :: rs) /\
       current_frame (detector w') = Some (plot r) /\
       results (detector w') = Some (ResOne r)).
Proof.
  intros Hcb. induction fuel as [|fuel IH]; intros k w w' n H; simpl in H.
  - discriminate.
  - destruct (match stop_signal with Some stop => stop k | None => false end) eqn:R.
    { inversion H; subst. repeat split; auto; lia. }
    destruct (cap k) as [frame|] eqn:C.
    2: { inversion H; subst. repeat split; auto; lia. }
    apply bind_inv_return in H as (w1 & rs & H1 & H).
    apply call_model_inv in H1 as [-> P].
    apply bind_inv_return in H as (w1 & r & H1 & H).
    apply first_result_inv in H1 as [-> [rs' ->]].
    apply bind_inv_return in H as (w1 & [] & H1 & H).
    inversion H1; subst w1; clear H1.
    apply bind_inv_return in H as (w1 & [] & H1 & H).
    inversion H1; subst w1; clear H1.
    apply bind_inv_return in H as (w1 & [] & H1 & H).
    assert (D1 : detector w1 = detector
                   (with_detector
                      (fun d => {| model := model d; results := Some (ResOne r);
                                   current_frame := current_frame d;
                                   detection_history := detection_history d |})
                      (with_detector
                         (fun d => {| model := model d; results := results d;
                                      current_frame := Some (plot r);
                                      detection_history := detection_history d |})
                         w))).
    { destruct frame_callback as [f|].
      - exact (keeps_run detector _ _ _ _ (Hcb (plot r) r) H1).
      - inversion H1. reflexivity. }
    simpl in D1.
    apply IH in H as (Hle & Hh & Hm & Hend & Hsame & Hlast).
    unfold history_of in *. rewrite D1 in Hh, Hm, Hsame, Hlast.
    simpl in Hh, Hm, Hsame, Hlast.
    repeat split; try assumption; try lia.
    intros _. destruct (decide (n = S k)) as [->|Hne].
    + destruct (Hsame eq_refl) as [Hd _]. exists frame, r, rs'.
      rewrite Hd. simpl. rewrite Nat.sub_0_r. repeat split; assumption.
    + destruct (Hlast ltac:(lia)) as (frame' & r' & rs'' & C' & P' & F' & R').
      exists frame', r', rs''. repeat split; assumption.
Qed.

(** What the loop of [detect_video] has done when it returns: one result
    per frame was added, and the detector holds the plot of the last one. *)
Lemma detect_video_loop_returns output_path progress_callback frame_count :
  observer progress_callback ->
  forall pending frame_idx all_results w w' final,
    detect_video_loop output_path progress_callback frame_count pending frame_idx
      all_results w = (w', Return final) ->
    model (detector w') = model (detector w) /\
    exists new,
      final = all_results ++ new /\
      length new = length pending /\
      match last pending with
      | None => detector w' = detector w
      | Some frame =>
          exists r rs,
            predict (model (detector w)) frame = inr (r :: rs) /\
            last new = Some r /\
            current_frame (detector w') = Some (plot r) /\
            results (detector w') = Some (ResOne r)
      end.
Proof.
  intros Hcb. induction pending as [|frame pending IH];
    intros frame_idx all_results w w' final H; simpl in H.
  - inversion H; subst. split; [reflexivity |].
    exists []. rewrite app_nil_r. repeat split.
  - apply bind_inv_return in H as (w1 & rs & H1 & H).
    apply call_model_inv in H1 as [-> P].
    apply bind_inv_return in H as (w1 & r & H1 & H).
    apply first_result_inv in H1 as [-> [rs' ->]].
    apply bind_inv_return in H as (w1 & [] & H1 & H).
    assert (D1 : detector w1 = detector w).
    { apply (keeps_run detector _ _ _ _ (keeps_write_output detector _ _
               ltac:(intros ? ?; reflexivity)) H1). }
    clear H1.
    apply bind_inv_return in H as (w2 & [] & H1 & H).
    inversion H1; subst w2; clear H1.
    apply bind_inv_return in H as (w2 & [] & H1 & H).
    inversion H1; subst w2; clear H1.
    apply bind_inv_return in H as (w2 & p & H1 & H).
    apply progress_of_inv in H1 as [-> _].
    apply bind_inv_return in H as (w2 & [] & H1 & H).
    assert (D2 : detector w2 =
                 {| model := model (detector w); results := Some (ResOne r);
                    current_frame := Some (plot r);
                    detection_history := detection_history (detector w) |}).
    { rewrite <- D1. destruct progress_callback as [f|].
      - exact (keeps_run detector _ _ _ _ (Hcb p (plot r)) H1).
      - inversion H1. reflexivity. }
    clear H1.
    apply IH in H as (Hm & new & -> & Hlen & Hlast).
    rewrite D2 in Hm, Hlast. simpl in Hm, Hlast.
    split; [exact Hm |].
    exists (r :: new). rewrite <- app_assoc. simpl.
    repeat split; [congruence |].
    rewrite last_cons. destruct (last pending) as [frame'|] eqn:L.
    + destruct Hlast as (r' & rs'' & P' & L' & F' & R').
      exists r', rs''. rewrite last_cons, L'. repeat split; assumption.
    + apply last_None in L. subst pending. destruct new; [| discriminate].
      exists r, rs'. rewrite Hlast. repeat split; assumption.
Qed.

(** ** The current-frame slot *)


(** [detect_webcam] ends within the fuel once the stop flag is set or a read
    fails at some [n], when the callback itself ends. *)
Lemma detect_webcam_loop_terminates stop_signal frame_callback cap n :
  match frame_callback with
  | Some f => forall a b w, (f a b w).2 <> OutOfFuel
  | None => True
  end ->
  match stop_signal with Some stop => stop n | None => false end = true \/
  cap n = None ->
  forall fuel frame_count w,
    frame_count <= n -> n - frame_count < fuel ->
    (detect_webcam_loop fuel stop_signal frame_callback cap frame_count w).2
      <> OutOfFuel.
Proof.
  intros Hcb Hn. induction fuel as [|fuel IH]; intros k w Hk Hf; [lia |].
  simpl.
  destruct (match stop_signal with Some stop => stop k | None => false end) eqn:R;
    [discriminate |].
  destruct (cap k) as [frame|] eqn:C; [| discriminate].
  assert (k < n).
  { destruct (decide (k = n)) as [->|]; [| lia]. destruct Hn; congruence. }
  rewrite bind_run. destruct (call_model frame w) as [w1 [rs|e|]] eqn:E1.
  2: discriminate.
  2: { revert E1. unfold call_model. run.
       destruct (predict (model (detector w)) frame); discriminate. }
  rewrite bind_run. destruct (first_result rs w1) as [w2 [r|e|]] eqn:E2.
  2: discriminate.
  2: { destruct rs; discriminate. }
  rewrite bind_run. simpl. rewrite bind_run. simpl. rewrite bind_run.
  match goal with
  | |- context [match ?m ?w3 with _ => _ end] =>
      destruct (m w3) as [w4 [[]|e|]] eqn:E3
  end.
  - apply IH; lia.
  - discriminate.
  - exfalso. destruct frame_callback as [f|].
    + exact (Hcb _ _ _ (f_equal snd E3)).
    + discriminate.
Qed.

(** [detect_webcam] has no such guard: stopped before the first read, it
    still appends a record, with a frame count of zero. *)
Lemma detect_webcam_appends_without_frames fuel cam_id stop frame_callback cap w :
  cameras w cam_id = Some cap ->
  stop 0 = true ->
  exists w' res rec,
    detect_webcam (S fuel) cam_id (Some stop) frame_callback w = (w', Return res) /\
    history_of w' = history_of w ++ [rec] /\
    dict_get "type" rec = Some (VStr "webcam") /\
    dict_get "frames" rec = Some (VInt 0).
Proof.
  intros C S0. unfold detect_webcam.
  rewrite (bind_return _ _ w w (Some cap));
    [| unfold cv2_VideoCapture_cam, gets; rewrite C; reflexivity].
  cbv beta iota.
  rewrite (bind_return _ _ w (with_ticks S w) (clock_time (ticks w)));
    [| reflexivity].
  rewrite (bind_return _ _ (with_ticks S w) (with_ticks S w) 0);
    [| simpl; rewrite S0; reflexivity].
  run. eexists _, _, _. split; [reflexivity |]. repeat split.
Qed.

End Facts.

(** * More of the detector, the workers and the tabs *)

Section More_facts.
Context `{Ext : Externals}.

#[local] Hint Resolve keeps_history_set_results keeps_history_set_current_frame
  keeps_fs_set_results keeps_fs_set_current_frame keeps_fs_history_append
  keeps_fs_history_reset keeps_open_output keeps_write_output
  keeps_get_default_save_path keeps_save_current_frame
  keeps_export_detection_history keeps_history_observer
  keeps_history_detect_video_loop keeps_history_video_worker_loop
  keeps_history_detect_webcam_loop keeps_history_webcam_thread_loop : keeps.

Lemma keeps_set_results {X} (part : World -> X) r :
  ignores_detector part -> keeps part (set_results r).
Proof. intros H. apply keeps_modify. intros w. apply H. Qed.

Lemma keeps_set_current_frame {X} (part : World -> X) frame :
  ignores_detector part -> keeps part (set_current_frame frame).
Proof. intros H. apply keeps_modify. intros w. apply H. Qed.

Lemma keeps_history_append {X} (part : World -> X) r :
  ignores_detector part -> keeps part (history_append r).
Proof. intros H. apply keeps_modify. intros w. apply H. Qed.

Lemma keeps_history_reset {X} (part : World -> X) :
  ignores_detector part -> keeps part history_reset.
Proof. intros H. apply keeps_modify. intros w. apply H. Qed.

#[local] Hint Resolve keeps_set_results keeps_set_current_frame keeps_history_append
  keeps_history_reset : keeps.
#[local] Hint Extern 1 (ignores_detector _) => (intros ? ?; reflexivity) : keeps.

(** ** Runs that fail *)

Lemma aor_raise {A} (P : pydict -> Prop) (e : exn) :
  appends_on_return P (raise e : M A).
Proof. intros w. reflexivity. Qed.

Lemma always_returns_ret {A} (a : A) : always_returns (mret a).
Proof. intros w. eexists _, _. reflexivity. Qed.

Lemma always_returns_gets_ret {A B} (f : World -> A) (g : A -> B) :
  always_returns (a ← gets f; mret (g a)).
Proof. intros w. eexists _, _. reflexivity. Qed.

(** Follows a method up to its [history_append] and checks what comes
    after it. *)
Ltac aor_go :=
  repeat first
    [ match goal with |- forall _, _ => intro end
    | apply aor_raise
    | apply aor_bind_r;
        [ apply aor_history_append; reflexivity
        | solve [ keeps_go ]
        | intros; first [ apply always_returns_ret | apply always_returns_gets_ret
                        | apply always_returns_emit
                        | apply always_returns_current_frame ] ]
    | apply aor_bind_l; [ solve [ keeps_go ] | ]
    | match goal with
      | |- appends_on_return _ (if ?b then _ else _) => destruct b
      | |- appends_on_return _ (match ?x with _ => _ end) => destruct x
      end ].

Lemma aor_detect_image_any image_path :
  appends_on_return (fun rec => dict_get "type" rec = Some (VStr "image"))
    (detect_image image_path).
Proof. unfold detect_image. aor_go. Qed.

Lemma aor_detect_video_any video_path output_path progress_callback :
  observer progress_callback ->
  appends_on_return (fun rec => dict_get "type" rec = Some (VStr "video"))
    (detect_video video_path output_path progress_callback).
Proof. intros H. unfold detect_video. aor_go. Qed.

Lemma aor_detect_webcam_any fuel cam_id stop_signal frame_callback :
  observer frame_callback ->
  appends_on_return (fun rec => dict_get "type" rec = Some (VStr "webcam"))
    (detect_webcam fuel cam_id stop_signal frame_callback).
Proof.
  intros H. unfold detect_webcam. aor_go.
Qed.

Lemma aor_VideoDetectionWorker_body_any video_path output_path is_running :
  appends_on_return (fun rec => dict_get "type" rec = Some (VStr "video"))
    (VideoDetectionWorker_body video_path output_path is_running).
Proof. unfold VideoDetectionWorker_body. aor_go. Qed.

(** The handlers of the image worker only emit signals. *)
Lemma ImageDetectionWorker_run_history image_path w :
  history_of (ImageDetectionWorker_run image_path w).1 =
  history_of (detect_image image_path w).1.
Proof.
  unfold ImageDetectionWorker_run, try_except_finally. rewrite bind_run.
  destruct (detect_image image_path w) as [w1 [[img r]|e|]]; reflexivity.
Qed.


(** X1. The three detection methods of the detector append to the history
    exactly when they return: a call that returns has added one record of
    its own kind at the end of the log, and a call that raises (missing or
    unreadable source, failed inference, division by zero) or is still
    looping leaves the log as it was.  Callbacks are taken to be
    observers. *)
Theorem detector_runs_append_exactly_when_they_return :
  (forall image_path,
     appends_on_return (fun rec => dict_get "type" rec = Some (VStr "image"))
       (detect_image image_path)) /\
  (forall video_path output_path progress_callback,
     observer progress_callback ->
     appends_on_return (fun rec => dict_get "type" rec = Some (VStr "video"))
       (detect_video video_path output_path progress_callback)) /\
  (forall fuel cam_id stop_signal frame_callback,
     observer frame_callback ->
     appends_on_return (fun rec => dict_get "type" rec = Some (VStr "webcam"))
       (detect_webcam fuel cam_id stop_signal frame_callback)).
Proof.
  split; [| split].
  - apply aor_detect_image_any.
  - apply aor_detect_video_any.
  - apply aor_detect_webcam_any.
Qed.

(** X2. [detect_image] on a path at which nothing exists raises
    [FileNotFoundError], and on a path that holds something other than a
    picture it raises [ValueError]; in both cases nothing in the world has
    changed.  The image worker turns either into one [error] signal with the
    text of the exception, followed by [finished]. *)
Theorem detect_image_rejects_missing_or_unreadable (w : World) (image_path : string) :
  (fs w !! image_path = None ->
   detect_image image_path w =
     (w, Raise (Exn FileNotFoundError ("找不到图片文件: " +:+ image_path))) /\
   (ImageDetectionWorker_run image_path w).2 = Return tt /\
   only_emits w (ImageDetectionWorker_run image_path w).1
     [sig_error ("找不到图片文件: " +:+ image_path); sig_finished]) /\
  (forall n,
     fs w !! image_path = Some n -> (forall img, n <> ImageFile img) ->
     detect_image image_path w =
       (w, Raise (Exn ValueError ("无法读取图片: " +:+ image_path))) /\
     (ImageDetectionWorker_run image_path w).2 = Return tt /\
     only_emits w (ImageDetectionWorker_run image_path w).1
       [sig_error ("无法读取图片: " +:+ image_path); sig_finished]).
Proof.
  assert (Hworker : forall e,
            detect_image image_path w = (w, Raise e) ->
            (ImageDetectionWorker_run image_path w).2 = Return tt /\
            only_emits w (ImageDetectionWorker_run image_path w).1
              [sig_error (str e); sig_finished]).
  { intros e He. unfold ImageDetectionWorker_run, try_except_finally.
    rewrite (bind_raise _ _ w w e He). simpl.
    split; [reflexivity |]. repeat split. simpl. rewrite <- app_assoc. reflexivity. }
  split.
  - intros H.
    assert (He : detect_image image_path w =
                 (w, Raise (Exn FileNotFoundError ("找不到图片文件: " +:+ image_path)))).
    { unfold detect_image. run. rewrite H. reflexivity. }
    split; [exact He |]. apply (Hworker _ He).
  - intros n H Hn.
    assert (He : detect_image image_path w =
                 (w, Raise (Exn ValueError ("无法读取图片: " +:+ image_path)))).
    { unfold detect_image. run. rewrite H. simpl. rewrite H.
      destruct n; try reflexivity. exfalso. eapply Hn. reflexivity. }
    split; [exact He |]. apply (Hworker _ He).
Qed.

(** X3. [detect_video] raises [FileNotFoundError] on a path at which
    nothing exists, and [ValueError] on a path at which something exists
    that [cv2.VideoCapture] does not open (a directory, a file that is no
    video, a picture the capture refuses); it changes nothing.  The video
    worker has no existence test: in both cases it signals "cannot open the
    video" and [finished], and neither creates the output directory nor the
    output file. *)
Theorem video_run_rejects_what_does_not_open (w : World) (video_path : string)
    (output_path : option string) :
  (fs w !! video_path = None ->
   forall progress_callback,
     detect_video video_path output_path progress_callback w =
       (w, Raise (Exn FileNotFoundError ("找不到视频文件: " +:+ video_path)))) /\
  (fs w !! video_path <> None ->
   capture video_path (fs w !! video_path) = None ->
   forall progress_callback,
     detect_video video_path output_path progress_callback w =
       (w, Raise (Exn ValueError ("无法打开视频: " +:+ video_path)))) /\
  (capture video_path (fs w !! video_path) = None ->
   forall is_running,
     (VideoDetectionWorker_run video_path output_path is_running w).2 = Return tt /\
     only_emits w (VideoDetectionWorker_run video_path output_path is_running w).1
       [sig_error ("无法打开视频: " +:+ video_path); sig_finished]).
Proof.
  split; [| split].
  - intros H cb. unfold detect_video. run. rewrite H. reflexivity.
  - intros H Hc cb. unfold detect_video. run.
    destruct (fs w !! video_path) as [n|] eqn:E; [| congruence].
    simpl. rewrite E, Hc. reflexivity.
  - intros Hc is_running.
    assert (He : VideoDetectionWorker_body video_path output_path is_running w =
                 (w, Raise (Exn ValueError ("无法打开视频: " +:+ video_path)))).
    { unfold VideoDetectionWorker_body. run. rewrite Hc. reflexivity. }
    unfold VideoDetectionWorker_run, try_except_finally. rewrite He. simpl.
    split; [reflexivity |]. repeat split. simpl. rewrite <- app_assoc. reflexivity.
Qed.

(** ** Saving, exporting and clearing *)

Lemma truthy_spec (s : string) : truthy s = false <-> s = "".
Proof.
  unfold truthy. destruct (String.eqb_spec s ""); simpl; split; congruence.
Qed.

(** [os.makedirs] only makes directories where nothing was, and the
    directory asked for exists afterwards. *)
Lemma mkdir_missing_fold (l : list string) :
  forall m : gmap string Node,
    only_new_directories m (foldl mkdir_missing m l) /\
    (forall a, In a l -> is_Some (foldl mkdir_missing m l !! a)).
Proof.
  induction l as [|d l IH]; intros m; simpl.
  - split; [intros q; left; reflexivity | intros a []].
  - destruct (IH (mkdir_missing m d)) as [Hn Hin].
    assert (Hd : only_new_directories m (mkdir_missing m d) /\
                 is_Some (mkdir_missing m d !! d)).
    { unfold mkdir_missing. destruct (m !! d) as [n|] eqn:D.
      - split; [intros q; left; reflexivity | rewrite D; eauto].
      - split; [| rewrite lookup_insert_eq; eauto].
        intros q. destruct (decide (q = d)) as [->|Hq].
        + right. rewrite lookup_insert_eq. split; [exact D | reflexivity].
        + left. apply lookup_insert_ne. congruence. }
    destruct Hd as [Hd1 Hd2]. split.
    + intros q. destruct (Hn q) as [E|[E1 E2]]; destruct (Hd1 q) as [F|[F1 F2]].
      * left. congruence.
      * right. split; [exact F1 | congruence].
      * right. split; congruence.
      * congruence.
    + intros a [<-|Ha]; [| apply Hin, Ha].
      destruct Hd2 as [n Hn']. destruct (Hn d) as [E|[E _]]; [| congruence].
      rewrite E, Hn'. eauto.
Qed.

Lemma ancestors_last (d : string) :
  d <> "" -> In d (ancestors (String.length d) d).
Proof.
  intros Hd. destruct d as [|c d]; [congruence |].
  cbn [String.length ancestors].
  destruct (_ || _); [left; reflexivity | apply in_or_app; right; left; reflexivity].
Qed.

(** The directory of a path is there before the file is written: the test
    and the [os.makedirs] that [save_current_frame], [detect_video] and
    [export_detection_history] share. *)
Lemma makedirs_if_missing (d : string) (w : World) :
  exists w1,
    (if truthy d && negb (match fs w !! d with Some _ => true | None => false end)
     then os_makedirs d else mret tt) w = (w1, Return tt) /\
    detector w1 = detector w /\ ticks w1 = ticks w /\ emitted w1 = emitted w /\
    only_new_directories (fs w) (fs w1) /\
    (truthy d = true -> is_Some (fs w1 !! d)).
Proof.
  destruct (truthy d) eqn:T; simpl.
  - destruct (fs w !! d) as [n|] eqn:D; simpl.
    + exists w. repeat split; try reflexivity.
      * intros q. left. reflexivity.
      * intros _. rewrite D. eauto.
    + eexists. split; [reflexivity |]. simpl.
      destruct (mkdir_missing_fold (ancestors (String.length d) d) (fs w)) as [Hn Hin].
      repeat split; try reflexivity; [exact Hn |].
      intros _. apply Hin, ancestors_last. intros ->. discriminate T.
  - exists w. repeat split; try reflexivity; [| discriminate].
    intros q. left. reflexivity.
Qed.

(** What [save_current_frame] does, whether the slot is empty or not. *)
Lemma save_current_frame_outcome (w : World) (save_path : string) :
  (current_frame (detector w) = None ->
   save_current_frame save_path w = (w, Return false)) /\
  (forall frame,
     current_frame (detector w) = Some frame ->
     detector (save_current_frame save_path w).1 = detector w /\
     (truthy (os_path_dirname save_path) = true ->
      is_Some (fs (save_current_frame save_path w).1 !! os_path_dirname save_path)) /\
     (forall q, q <> save_path ->
        fs (save_current_frame save_path w).1 !! q = fs w !! q \/
        (fs w !! q = None /\ fs (save_current_frame save_path w).1 !! q = Some Dir)) /\
     match (save_current_frame save_path w).2 with
     | Return ok =>
         ok = imwrite_ok save_path /\
         (ok = true ->
          fs (save_current_frame save_path w).1 !! save_path = Some (ImageFile frame)) /\
         (ok = false -> imwrite_error save_path = None)
     | Raise e => imwrite_ok save_path = false /\ imwrite_error save_path = Some e
     | OutOfFuel => False
     end).
Proof.
  split.
  - intros H. unfold save_current_frame. run. rewrite H. reflexivity.
  - intros frame H.
    destruct (makedirs_if_missing (os_path_dirname save_path) w)
      as (w1 & E & Hd & _ & _ & Hn & Hs).
    assert (Es : save_current_frame save_path w = cv2_imwrite save_path frame w1).
    { unfold save_current_frame.
      rewrite (bind_return _ _ w w (Some frame)) by (unfold gets; rewrite H; reflexivity).
      cbv beta iota zeta.
      rewrite (bind_return _ _ w w
                 (match fs w !! os_path_dirname save_path with
                  | Some _ => true
                  | None => false
                  end)) by reflexivity.
      rewrite (bind_return _ _ _ _ _ E). reflexivity. }
    rewrite Es. clear Es E. unfold cv2_imwrite.
    destruct (imwrite_ok save_path) eqn:O; [| destruct (imwrite_error save_path) eqn:R];
      run; simpl; (split; [exact Hd |]).
    + split; [| split;
                 [| split; [reflexivity
                           | split; [intros _; apply lookup_insert_eq | discriminate]]]].
      * intros T. destruct (Hs T) as [n Hn'].
        destruct (decide (os_path_dirname save_path = save_path)) as [Eq|Ne].
        -- rewrite Eq, lookup_insert_eq. eauto.
        -- rewrite lookup_insert_ne by congruence. eauto.
      * intros q Hq. rewrite lookup_insert_ne by congruence. apply Hn.
    + split; [exact Hs |]. split; [intros q _; apply Hn | split; reflexivity].
    + split; [exact Hs |]. split; [intros q _; apply Hn |].
      split; [reflexivity |]. split; [discriminate | reflexivity].
Qed.

(** X4. [save_current_frame] with an empty slot returns [False] and touches
    nothing.  With a frame in the slot it first makes the named parent
    directory if it is missing, and only then calls [cv2.imwrite], whose
    outcome is its own: [True] with the file holding the frame, [False], or
    the [cv2.error] that [imwrite] raises (for a name with no known
    extension, say), which nothing catches.  In all three cases the detector
    is left alone, the parent directory exists, and apart from the file
    itself the only change to the files is the making of directories. *)
Theorem save_current_frame_writes_the_slot (w : World) (save_path : string) :
  (current_frame (detector w) = None ->
   save_current_frame save_path w = (w, Return false)) /\
  (forall frame,
     current_frame (detector w) = Some frame ->
     detector (save_current_frame save_path w).1 = detector w /\
     (truthy (os_path_dirname save_path) = true ->
      is_Some (fs (save_current_frame save_path w).1 !! os_path_dirname save_path)) /\
     (forall q, q <> save_path ->
        fs (save_current_frame save_path w).1 !! q = fs w !! q \/
        (fs w !! q = None /\ fs (save_current_frame save_path w).1 !! q = Some Dir)) /\
     match (save_current_frame save_path w).2 with
     | Return ok =>
         ok = imwrite_ok save_path /\
         (ok = true ->
          fs (save_current_frame save_path w).1 !! save_path = Some (ImageFile frame)) /\
         (ok = false -> imwrite_error save_path = None)
     | Raise e => imwrite_ok save_path = false /\ imwrite_error save_path = Some e
     | OutOfFuel => False
     end).
Proof. apply save_current_frame_outcome. Qed.

Lemma append_nonempty (a b : string) : b <> "" -> a +:+ b <> "".
Proof. intros Hb. induction a as [|c a IH]; simpl; [exact Hb | discriminate]. Qed.

Lemma results_directory_is_named : os_path_join expanduser "手语识别结果" <> "".
Proof.
  unfold os_path_join.
  destruct (String.eqb expanduser "" || ends_with_slash expanduser);
    apply append_nonempty; [| apply append_nonempty]; discriminate.
Qed.

(** Computing a default path cannot fail; it reads the clock once and makes
    the results directory, with the directories above it, if it is
    missing. *)
Lemma get_default_save_path_returns file_type w :
  exists w1 path,
    get_default_save_path file_type w = (w1, Return path) /\
    detector w1 = detector w /\ emitted w1 = emitted w /\
    ticks w1 = S (ticks w) /\
    only_new_directories (fs w) (fs w1) /\
    is_Some (fs w1 !! os_path_join expanduser "手语识别结果").
Proof.
  unfold get_default_save_path.
  pose proof results_directory_is_named as Hbase.
  remember (os_path_join expanduser "手语识别结果") as base eqn:Eb. clear Eb.
  destruct (mkdir_missing_fold (ancestors (String.length base) base) (fs w))
    as [Hn Hin].
  specialize (Hin base (ancestors_last base Hbase)).
  run.
  destruct (fs w !! base) as [n|] eqn:D; simpl;
    repeat match goal with |- context [if ?b then _ else _] => destruct b end;
    eexists _, _; (split; [reflexivity |]); simpl;
    (split; [reflexivity |]); (split; [reflexivity |]); (split; [reflexivity |]);
    (split; [first [exact Hn | intros q; left; reflexivity]
            | first [exact Hin | rewrite D; eauto]]).
Qed.

(** [export_detection_history] on a history that is not empty never returns
    [False]: it returns [True] or lets through what [to_csv] raises, as it
    does on a path that is a directory.  It signals nothing and leaves the
    detector alone. *)
Lemma export_detection_history_outcome (w : World) (history : list pydict)
    (export_path : string) :
  history <> [] ->
  emitted (export_detection_history history export_path w).1 = emitted w /\
  detector (export_detection_history history export_path w).1 = detector w /\
  match (export_detection_history history export_path w).2 with
  | Return ok => ok = true
  | Raise e => True
  | OutOfFuel => False
  end /\
  (export_path <> "" -> fs w !! export_path = Some Dir ->
   exists e,
     (export_detection_history history export_path w).2 = Raise e /\
     class_of e = LibraryError).
Proof.
  intros Hne. destruct history as [|r history]; [congruence |].
  destruct (makedirs_if_missing (os_path_dirname export_path) w)
    as (w1 & E & Hd & _ & Hm & Hn & _).
  assert (Es : export_detection_history (r :: history) export_path w
               = (to_csv export_path (r :: history);; mret true) w1).
  { unfold export_detection_history.
    rewrite (bind_return _ _ w w
               (match fs w !! os_path_dirname export_path with
                | Some _ => true
                | None => false
                end)) by reflexivity.
    rewrite (bind_return _ _ _ _ _ E). reflexivity. }
  rewrite Es. clear Es E.
  assert (Hdir : fs w !! export_path = Some Dir -> fs w1 !! export_path = Some Dir).
  { intros D. destruct (Hn export_path) as [F|[F _]]; congruence. }
  unfold to_csv. run.
  destruct (truthy (os_path_dirname export_path) && negb (ends_with_slash export_path)
            && negb match fs w1 !! os_path_dirname export_path with
                    | Some Dir => true
                    | _ => false
                    end); simpl.
  { repeat split; try assumption. intros _ _. eexists. split; reflexivity. }
  destruct (truthy export_path) eqn:T; simpl.
  2:{ repeat split; try assumption. intros Hp. apply truthy_spec in T. contradiction. }
  destruct (fs w1 !! export_path) as [[]|] eqn:N; simpl;
    try (repeat split; try assumption; intros _ _; eexists; split; reflexivity);
    destruct (ends_with_slash export_path); simpl;
    repeat split; try assumption;
    intros _ D; apply Hdir in D; congruence.
Qed.

(** X7. [HistoryTab.export_history] never shows its error dialog.  The tab
    tests the log for emptiness before it calls
    [export_detection_history], which returns [False] on an empty history
    only, so the branch that reports a failed export is never taken:
    whatever the log and whatever the user chooses, none of the events the
    call adds is a [critical] dialog, and the log is as before.  A write
    that fails is not reported but raised: with a directory chosen as the
    path the slot lets the exception of [to_csv] through, and neither the
    status bar nor a dialog says anything. *)
Theorem export_history_never_reports_failure (w : World)
    (getSaveFileName : string -> string) :
  (exists evs,
     emitted (export_history getSaveFileName w).1 = emitted w ++ evs /\
     forallb (fun e => negb (is_critical e)) evs = true) /\
  (export_history getSaveFileName w).2 <> OutOfFuel /\
  history_of (export_history getSaveFileName w).1 = history_of w /\
  (history_of w <> [] ->
   forall w1 default_path,
     get_default_save_path "csv" w = (w1, Return default_path) ->
     getSaveFileName default_path <> "" ->
     fs w1 !! getSaveFileName default_path = Some Dir ->
     exists e,
       (export_history getSaveFileName w).2 = Raise e /\
       class_of e = LibraryError /\
       emitted (export_history getSaveFileName w).1 = emitted w).
Proof.
  destruct (history_of w) as [|r h] eqn:Eh.
  - assert (E : export_history getSaveFileName w =
                (with_emitted
                   (fun l => l ++ [information "导出失败" "没有历史数据可导出"]) w,
                 Return tt)).
    { unfold export_history. rewrite bind_run. simpl.
      unfold history_of in Eh. rewrite Eh. reflexivity. }
    rewrite E. split; [eexists; split; reflexivity |].
    split; [discriminate |]. split; [exact Eh | congruence].
  - destruct (get_default_save_path_returns "csv" w)
      as (w1 & path & E1 & D1 & M1 & _).
    set (chosen := getSaveFileName path).
    assert (E : export_history getSaveFileName w
                = (if truthy chosen
                   then
                     success ← export_detection_history (r :: h) chosen;
                     if success : bool
                     then
                       emit (status_message
                               ("历史数据已导出: " +:+ os_path_basename chosen));;
                       show_info_message "导出成功" ("历史数据已导出到: " +:+ chosen)
                     else
                       emit (status_message "历史数据导出失败");;
                       show_error_message "导出失败" "无法导出历史数据"
                   else mret tt) w1).
    { unfold export_history.
      rewrite (bind_return _ _ w w (r :: h)) by (unfold history_of in Eh;
        unfold get_detection_history, gets; rewrite Eh; reflexivity).
      cbv beta iota. rewrite (bind_return _ _ _ _ _ E1). reflexivity. }
    rewrite E. clear E.
    assert (Hh : history_of w1 = r :: h).
    { unfold history_of in *. rewrite D1. exact Eh. }
    destruct (truthy chosen) eqn:T.
    + destruct (export_detection_history_outcome w1 (r :: h) chosen)
        as (He & Hd & Ho & Hdir); [discriminate |].
      rewrite bind_run.
      destruct (export_detection_history (r :: h) chosen w1) as [w2 [ok|e|]];
        simpl in *; [subst ok | | contradiction].
      * run. simpl. split.
        { eexists. rewrite He, M1, <- app_assoc. split; reflexivity. }
        split; [discriminate |]. split.
        { unfold history_of in *. simpl. rewrite Hd. exact Hh. }
        intros _ w1' path' Ep Hc Hdr. rewrite E1 in Ep. inversion Ep; subst w1' path'.
        destruct (Hdir Hc Hdr) as (e & Habs & _). discriminate Habs.
      * split; [exists []; rewrite He, M1, app_nil_r; split; reflexivity |].
        split; [discriminate |]. split.
        { unfold history_of in *. rewrite Hd. exact Hh. }
        intros _ w1' path' Ep Hc Hdr. rewrite E1 in Ep. inversion Ep; subst w1' path'.
        destruct (Hdir Hc Hdr) as (e' & He' & Hcl).
        assert (e = e') by congruence. subst e'.
        exists e. split; [reflexivity |]. split; [exact Hcl |].
        rewrite He. exact M1.
    + simpl. split; [exists []; rewrite M1, app_nil_r; split; reflexivity |].
      split; [discriminate |]. split; [exact Hh |].
      intros _ w1' path' Ep Hc _. rewrite E1 in Ep. inversion Ep; subst w1' path'.
      apply truthy_spec in T. contradiction.
Qed.

(** X8. Clearing a log that is not empty asks for confirmation.  If the
    user confirms, the log is empty afterwards, the table is refreshed with
    all counts at zero, the status bar reports it and an information dialog
    says that the records are gone; if not, only the question was shown.
    Files are untouched either way. *)
Theorem clear_history_asks_first (w : World) :
  history_of w <> [] ->
  ((clear_history true w).2 = Return tt /\
   history_of (clear_history true w).1 = [] /\
   fs (clear_history true w).1 = fs w /\
   emitted (clear_history true w).1 =
     emitted w ++
     [ question "确认清空" "确定要清空所有历史记录吗？此操作不可撤销。";
       history_table 0 0 0 0;
       status_message "检测历史已刷新";
       status_message "历史记录已清空";
       information "清空完成" "所有历史记录已清空" ]) /\
  ((clear_history false w).2 = Return tt /\
   only_emits w (clear_history false w).1
     [ question "确认清空" "确定要清空所有历史记录吗？此操作不可撤销。" ]).
Proof.
  intros Hne. unfold history_of in Hne.
  unfold clear_history, update_history_table. run.
  destruct (detection_history (detector w)) as [|r h] eqn:Eh; [congruence |].
  simpl. repeat split; simpl; rewrite <- ?app_assoc; reflexivity.
Qed.

(** ** What the workers signal *)

(** The loop of the video worker sends one [progress] signal per result it
    adds, carrying the plot of that result, and nothing else; it cannot run
    out of fuel. *)
Lemma video_worker_loop_signals output_path is_running frame_count :
  forall pending tests frame_idx all_results w,
    exists ps,
      emitted (video_worker_loop output_path is_running frame_count pending tests
                 frame_idx all_results w).1 = emitted w ++ ps /\
      forallb is_progress ps = true /\
      (video_worker_loop output_path is_running frame_count pending tests
         frame_idx all_results w).2 <> OutOfFuel /\
      forall final,
        (video_worker_loop output_path is_running frame_count pending tests
           frame_idx all_results w).2 = Return final ->
        exists new, final = all_results ++ new /\ progress_frames ps = map plot new.
Proof.
  induction pending as [|frame pending IH]; intros tests frame_idx all_results w.
  - exists []. simpl. destruct (negb (is_running tests)); simpl;
      rewrite app_nil_r; repeat split; try discriminate;
      intros final H; inversion H; exists []; rewrite app_nil_r; split; reflexivity.
  - simpl. destruct (is_running tests); simpl.
    2: { exists []. rewrite app_nil_r. repeat split; try discriminate.
         intros final H; inversion H; exists []; rewrite app_nil_r; split; reflexivity. }
    run. destruct (predict (model (detector w)) frame) as [e|[|r rs]].
    { exists []. simpl. rewrite app_nil_r. repeat split; discriminate. }
    { exists []. simpl. rewrite app_nil_r. repeat split; discriminate. }
    destruct (write_output_returns output_path (plot r) w) as (w1 & E1 & _ & _ & M1).
    rewrite E1. destruct (frame_count =? 0)%Z.
    { exists []. simpl. rewrite app_nil_r, M1. repeat split; discriminate. }
    match goal with
    | |- context [video_worker_loop _ _ _ pending ?t ?i ?a ?w2] =>
        destruct (IH t i a w2) as (ps & He & Hp & Hf & Hr);
        destruct (video_worker_loop output_path is_running frame_count pending t i a w2)
          as [w3 o] eqn:E3
    end.
    simpl in He, Hf, Hr.
    exists (sig_progress
              (int_of_float
                 (fmul (truediv (frame_idx + 1) frame_count) (float_of_int 100)))
              (plot r) :: ps).
    simpl. rewrite He, M1, <- app_assoc. repeat split; try assumption.
    intros final H. destruct (Hr final H) as (new & -> & Hn).
    exists (r :: new). rewrite <- app_assoc. simpl. rewrite Hn. split; reflexivity.
Qed.

Lemma VideoDetectionWorker_body_signals video_path output_path is_running w :
  exists ps,
    forallb is_progress ps = true /\
    match (VideoDetectionWorker_body video_path output_path is_running w).2 with
    | Return _ =>
        exists rs,
          emitted (VideoDetectionWorker_body video_path output_path is_running w).1
            = emitted w ++ ps ++ [sig_result_video output_path rs] /\
          progress_frames ps = map plot rs
    | Raise _ =>
        emitted (VideoDetectionWorker_body video_path output_path is_running w).1
          = emitted w ++ ps
    | OutOfFuel => False
    end.
Proof.
  unfold VideoDetectionWorker_body. run.
  destruct (capture video_path (fs w !! video_path)) as [v|];
    [| exists []; simpl; rewrite app_nil_r; split; reflexivity].
  destruct (open_output_returns output_path (CAP_PROP_FPS v)
              (int_of_float (CAP_PROP_FRAME_WIDTH v))
              (int_of_float (CAP_PROP_FRAME_HEIGHT v)) w) as (w1 & E1 & _ & _ & M1).
  rewrite E1.
  destruct (video_worker_loop_signals output_path is_running
              (int_of_float (CAP_PROP_FRAME_COUNT v)) (frames v) 0 0 []
              (with_ticks S w1)) as (ps & He & Hp & Hf & Hr).
  destruct (video_worker_loop output_path is_running
              (int_of_float (CAP_PROP_FRAME_COUNT v)) (frames v) 0 0 []
              (with_ticks S w1)) as [w2 [final|e|]] eqn:E2;
    simpl in He, Hf, Hr; [| | congruence].
  - destruct (Hr final eq_refl) as (new & -> & Hn).
    exists ps. split; [exact Hp |]. simpl. exists new.
    rewrite He, M1, <- app_assoc. split; [reflexivity | exact Hn].
  - exists ps. split; [exact Hp |]. simpl. rewrite He, M1. reflexivity.
Qed.

(** X9. A run of the video worker never raises: it sends a [progress]
    signal for each frame it processed, then either the [result] signal
    with the output path and the results, one per progress signal and each
    signalled with its plot, or one [error] signal with the text of the
    exception, and [finished] last. *)
Theorem video_worker_signal_protocol (w : World) (video_path : string)
    (output_path : option string) (is_running : nat -> bool) :
  (VideoDetectionWorker_run video_path output_path is_running w).2 = Return tt /\
  exists ps x,
    emitted (VideoDetectionWorker_run video_path output_path is_running w).1
      = emitted w ++ ps ++ [x; sig_finished] /\
    forallb is_progress ps = true /\
    ((exists rs,
        x = sig_result_video output_path rs /\
        progress_frames ps = map plot rs /\
        (VideoDetectionWorker_body video_path output_path is_running w).2 = Return tt) \/
     (exists e,
        x = sig_error (str e) /\
        (VideoDetectionWorker_body video_path output_path is_running w).2 = Raise e)).
Proof.
  destruct (VideoDetectionWorker_body_signals video_path output_path is_running w)
    as (ps & Hp & Hb).
  unfold VideoDetectionWorker_run, try_except_finally.
  destruct (VideoDetectionWorker_body video_path output_path is_running w)
    as [w1 [[]|e|]] eqn:E; simpl in Hb; [| | contradiction].
  - destruct Hb as (rs & He & Hn). simpl. split; [reflexivity |].
    exists ps, (sig_result_video output_path rs).
    rewrite He, <- !app_assoc. simpl.
    split; [reflexivity |]. split; [exact Hp |]. left. eauto.
  - simpl. split; [reflexivity |].
    exists ps, (sig_error (str e)). rewrite Hb, <- !app_assoc. simpl.
    split; [reflexivity |]. split; [exact Hp |]. right. eauto.
Qed.

Lemma detect_image_halts image_path w : (detect_image image_path w).2 <> OutOfFuel.
Proof.
  unfold detect_image. run.
  destruct (fs w !! image_path) as [[| img | | |]|] eqn:E; simpl; rewrite ?E; simpl;
    try discriminate.
  destruct (predict (model (detector w)) img) as [e|[|r rs]]; simpl; discriminate.
Qed.

Lemma keeps_emitted_detect_image image_path : keeps emitted (detect_image image_path).
Proof. unfold detect_image. keeps_go. Qed.

Lemma ImageDetectionWorker_run_signals (w : World) (image_path : string) :
  (ImageDetectionWorker_run image_path w).2 = Return tt /\
  ((exists w1 img r,
      detect_image image_path w = (w1, Return (img, r)) /\
      emitted (ImageDetectionWorker_run image_path w).1
        = emitted w ++ [sig_result_image img r; sig_finished]) \/
   (exists w1 e,
      detect_image image_path w = (w1, Raise e) /\
      emitted (ImageDetectionWorker_run image_path w).1
        = emitted w ++ [sig_error (str e); sig_finished])).
Proof.
  pose proof (detect_image_halts image_path w) as Hh.
  pose proof (keeps_emitted_detect_image image_path w) as Hk.
  unfold ImageDetectionWorker_run, try_except_finally.
  destruct (detect_image image_path w) as [w1 [[img r]|e|]] eqn:E;
    simpl in Hh, Hk; [| | congruence].
  - rewrite (bind_return _ _ w w1 (img, r) E). simpl. split; [reflexivity |].
    left. exists w1, img, r. rewrite Hk, <- app_assoc. split; reflexivity.
  - rewrite (bind_raise _ _ w w1 e E). simpl. split; [reflexivity |].
    right. exists w1, e. rewrite Hk, <- app_assoc. split; reflexivity.
Qed.


(** X10. A run of the image worker never raises: it sends the [result]
    signal with what [detect_image] returned, or one [error] signal with the
    text of what it raised, and [finished] last; nothing else is
    signalled. *)
Theorem image_worker_signal_protocol (w : World) (image_path : string) :
  (ImageDetectionWorker_run image_path w).2 = Return tt /\
  ((exists w1 img r,
      detect_image image_path w = (w1, Return (img, r)) /\
      emitted (ImageDetectionWorker_run image_path w).1
        = emitted w ++ [sig_result_image img r; sig_finished]) \/
   (exists w1 e,
      detect_image image_path w = (w1, Raise e) /\
      emitted (ImageDetectionWorker_run image_path w).1
        = emitted w ++ [sig_error (str e); sig_finished])).
Proof. apply ImageDetectionWorker_run_signals. Qed.

(** ** The tabs around the workers *)

(** X11. The image tab after a click on its detect button.  Without a
    selected file the click does nothing.  With one, once the worker has run
    and its signals are delivered, the select and detect buttons are enabled
    again whatever the outcome; the save button is enabled and the annotated
    image shown exactly when [detect_image] returned, and after a failure
    the tab shows the text of the error and keeps the save button
    disabled. *)
Theorem image_tab_is_rearmed_after_a_run (t : ImageDetectionTab.state) (w : World) :
  (ImageDetectionTab.file_path t = None ->
   ImageDetectionTab.press_detect t w = (w, Return t)) /\
  (forall p,
     ImageDetectionTab.file_path t = Some p ->
     exists t',
       (ImageDetectionTab.press_detect t w).2 = Return t' /\
       ImageDetectionTab.select_btn t' = true /\
       ImageDetectionTab.detect_btn t' = true /\
       ImageDetectionTab.file_path t' = Some p /\
       ((exists w1 img r,
           detect_image p
             (with_emitted (fun l => l ++ [status_message "正在进行图片检测..."]) w)
             = (w1, Return (img, r)) /\
           ImageDetectionTab.save_btn t' = true /\
           ImageDetectionTab.image_label t' = Some img /\
           ImageDetectionTab.status_label t' = "检测完成") \/
        (exists w1 e,
           detect_image p
             (with_emitted (fun l => l ++ [status_message "正在进行图片检测..."]) w)
             = (w1, Raise e) /\
           ImageDetectionTab.save_btn t' = false /\
           ImageDetectionTab.image_label t' = ImageDetectionTab.image_label t /\
           ImageDetectionTab.status_label t' = "检测错误: " +:+ str e))).
Proof.
  split.
  - intros H. unfold ImageDetectionTab.press_detect, ImageDetectionTab.start_detection.
    rewrite H. reflexivity.
  - intros p H.
    unfold ImageDetectionTab.press_detect, ImageDetectionTab.start_detection.
    rewrite H. run.
    set (ws := with_emitted (fun l => l ++ [status_message "正在进行图片检测..."]) w).
    destruct (ImageDetectionWorker_run_signals ws p) as [Hr Hs].
    destruct (ImageDetectionWorker_run p ws) as [wr o] eqn:Er. simpl in Hr, Hs.
    subst o.
    destruct Hs as [(w1 & img & r & Hd & He)|(w1 & e & Hd & He)];
      rewrite He, drop_app_length; simpl; run; simpl;
      eexists; (split; [reflexivity |]); simpl;
      repeat (split; [reflexivity |]); [left | right]; eauto 10.
Qed.

Lemma progress_frames_cons p frame evs :
  progress_frames (sig_progress p frame :: evs) = frame :: progress_frames evs.
Proof. reflexivity. Qed.

(** Delivering progress signals to the video tab moves the progress bar and
    the frame shown, puts the frame in the current-frame slot, and leaves
    the buttons alone. *)
Lemma VideoDetectionTab_deliver_progress ps :
  forallb is_progress ps = true ->
  forall t w,
    exists t2 w2,
      VideoDetectionTab.deliver_all ps t w = (w2, Return t2) /\
      emitted w2 = emitted w /\ fs w2 = fs w /\ history_of w2 = history_of w /\
      VideoDetectionTab.file_path t2 = VideoDetectionTab.file_path t /\
      VideoDetectionTab.output_path t2 = VideoDetectionTab.output_path t /\
      VideoDetectionTab.detect_btn t2 = VideoDetectionTab.detect_btn t /\
      VideoDetectionTab.select_btn t2 = VideoDetectionTab.select_btn t /\
      VideoDetectionTab.stop_btn t2 = VideoDetectionTab.stop_btn t /\
      VideoDetectionTab.save_btn t2 = VideoDetectionTab.save_btn t /\
      VideoDetectionTab.current_worker t2 = VideoDetectionTab.current_worker t /\
      VideoDetectionTab.status_label t2 = VideoDetectionTab.status_label t /\
      match last (progress_frames ps) with
      | Some frame =>
          current_frame (detector w2) = Some frame /\
          VideoDetectionTab.video_label t2 = Some frame
      | None =>
          current_frame (detector w2) = current_frame (detector w) /\
          VideoDetectionTab.video_label t2 = VideoDetectionTab.video_label t
      end.
Proof.
  induction ps as [|e ps IH]; intros Hp t w.
  - exists t, w. simpl. repeat split; reflexivity.
  - simpl in Hp. apply andb_true_iff in Hp as [He Hp].
    destruct e; try discriminate He.
    rewrite progress_frames_cons, last_cons.
    cbn [VideoDetectionTab.deliver_all VideoDetectionTab.deliver].
    unfold VideoDetectionTab.update_progress, update_progress. run.
    match goal with
    | |- context [VideoDetectionTab.deliver_all ps ?t1 ?w1] =>
        destruct (IH Hp t1 w1)
          as (t2 & w2 & E & Hm & Hf & Hh & H1 & H2 & H3 & H4 & H5 & H6 & H7 & H8 & Hl)
    end.
    exists t2, w2. rewrite E.
    simpl in *. repeat (split; [assumption || reflexivity |]).
    destruct (last (progress_frames ps)); exact Hl.
Qed.

Lemma VideoDetectionTab_deliver_all_app evs1 evs2 t w :
  VideoDetectionTab.deliver_all (evs1 ++ evs2) t w =
  (t' ← VideoDetectionTab.deliver_all evs1 t; VideoDetectionTab.deliver_all evs2 t') w.
Proof.
  revert t w. induction evs1 as [|e evs1 IH]; intros t w; [reflexivity |].
  simpl. rewrite !bind_run.
  destruct (VideoDetectionTab.deliver e t w) as [w1 [t1|x|]]; try reflexivity.
  rewrite IH. reflexivity.
Qed.

(** What a click on the detect button of the video tab leads to. *)
Lemma VideoDetectionTab_press_detect_run (t : VideoDetectionTab.state) (w : World)
    (is_running : nat -> bool) (p : string) :
  VideoDetectionTab.file_path t = Some p ->
  exists w0 out ws ps x t',
    get_default_save_path "video" w = (w0, Return out) /\
    ws = with_emitted (fun l => l ++ [status_message "正在进行视频检测..."]) w0 /\
    emitted (VideoDetectionWorker_run p (Some out) is_running ws).1
      = emitted ws ++ ps ++ [x; sig_finished] /\
    forallb is_progress ps = true /\
    (VideoDetectionTab.press_detect is_running t w).2 = Return t' /\
    VideoDetectionTab.select_btn t' = true /\
    VideoDetectionTab.detect_btn t' = true /\
    VideoDetectionTab.stop_btn t' = false /\
    VideoDetectionTab.current_worker t' = None /\
    VideoDetectionTab.file_path t' = Some p /\
    ((exists rs,
        x = sig_result_video (Some out) rs /\
        progress_frames ps = map plot rs /\
        (VideoDetectionWorker_body p (Some out) is_running ws).2 = Return tt /\
        VideoDetectionTab.save_btn t' = true /\
        VideoDetectionTab.output_path t' = Some out /\
        VideoDetectionTab.status_label t' = "检测完成: " +:+ os_path_basename out) \/
     (exists e,
        x = sig_error (str e) /\
        (VideoDetectionWorker_body p (Some out) is_running ws).2 = Raise e /\
        VideoDetectionTab.save_btn t' = false /\
        VideoDetectionTab.output_path t' = VideoDetectionTab.output_path t /\
        VideoDetectionTab.status_label t' = "检测错误: " +:+ str e)) /\
    match last (progress_frames ps) with
    | Some frame =>
        current_frame (detector (VideoDetectionTab.press_detect is_running t w).1)
          = Some frame /\
        VideoDetectionTab.video_label t' = Some frame
    | None =>
        current_frame (detector (VideoDetectionTab.press_detect is_running t w).1)
          = current_frame
              (detector (VideoDetectionWorker_run p (Some out) is_running ws).1) /\
        VideoDetectionTab.video_label t' = VideoDetectionTab.video_label t
    end.
Proof.
  intros H.
  destruct (get_default_save_path_returns "video" w) as (w0 & out & E0 & _).
  remember (with_emitted (fun l => l ++ [status_message "正在进行视频检测..."]) w0)
    as ws eqn:Hws.
  destruct (VideoDetectionWorker_body_signals p (Some out) is_running ws)
    as (ps & Hp & Hb).
  pose (t1 := {| VideoDetectionTab.file_path := Some p;
                 VideoDetectionTab.file_path_label := VideoDetectionTab.file_path_label t;
                 VideoDetectionTab.output_path := VideoDetectionTab.output_path t;
                 VideoDetectionTab.detect_btn := false;
                 VideoDetectionTab.select_btn := false;
                 VideoDetectionTab.stop_btn := true;
                 VideoDetectionTab.save_btn := false;
                 VideoDetectionTab.progress_bar := 0;
                 VideoDetectionTab.video_label := VideoDetectionTab.video_label t;
                 VideoDetectionTab.current_worker := Some (p, out);
                 VideoDetectionTab.status_label := "正在检测..." |}).
  assert (Hstart : VideoDetectionTab.start_detection t w
                   = (ws, Return (t1, Some (p, out)))).
  { unfold VideoDetectionTab.start_detection. rewrite H.
    rewrite (bind_return _ _ _ _ _ E0). rewrite Hws. reflexivity. }
  assert (Hpress : forall wr evs,
            VideoDetectionWorker_run p (Some out) is_running ws = (wr, Return tt) ->
            emitted wr = emitted ws ++ evs ->
            VideoDetectionTab.press_detect is_running t w
              = VideoDetectionTab.deliver_all evs t1 wr).
  { intros wr evs Er He. unfold VideoDetectionTab.press_detect.
    rewrite (bind_return _ _ _ _ _ Hstart). cbv beta iota.
    rewrite (bind_return _ _ ws ws (emitted ws)); [| reflexivity].
    rewrite (bind_return _ _ _ _ _ Er).
    rewrite (bind_return _ _ wr wr (emitted wr)); [| reflexivity].
    rewrite He, drop_app_length. reflexivity. }
  destruct (VideoDetectionTab_deliver_progress ps Hp t1
              (VideoDetectionWorker_run p (Some out) is_running ws).1)
    as (t2 & w2 & E2 & Hm2 & _ & _ & F1 & F2 & F3 & F4 & F5 & F6 & F7 & F8 & Hl).
  destruct (VideoDetectionWorker_body p (Some out) is_running ws)
    as [wb [[]|e|]] eqn:Eb; simpl in Hb; [| | contradiction].
  - destruct Hb as (rs & He & Hn).
    assert (Er : VideoDetectionWorker_run p (Some out) is_running ws
                 = (with_emitted (fun l => l ++ [sig_finished]) wb, Return tt)).
    { unfold VideoDetectionWorker_run, try_except_finally. rewrite Eb. reflexivity. }
    rewrite Er in E2, Hm2, Hl. simpl in E2, Hm2, Hl.
    assert (Hev : emitted (with_emitted (fun l => l ++ [sig_finished]) wb)
                  = emitted ws ++ (ps ++ [sig_result_video (Some out) rs; sig_finished])).
    { simpl. rewrite He, <- !app_assoc. reflexivity. }
    exists w0, out, ws, ps, (sig_result_video (Some out) rs). eexists.
    split; [exact E0 |]. split; [exact Hws |]. rewrite Er.
    split; [exact Hev |]. split; [exact Hp |].
    rewrite (Hpress _ _ Er Hev).
    rewrite VideoDetectionTab_deliver_all_app.
    rewrite (bind_return _ _ _ _ _ E2). simpl. run. simpl.
    split; [reflexivity |]. simpl.
    repeat (split; [first [reflexivity | assumption] |]).
    split; [left; exists rs; rewrite Eb; repeat split; first [reflexivity | assumption] |].
    destruct (last (progress_frames ps)); destruct Hl as [Hl1 Hl2];
      split; assumption.
  - assert (Er : VideoDetectionWorker_run p (Some out) is_running ws
                 = (with_emitted (fun l => l ++ [sig_finished])
                      (with_emitted (fun l => l ++ [sig_error (str e)]) wb),
                    Return tt)).
    { unfold VideoDetectionWorker_run, try_except_finally. rewrite Eb. reflexivity. }
    rewrite Er in E2, Hm2, Hl. simpl in E2, Hm2, Hl.
    assert (Hev : emitted (with_emitted (fun l => l ++ [sig_finished])
                             (with_emitted (fun l => l ++ [sig_error (str e)]) wb))
                  = emitted ws ++ (ps ++ [sig_error (str e); sig_finished])).
    { simpl. rewrite Hb, <- !app_assoc. reflexivity. }
    exists w0, out, ws, ps, (sig_error (str e)). eexists.
    split; [exact E0 |]. split; [exact Hws |]. rewrite Er.
    split; [exact Hev |]. split; [exact Hp |].
    rewrite (Hpress _ _ Er Hev).
    rewrite VideoDetectionTab_deliver_all_app.
    rewrite (bind_return _ _ _ _ _ E2). simpl. run. simpl.
    split; [reflexivity |]. simpl.
    repeat (split; [first [reflexivity | assumption] |]).
    split; [right; exists e; rewrite Eb, ?F2, ?F6; repeat split; reflexivity |].
    destruct (last (progress_frames ps)); destruct Hl as [Hl1 Hl2];
      split; assumption.
Qed.

(** X12. The video tab after a click on its detect button.  Without a
    selected file the click does nothing.  With one, once the worker has run
    and the tab has handled its signals, the select and detect buttons are
    enabled, the stop button is disabled and the worker is forgotten,
    whatever the outcome and wherever the run was stopped.  The save button
    is enabled, and the output path replaced, exactly when the worker's body
    returned; after a failure the tab shows the text of the error and keeps
    the output path of the run before. *)
Theorem video_tab_is_rearmed_after_a_run (t : VideoDetectionTab.state) (w : World)
    (is_running : nat -> bool) :
  (VideoDetectionTab.file_path t = None ->
   VideoDetectionTab.press_detect is_running t w = (w, Return t)) /\
  (forall p,
     VideoDetectionTab.file_path t = Some p ->
     exists w0 out t',
       get_default_save_path "video" w = (w0, Return out) /\
       (VideoDetectionTab.press_detect is_running t w).2 = Return t' /\
       VideoDetectionTab.select_btn t' = true /\
       VideoDetectionTab.detect_btn t' = true /\
       VideoDetectionTab.stop_btn t' = false /\
       VideoDetectionTab.current_worker t' = None /\
       match (VideoDetectionWorker_body p (Some out) is_running
                (with_emitted (fun l => l ++ [status_message "正在进行视频检测..."]) w0)).2
       with
       | Return _ =>
           VideoDetectionTab.save_btn t' = true /\
           VideoDetectionTab.output_path t' = Some out /\
           VideoDetectionTab.status_label t' = "检测完成: " +:+ os_path_basename out
       | Raise e =>
           VideoDetectionTab.save_btn t' = false /\
           VideoDetectionTab.output_path t' = VideoDetectionTab.output_path t /\
           VideoDetectionTab.status_label t' = "检测错误: " +:+ str e
       | OutOfFuel => False
       end).
Proof.
  split.
  - intros H. unfold VideoDetectionTab.press_detect, VideoDetectionTab.start_detection.
    rewrite H. reflexivity.
  - intros p H.
    destruct (VideoDetectionTab_press_detect_run t w is_running p H)
      as (w0 & out & ws & ps & x & t' & E0 & -> & _ & _ & Hr & B1 & B2 & B3 & B4 & _
          & Hx & _).
    exists w0, out, t'. repeat (split; [assumption |]).
    destruct Hx as [(rs & _ & _ & Hb & S1 & S2 & S3)|(e & _ & Hb & S1 & S2 & S3)];
      rewrite Hb; repeat split; assumption.
Qed.

(** X13. What the video tab shows after a run.  The signals of the run are
    [progress] signals followed by the result or the error and by
    [finished]; when there is a [progress] signal, the frame of the last one
    is both the picture in the tab and the detector's current frame (the one
    a later save writes), and when the run returned these frames are the
    annotated frames of its results, in order.  With no [progress] signal the
    tab shows what it showed before. *)
Theorem video_tab_shows_the_last_frame (t : VideoDetectionTab.state) (w : World)
    (is_running : nat -> bool) (p : string) :
  VideoDetectionTab.file_path t = Some p ->
  exists w0 out ps x t',
    get_default_save_path "video" w = (w0, Return out) /\
    emitted (VideoDetectionWorker_run p (Some out) is_running
               (with_emitted (fun l => l ++ [status_message "正在进行视频检测..."]) w0)).1
      = emitted w0 ++ [status_message "正在进行视频检测..."] ++ ps ++ [x; sig_finished] /\
    forallb is_progress ps = true /\
    (forall rs, x = sig_result_video (Some out) rs -> progress_frames ps = map plot rs) /\
    (VideoDetectionTab.press_detect is_running t w).2 = Return t' /\
    match last (progress_frames ps) with
    | Some frame =>
        current_frame (detector (VideoDetectionTab.press_detect is_running t w).1)
          = Some frame /\
        VideoDetectionTab.video_label t' = Some frame
    | None => VideoDetectionTab.video_label t' = VideoDetectionTab.video_label t
    end.
Proof.
  intros H.
  destruct (VideoDetectionTab_press_detect_run t w is_running p H)
    as (w0 & out & ws & ps & x & t' & E0 & -> & He & Hp & Hr & _ & _ & _ & _ & _
        & Hx & Hl).
  exists w0, out, ps, x, t'.
  split; [exact E0 |]. split; [rewrite He; simpl; rewrite <- app_assoc; reflexivity |].
  split; [exact Hp |]. split.
  { intros rs ->.
    destruct Hx as [(rs' & Hx & Hn & _)|(e & Hx & _)]; [| discriminate Hx].
    assert (rs = rs') by congruence. subst rs'. exact Hn. }
  split; [exact Hr |].
  destruct (last (progress_frames ps)); [exact Hl | apply Hl].
Qed.

(** X14. The webcam tab when the camera does not open.  A click on the
    start button of an idle tab starts the thread, which reports the error;
    the tab's handler then stops the detection, so the tab is idle again:
    start button and camera choice enabled, stop and snapshot buttons
    disabled.  The handler writes the error text to the status label and the
    stop that follows overwrites it: the label ends up reading that the
    detection was stopped, and the error only reaches the status bar,
    followed by the "stopped" message.  Nothing else changes; in particular
    the history log is as before.  A click while the detection is active
    does nothing. *)
Theorem webcam_tab_dead_camera_ends_idle (t : WebcamDetectionTab.state) (w : World)
    (fuel : nat) (running : nat -> bool) :
  (WebcamDetectionTab.detection_active t = true ->
   WebcamDetectionTab.press_start fuel running t w = (w, Return t)) /\
  (WebcamDetectionTab.detection_active t = false ->
   cameras w (WebcamDetectionTab.currentData t) = None ->
   exists t',
     (WebcamDetectionTab.press_start fuel running t w).2 = Return t' /\
     only_emits w (WebcamDetectionTab.press_start fuel running t w).1
       [status_message "已开始摄像头实时检测";
        sig_error ("无法打开摄像头 ID: " +:+ pretty (WebcamDetectionTab.currentData t));
        status_message ("摄像头检测错误: " +:+ "无法打开摄像头 ID: "
                        +:+ pretty (WebcamDetectionTab.currentData t));
        status_message "摄像头实时检测已停止"] /\
     WebcamDetectionTab.detection_active t' = false /\
     WebcamDetectionTab.detection_thread t' = None /\
     WebcamDetectionTab.start_btn t' = true /\
     WebcamDetectionTab.camera_combo t' = true /\
     WebcamDetectionTab.stop_btn t' = false /\
     WebcamDetectionTab.snapshot_btn t' = false /\
     WebcamDetectionTab.status_label t' = "实时检测已停止").
Proof.
  split.
  - intros H. unfold WebcamDetectionTab.press_start, WebcamDetectionTab.start_detection.
    rewrite H. reflexivity.
  - intros H C.
    unfold WebcamDetectionTab.press_start, WebcamDetectionTab.start_detection,
      WebcamDetectionThread_run, cv2_VideoCapture_cam.
    rewrite H. run. simpl. rewrite C. simpl.
    rewrite drop_app_length. simpl.
    unfold WebcamDetectionTab.detection_error, WebcamDetectionTab.stop_detection.
    run. simpl.
    eexists. split; [reflexivity |]. split.
    { unfold only_emits. simpl. rewrite <- !app_assoc. repeat split; reflexivity. }
    repeat split; reflexivity.
Qed.

(** ** The kinds of record in the log *)

Lemma only_keeps {A} (P : pydict -> Prop) (m : M A) :
  keeps history_of m -> appends_only P m.
Proof. intros H w. left. apply H. Qed.

Lemma only_history_append (P : pydict -> Prop) (r : pydict) :
  P r -> appends_only P (history_append r).
Proof. intros H w. right. exists r. split; [reflexivity | exact H]. Qed.

Lemma only_bind_l {A B} (P : pydict -> Prop) (m : M A) (f : A -> M B) :
  keeps history_of m -> (forall a, appends_only P (f a)) ->
  appends_only P (m ≫= f).
Proof.
  intros Hm Hf w. rewrite bind_run. specialize (Hm w).
  destruct (m w) as [w1 [a|e|]]; simpl in *; try (left; exact Hm).
  rewrite <- Hm. apply Hf.
Qed.

Lemma only_bind_r {A B} (P : pydict -> Prop) (m : M A) (f : A -> M B) :
  appends_only P m -> (forall a, keeps history_of (f a)) ->
  appends_only P (m ≫= f).
Proof.
  intros Hm Hf w. rewrite bind_run. specialize (Hm w).
  destruct (m w) as [w1 [a|e|]]; simpl in *; try exact Hm.
  specialize (Hf a w1).
  destruct Hm as [H|(r & H & Hr)]; [left | right; exists r; split; [| exact Hr]];
    congruence.
Qed.

Lemma only_try {A} (P : pydict -> Prop) (body : M A) (handler : exn -> M A)
    (fin : M unit) :
  appends_only P body -> (forall e, keeps history_of (handler e)) ->
  keeps history_of fin ->
  appends_only P (try_except_finally body handler fin).
Proof.
  intros Hb Hh Hf w. unfold try_except_finally. specialize (Hb w).
  assert (Hgo : forall w', history_of w' = history_of (body w).1 ->
            history_of w' = history_of w \/
            exists r, history_of w' = history_of w ++ [r] /\ P r).
  { intros w' E. rewrite E. exact Hb. }
  destruct (body w) as [w1 [a|e|]]; simpl in *; try exact Hb.
  - specialize (Hf w1). destruct (fin w1) as [w2 [[]|e|]]; simpl in *;
      apply Hgo; exact Hf.
  - specialize (Hh e w1). destruct (handler e w1) as [w2 [a|e'|]]; simpl in *;
      try (apply Hgo; exact Hh);
      specialize (Hf w2); destruct (fin w2) as [w3 [[]|e''|]]; simpl in *;
      apply Hgo; congruence.
Qed.

Ltac only_go :=
  repeat first
    [ match goal with |- forall _, _ => intro end
    | apply only_history_append; reflexivity
    | apply only_bind_r; [ apply only_history_append; reflexivity | solve [ keeps_go ] ]
    | apply only_bind_l; [ solve [ keeps_go ] | ]
    | apply only_keeps; solve [ keeps_go ]
    | match goal with
      | |- appends_only _ (if ?b then _ else _) => destruct b
      | |- appends_only _ (match ?x with _ => _ end) => destruct x
      end ].

Lemma only_void {A} (P : pydict -> Prop) (m : M A) :
  appends_only P m -> appends_only P (void m).
Proof. intros H. unfold void. apply only_bind_r; [exact H | keeps_go]. Qed.

(** Every operation but [clear_history] adds at most one record, of a kind
    the history tab counts. *)
Lemma only_run_op (op : Op) :
  op_observes op ->
  (forall answer, op <> op_clear_history answer) ->
  appends_only (fun r => known_type r = true) (run_op op).
Proof.
  intros Hobs Hc.
  destruct op; simpl in Hobs; unfold run_op; try apply only_void.
  - unfold detect_image. only_go.
  - unfold detect_video. only_go.
  - unfold detect_webcam. only_go.
  - only_go.
  - unfold save_current_frame. only_go.
  - unfold ImageDetectionWorker_run. apply only_try; [| keeps_go | keeps_go].
    apply only_bind_r; [unfold detect_image; only_go |].
    intros [img r]. keeps_go.
  - unfold VideoDetectionWorker_run. apply only_try; [| keeps_go | keeps_go].
    unfold VideoDetectionWorker_body. only_go.
  - unfold WebcamDetectionThread_run. only_go.
  - unfold update_progress. only_go.
  - unfold update_frame. only_go.
  - unfold save_result. only_go.
  - unfold take_snapshot. only_go.
  - unfold update_history_table. only_go.
  - unfold export_history, show_info_message, show_error_message. only_go.
  - exfalso. eapply Hc. reflexivity.
Qed.

(** The three kinds exclude each other, so on a log of known kinds the
    three counts add up to the length. *)
Lemma known_type_counts (history : list pydict) :
  Forall (fun r => known_type r = true) history ->
  length (filter (fun item => has_type "image" item = true) history)
  + length (filter (fun item => has_type "video" item = true) history)
  + length (filter (fun item => has_type "webcam" item = true) history)
  = length history.
Proof.
  induction 1 as [|r h Hr Hh IH]; [reflexivity |].
  assert (Hcase :
    (has_type "image" r = true /\ has_type "video" r = false /\
     has_type "webcam" r = false) \/
    (has_type "image" r = false /\ has_type "video" r = true /\
     has_type "webcam" r = false) \/
    (has_type "image" r = false /\ has_type "video" r = false /\
     has_type "webcam" r = true)).
  { unfold known_type, has_type in *.
    destruct (dict_get "type" r) as [[s| | |]|]; simpl in Hr; try discriminate Hr.
    destruct (String.eqb_spec s "image") as [E|E];
      [subst s; left; repeat split; reflexivity |].
    destruct (String.eqb_spec s "video") as [E'|E'];
      [subst s; right; left; repeat split; reflexivity |].
    destruct (String.eqb_spec s "webcam") as [E''|E''];
      [subst s; right; right; repeat split; reflexivity | discriminate Hr]. }
  rewrite !filter_cons.
  destruct Hcase as [(A & B & C)|[(A & B & C)|(A & B & C)]]; rewrite A, B, C;
    repeat case_decide; try congruence; simpl; lia.
Qed.

Lemma known_type_run_op (op : Op) (w : World) :
  op_observes op ->
  Forall (fun r => known_type r = true) (history_of w) ->
  Forall (fun r => known_type r = true) (history_of (run_op op w).1).
Proof.
  intros Hobs Hw.
  assert (Hop : (exists answer, op = op_clear_history answer) \/
                (forall answer, op <> op_clear_history answer)).
  { destruct op; try (right; discriminate). left. eauto. }
  destruct Hop as [[answer ->]|Hn].
  - simpl. destruct (clear_history_all_or_nothing answer w) as [E|E]; rewrite E;
      [exact Hw | constructor].
  - destruct (only_run_op op Hobs Hn w) as [E|(r & E & Hr)]; rewrite E; [exact Hw |].
    apply Forall_app. split; [exact Hw | repeat constructor; exact Hr].
Qed.

(** X15. The counts of the history tab add up.  Every record that an
    operation adds to the log has type "image", "video" or "webcam", so
    after any sequence of operations on a log of such records (the empty log
    of a new detector is one), whether they returned or raised,
    [update_history_table] shows three per-kind counts whose sum is the
    total it shows, the length of the log.  Callbacks handed to
    [detect_video] and [detect_webcam] are taken to be observers. *)
Theorem history_counts_add_up (ops : list Op) (w : World) :
  Forall op_observes ops ->
  Forall (fun r => known_type r = true) (history_of w) ->
  Forall (fun r => known_type r = true) (history_of (after_ops ops w)) /\
  exists image video webcam,
    (update_history_table (after_ops ops w)).2 = Return tt /\
    only_emits (after_ops ops w) (update_history_table (after_ops ops w)).1
      [history_table (length (history_of (after_ops ops w))) image video webcam;
       status_message "检测历史已刷新"] /\
    image + video + webcam = length (history_of (after_ops ops w)).
Proof.
  intros Hobs. revert w.
  assert (Hinv : forall w,
            Forall (fun r => known_type r = true) (history_of w) ->
            Forall (fun r => known_type r = true) (history_of (after_ops ops w))).
  { induction Hobs as [|op ops Hop Hops IH]; intros w Hw; simpl; [exact Hw |].
    apply IH, known_type_run_op; assumption. }
  intros w Hw. specialize (Hinv w Hw). split; [exact Hinv |].
  do 3 eexists. split; [reflexivity |]. split.
  - unfold only_emits, update_history_table. run. simpl.
    rewrite <- app_assoc. repeat split; reflexivity.
  - apply known_type_counts. exact Hinv.
Qed.


(** ** The video that [detect_video] writes *)

Lemma add_frames_video (l : list Image) :
  forall v,
    foldl (fun n frame => add_frame frame n) (VideoFile v) l
    = VideoFile {| CAP_PROP_FPS := CAP_PROP_FPS v;
                   CAP_PROP_FRAME_COUNT :=
                     match l with
                     | [] => CAP_PROP_FRAME_COUNT v
                     | _ => float_of_int (Z.of_nat (length (frames v ++ l)))
                     end;
                   CAP_PROP_FRAME_WIDTH := CAP_PROP_FRAME_WIDTH v;
                   CAP_PROP_FRAME_HEIGHT := CAP_PROP_FRAME_HEIGHT v;
                   frames := frames v ++ l |}.
Proof.
  induction l as [|frame l IH]; intros v; simpl.
  - rewrite app_nil_r. destruct v; reflexivity.
  - rewrite IH. simpl. rewrite <- !app_assoc. simpl.
    destruct l; reflexivity.
Qed.

(** Opening the output makes the directory of the path if it is missing
    and, when the writer opens, starts an empty container at the path. *)
Lemma open_output_writes out fps width height w :
  truthy out = true ->
  exists w1,
    open_output (Some out) fps width height w = (w1, Return tt) /\
    (forall q, q <> out ->
       fs w1 !! q = fs w !! q \/ (fs w !! q = None /\ fs w1 !! q = Some Dir)) /\
    (VideoWriter_ok out = true ->
     fs w1 !! out
       = Some (VideoFile {| CAP_PROP_FPS := fps;
                            CAP_PROP_FRAME_COUNT := float_of_int 0;
                            CAP_PROP_FRAME_WIDTH := float_of_int width;
                            CAP_PROP_FRAME_HEIGHT := float_of_int height;
                            frames := [] |})) /\
    (VideoWriter_ok out = false ->
     fs w1 !! out = fs w !! out \/ (fs w !! out = None /\ fs w1 !! out = Some Dir)).
Proof.
  intros Ht.
  destruct (makedirs_if_missing (os_path_dirname out) w)
    as (w0 & E & _ & _ & _ & Hn & _).
  unfold open_output, opt_truthy. rewrite Ht.
  change (default "" (Some out)) with out. cbv zeta.
  rewrite (bind_return _ _ w w
             (match fs w !! os_path_dirname out with
              | Some _ => true
              | None => false
              end)) by reflexivity.
  rewrite (bind_return _ _ _ _ _ E).
  unfold cv2_VideoWriter. destruct (VideoWriter_ok out); run.
  - eexists. split; [reflexivity |]. simpl. split; [| split; [| discriminate]].
    + intros q Hq. rewrite lookup_insert_ne by congruence. apply Hn.
    + intros _. apply lookup_insert_eq.
  - exists w0. split; [reflexivity |]. split; [intros q _; apply Hn |].
    split; [discriminate | intros _; apply Hn].
Qed.

(** The loop of [detect_video] adds the annotated frame of each result to
    the container at the output path, when the writer opened, and touches
    no other path. *)
Lemma detect_video_loop_writes out progress_callback frame_count :
  truthy out = true ->
  match progress_callback with
  | Some f => forall a b, keeps fs (f a b)
  | None => True
  end ->
  forall pending frame_idx all_results w w' final,
    detect_video_loop (Some out) progress_callback frame_count pending frame_idx
      all_results w = (w', Return final) ->
    exists new,
      final = all_results ++ new /\
      length new = length pending /\
      (VideoWriter_ok out = true ->
       fs w' !! out
         = (fun n => foldl (fun n frame => add_frame frame n) n (map plot new))
             <$> fs w !! out) /\
      (VideoWriter_ok out = false -> fs w' !! out = fs w !! out) /\
      forall q, q <> out -> fs w' !! q = fs w !! q.
Proof.
  intros Ht Hcb. induction pending as [|frame pending IH];
    intros frame_idx all_results w w' final H; simpl in H.
  - inversion H; subst. exists []. rewrite app_nil_r. simpl.
    repeat split; try reflexivity. destruct (fs w' !! out); reflexivity.
  - apply bind_inv_return in H as (w1 & rs & H1 & H).
    apply call_model_inv in H1 as [-> _].
    apply bind_inv_return in H as (w1 & r & H1 & H).
    apply first_result_inv in H1 as [-> _].
    apply bind_inv_return in H as (w1 & [] & H1 & H).
    assert (Hw : fs w1 = if VideoWriter_ok out
                        then alter (add_frame (plot r)) out (fs w) else fs w).
    { revert H1. unfold write_output, opt_truthy, out_write. simpl. rewrite Ht.
      destruct (VideoWriter_ok out); intros H1; inversion H1; reflexivity. }
    clear H1.
    apply bind_inv_return in H as (w2 & [] & H1 & H).
    inversion H1; subst w2; clear H1.
    apply bind_inv_return in H as (w2 & [] & H1 & H).
    inversion H1; subst w2; clear H1.
    apply bind_inv_return in H as (w2 & p & H1 & H).
    apply progress_of_inv in H1 as [-> _].
    apply bind_inv_return in H as (w2 & [] & H1 & H).
    assert (Hfs : fs w2 = fs w1).
    { destruct progress_callback as [f|].
      - pose proof (keeps_run fs _ _ _ _ (Hcb p (plot r)) H1) as K. exact K.
      - inversion H1; subst w2. reflexivity. }
    apply IH in H as (new & -> & Hlen & Hout & Hno & Hoth).
    exists (r :: new). rewrite <- app_assoc. simpl.
    split; [reflexivity |]. split; [lia |]. rewrite Hfs, Hw in *.
    split; [| split].
    + intros Hok. rewrite Hok in *. rewrite (Hout eq_refl), lookup_alter_eq.
      destruct (fs w !! out); reflexivity.
    + intros Hok. rewrite Hok in *. apply Hno. reflexivity.
    + intros q Hq. rewrite (Hoth q Hq).
      destruct (VideoWriter_ok out); [| reflexivity].
      rewrite lookup_alter_ne by congruence. reflexivity.
Qed.

(** X17. The video that [detect_video] writes.  When a run with an output
    path returns, it has processed every frame the capture delivered.  If
    the writer opened, the file at the output path is a video with the frame
    rate and the frame size of the source whose frames are the annotated
    frames of the results returned, in order.  If the writer did not open,
    which the code never tests, the run returns all the same and has put no
    video at the output path.  Either way nothing that existed at another
    path has changed (the source is such a path), and what is new at other
    paths are directories: the directory of the output path and those above
    it.  The progress callback, if any, is taken to leave the files alone,
    and the output path to differ from the source. *)
Theorem detect_video_writes_the_annotated_video (w w' : World)
    (video_path out : string)
    (progress_callback : option (Float -> Image -> M unit))
    (frame : option Image) (rs : list Results) :
  out <> "" -> out <> video_path ->
  match progress_callback with
  | Some f => forall a b, keeps fs (f a b)
  | None => True
  end ->
  detect_video video_path (Some out) progress_callback w = (w', Return (frame, rs)) ->
  exists v,
    capture video_path (fs w !! video_path) = Some v /\
    length rs = length (frames v) /\
    (VideoWriter_ok out = true ->
     fs w' !! out
       = Some (VideoFile
                 {| CAP_PROP_FPS := CAP_PROP_FPS v;
                    CAP_PROP_FRAME_COUNT := float_of_int (Z.of_nat (length rs));
                    CAP_PROP_FRAME_WIDTH :=
                      float_of_int (int_of_float (CAP_PROP_FRAME_WIDTH v));
                    CAP_PROP_FRAME_HEIGHT :=
                      float_of_int (int_of_float (CAP_PROP_FRAME_HEIGHT v));
                    frames := map plot rs |})) /\
    (VideoWriter_ok out = false ->
     forall v', fs w' !! out = Some (VideoFile v') -> fs w !! out = Some (VideoFile v')) /\
    (forall q, q <> out ->
       fs w' !! q = fs w !! q \/ (fs w !! q = None /\ fs w' !! q = Some Dir)).
Proof.
  intros Hne Hd Hcb H.
  assert (Ht : truthy out = true).
  { destruct (truthy out) eqn:T; [reflexivity |].
    apply truthy_spec in T. contradiction. }
  unfold detect_video in H.
  apply bind_inv_return in H as (w1 & ex & H1 & H).
  unfold os_path_exists, gets in H1. inversion H1; subst w1 ex; clear H1.
  destruct (fs w !! video_path) as [n|] eqn:D; simpl in H; [| discriminate H].
  apply bind_inv_return in H as (w1 & cap & H1 & H).
  assert (Hc : w1 = w /\ cap = capture video_path (Some n)).
  { unfold cv2_VideoCapture, gets in H1. rewrite D in H1. split; congruence. }
  destruct Hc as [-> ->]. clear H1.
  destruct (capture video_path (Some n)) as [v|] eqn:C;
    [| unfold raise in H; discriminate H].
  apply bind_inv_return in H as (w1 & [] & H1 & H).
  destruct (open_output_writes out (CAP_PROP_FPS v)
              (int_of_float (CAP_PROP_FRAME_WIDTH v))
              (int_of_float (CAP_PROP_FRAME_HEIGHT v)) w Ht)
    as (w1' & E1 & Hq & Hyes & Hno).
  rewrite E1 in H1. inversion H1; subst w1'; clear H1 E1.
  apply bind_inv_return in H as (w2 & start_time & H1 & H).
  inversion H1; subst w2; clear H1.
  apply bind_inv_return in H as (w2 & all_results & H1 & H).
  apply (detect_video_loop_writes out progress_callback _ Ht Hcb) in H1
    as (new & Hnew & Hlen & Hout & Hkeep & Hoth).
  simpl in Hnew, Hout, Hkeep, Hoth. subst all_results.
  revert H. run. intros H. inversion H; subst w' frame rs; clear H. simpl.
  exists v. split; [reflexivity |]. split; [exact Hlen |]. split; [| split].
  - intros Hok. rewrite (Hout Hok), (Hyes Hok). simpl. rewrite add_frames_video. simpl.
    rewrite length_map. destruct new; reflexivity.
  - intros Hok v' Hv'. rewrite (Hkeep Hok) in Hv'.
    destruct (Hno Hok) as [E|[_ E]]; congruence.
  - intros q Hq'. rewrite (Hoth q Hq'). apply Hq, Hq'.
Qed.

(** X18. The webcam thread on a camera that opens.  When its run returns,
    it has sent one [frame_ready] signal per frame it processed and nothing
    else, and it has appended its record exactly when it processed a frame:
    the record has type "webcam" and its "frames" is the number of signals
    sent; a run that processed no frame leaves the log as it was. *)
Theorem webcam_thread_records_what_it_showed (fuel : nat) (cam_id : Z)
    (running : nat -> bool) (cap : nat -> option Image) (w w' : World) :
  cameras w cam_id = Some cap ->
  WebcamDetectionThread_run fuel cam_id running w = (w', Return tt) ->
  exists evs,
    emitted w' = emitted w ++ evs /\
    forallb is_frame_ready evs = true /\
    match evs with
    | [] => history_of w' = history_of w
    | _ =>
        exists rec,
          history_of w' = history_of w ++ [rec] /\
          dict_get "type" rec = Some (VStr "webcam") /\
          dict_get "source" rec = Some (VStr (webcam_source cam_id)) /\
          dict_get "frames" rec = Some (VInt (Z.of_nat (length evs)))
    end.
Proof.
  intros C H. unfold WebcamDetectionThread_run in H.
  rewrite (bind_return _ _ w w (Some cap)) in H;
    [| unfold cv2_VideoCapture_cam, gets; rewrite C; reflexivity].
  cbv beta iota in H.
  rewrite (bind_return _ _ w (with_ticks S w) (clock_time (ticks w))) in H;
    [| reflexivity].
  apply bind_inv_return in H as (w1 & n & H1 & H).
  apply webcam_thread_loop_returns in H1 as (_ & Hh & _ & _ & evs & He & Hlen & Hall).
  rewrite Nat.sub_0_r in Hlen. subst n. simpl in He.
  exists evs. destruct evs as [|ev evs].
  - simpl in H. inversion H; subst w'; clear H.
    rewrite app_nil_r in *. repeat split; assumption.
  - change (0 <? length (ev :: evs))%nat with true in H. cbv iota in H.
    revert H. run. intros H. inversion H; subst w'; clear H. simpl.
    split; [exact He |]. split; [exact Hall |].
    eexists. split.
    { unfold history_of in *. simpl in *. rewrite Hh. reflexivity. }
    repeat split; reflexivity.
Qed.


End More_facts.

(** * The statements at work on the sample world *)

Section Sample_runs.
Import Sample.

(** C2. A webcam run that ends without having processed a frame: on
    camera 0 with the stop flag already set at the first test, and on
    camera 2, which opens and fails at the first read.  [detect_webcam]
    returns and appends a webcam record with a frame count of 0 all the
    same, so a record is appended although no frame was processed; the
    webcam thread, which guards the append with [frame_count > 0], appends
    nothing on the same runs. *)
Theorem detect_webcam_records_run_without_frames :
  ((@detect_webcam ext 1 0 (Some (fun _ => true)) None world0).2 = Return (None, None) /\
   history_of (@detect_webcam ext 1 0 (Some (fun _ => true)) None world0).1 =
     [ @frames_record ext "webcam" "摄像头 ID: 0" "2" 0%Z 0%Z 1%Z ]) /\
  ((@detect_webcam ext 1 2 None None world0).2 = Return (None, None) /\
   history_of (@detect_webcam ext 1 2 None None world0).1 =
     [ @frames_record ext "webcam" "摄像头 ID: 2" "2" 0%Z 0%Z 1%Z ]) /\
  (forall source,
     dict_get "frames" (@frames_record ext "webcam" source "2" 0%Z 0%Z 1%Z)
       = Some (VInt 0)) /\
  ((@WebcamDetectionThread_run ext 1 0 (fun _ => false) world0).2 = Return tt /\
   history_of (@WebcamDetectionThread_run ext 1 0 (fun _ => false) world0).1 = []) /\
  ((@WebcamDetectionThread_run ext 1 2 (fun _ => true) world0).2 = Return tt /\
   history_of (@WebcamDetectionThread_run ext 1 2 (fun _ => true) world0).1 = []).
Proof. repeat split; intros; reflexivity. Qed.


(** An image run on the sample picture, which has two pixels and so two
    boxes. *)
Lemma image_run_appends_one_image_record_witness :
  exists rec,
    history_of (@detect_image ext "a.jpg" world0).1 = [rec] /\
    dict_get "type" rec = Some (VStr "image") /\
    dict_get "detections" rec = Some (VInt 2).
Proof.
  destruct (@image_run_appends_one_image_record ext "a.jpg" world0
              (@detect_image ext "a.jpg" world0).1 [255; 1; 2]%Z
              ([1; 2]%Z, [1; 2]%Z) eq_refl)
    as (img & rs & rec & _ & _ & Hh & Ht & Hd).
  exists rec. repeat split; assumption.
Defined.

(** Camera 1 of the sample world does not open. *)
Lemma webcam_fails_when_camera_does_not_open_witness :
  cameras world0 1 = None /\
  (@detect_webcam ext 5 1 None None world0).2 =
    Raise (Exn ValueError "无法打开摄像头ID: 1") /\
  history_of (@WebcamDetectionThread_run ext 5 1 (fun _ => true) world0).1 = [].
Proof.
  split; [reflexivity |].
  destruct (@webcam_fails_when_camera_does_not_open ext world0 5 1 None None
              (fun _ => true) eq_refl) as (H1 & _ & _ & H4).
  split; [rewrite H1; reflexivity | exact H4].
Defined.


(** The log of the sample world is empty. *)
Lemma clear_history_when_empty_witness :
  history_of world0 = [] /\
  (@clear_history ext true world0).2 = Return tt /\
  history_of (@clear_history ext true world0).1 = [] /\
  emitted (@clear_history ext true world0).1 =
    [@information ext "清空历史" "历史记录已经为空"].
Proof.
  split; [reflexivity |].
  destruct (@clear_history_when_empty ext world0 true eq_refl) as [H1 H2].
  rewrite H1. repeat split.
Defined.

Lemma export_of_empty_history_writes_nothing_witness :
  history_of world0 = [] /\
  (@export_detection_history ext [] "out.csv" world0) = (world0, Return false) /\
  fs (@export_history ext (fun p => p) world0).1 = fs world0.
Proof.
  split; [reflexivity |].
  destruct (@export_of_empty_history_writes_nothing ext world0 "out.csv" (fun p => p))
    as [H1 H2].
  split; [exact H1 |]. apply (H2 eq_refl).
Defined.

(** Nothing exists at [best.pt] in the sample world, and [a.jpg] does. *)
Lemma init_loads_default_or_custom_witness :
  fs world0 !! "best.pt" = None /\
  @HandSignDetector_init ext (Some "best.pt") world0 =
    (world0, Return (@new_detector ext "yolo11n.pt")) /\
  is_Some (fs world0 !! "a.jpg") /\
  @HandSignDetector_init ext (Some "a.jpg") world0 =
    (world0, Return (@new_detector ext "a.jpg")).
Proof.
  assert (Ha : is_Some (fs world0 !! "a.jpg")) by (eexists; reflexivity).
  split; [reflexivity |]. split; [| split; [exact Ha |]].
  - apply (proj1 (@init_loads_default_or_custom ext world0 (Some "best.pt")) eq_refl).
  - apply (proj2 (@init_loads_default_or_custom ext world0 (Some "a.jpg"))
             "a.jpg" eq_refl Ha).
Defined.


(** The clip [z.mp4] reports no frames and delivers one. *)
Lemma zero_frame_count_aborts_video_run_witness :
  (@detect_video ext "z.mp4" None None world0).2 =
    Raise (Exn ZeroDivisionError "division by zero") /\
  emitted (@VideoDetectionWorker_run ext "z.mp4" None (fun _ => true) world0).1 =
    [@sig_error ext "division by zero"; @sig_finished ext] /\
  history_of (@VideoDetectionWorker_run ext "z.mp4" None (fun _ => true) world0).1 = [].
Proof.
  destruct (@zero_frame_count_aborts_video_run ext world0 "z.mp4" None
              (clip 0 [[7]]%Z) [7]%Z [] ([7], [7])%Z []
              eq_refl eq_refl eq_refl eq_refl) as [Hd Hw].
  split; [apply (Hd None) |].
  destruct (Hw (fun _ => true) eq_refl) as (_ & _ & He & Hh).
  split; [exact He | exact Hh].
Defined.

End Sample_runs.

(** * More runs on the sample world *)

Section More_sample_runs.
Import Sample.

(** A video run on the three-frame clip appends one video record, an image
    run one image record. *)
Lemma detector_runs_append_exactly_when_they_return_witness :
  (exists rec,
     history_of (@detect_image ext "a.jpg" world0).1 = [rec] /\
     dict_get "type" rec = Some (VStr "image")) /\
  (exists rec,
     history_of (@detect_video ext "v.mp4" None None world0).1 = [rec] /\
     dict_get "type" rec = Some (VStr "video")).
Proof.
  destruct (@detector_runs_append_exactly_when_they_return ext) as (Hi & Hv & _).
  split.
  - pose proof (Hi "a.jpg" world0) as H. vm_compute in H. exact H.
  - pose proof (Hv "v.mp4" None None I world0) as H. vm_compute in H. exact H.
Defined.

(** Nothing exists at [missing.jpg], and [v.mp4] is not a picture. *)
Lemma detect_image_rejects_missing_or_unreadable_witness :
  (@detect_image ext "missing.jpg" world0).2
    = Raise (Exn FileNotFoundError "找不到图片文件: missing.jpg") /\
  (@detect_image ext "v.mp4" world0).2
    = Raise (Exn ValueError "无法读取图片: v.mp4") /\
  emitted (@ImageDetectionWorker_run ext "v.mp4" world0).1
    = [@sig_error ext "无法读取图片: v.mp4"; @sig_finished ext].
Proof.
  destruct (@detect_image_rejects_missing_or_unreadable ext world0 "missing.jpg")
    as [H1 _].
  destruct (@detect_image_rejects_missing_or_unreadable ext world0 "v.mp4")
    as [_ H2].
  destruct (H1 eq_refl) as (E1 & _).
  destruct (H2 (@VideoFile ext (clip 3 [[1]; [2]; [3]]%Z)) eq_refl
              ltac:(intros img; discriminate)) as (E2 & _ & (_ & _ & _ & E3)).
  split; [rewrite E1; reflexivity |].
  split; [rewrite E2; reflexivity | exact E3].
Defined.

(** Nothing exists at [missing.mp4], and [log.csv] does not open as a
    video. *)
Lemma video_run_rejects_what_does_not_open_witness :
  (@detect_video ext "missing.mp4" (Some "out/r.mp4") None world0)
    = (world0, Raise (Exn FileNotFoundError "找不到视频文件: missing.mp4")) /\
  (@detect_video ext "log.csv" (Some "out/r.mp4") None world_csv)
    = (world_csv, Raise (Exn ValueError "无法打开视频: log.csv")) /\
  emitted (@VideoDetectionWorker_run ext "missing.mp4" (Some "out/r.mp4")
             (fun _ => true) world0).1
    = [@sig_error ext "无法打开视频: missing.mp4"; @sig_finished ext].
Proof.
  destruct (@video_run_rejects_what_does_not_open ext world0 "missing.mp4"
              (Some "out/r.mp4")) as (H1 & _ & H3).
  destruct (@video_run_rejects_what_does_not_open ext world_csv "log.csv"
              (Some "out/r.mp4")) as (_ & H2 & _).
  split; [exact (H1 eq_refl None) |].
  split; [exact (H2 ltac:(discriminate) eq_refl None) |].
  destruct (H3 eq_refl (fun _ => true)) as (_ & _ & _ & _ & E).
  exact E.
Defined.

(** The detector of [world1] holds the frame [[5]]; that of [world0] holds
    none.  The name [out/shot] has no extension: [imwrite] raises, after the
    directory was made. *)
Lemma save_current_frame_writes_the_slot_witness :
  @save_current_frame ext "out/s.jpg" world0 = (world0, Return false) /\
  (@save_current_frame ext "out/s.jpg" world1).2 = Return true /\
  fs (@save_current_frame ext "out/s.jpg" world1).1 !! "out/s.jpg"
    = Some (@ImageFile ext [5]%Z) /\
  (@save_current_frame ext "out/shot" world1).2
    = Raise (Exn LibraryError "could not find a writer for the specified extension") /\
  is_Some (fs (@save_current_frame ext "out/shot" world1).1 !! "out").
Proof.
  destruct (@save_current_frame_writes_the_slot ext world0 "out/s.jpg") as [H0 _].
  destruct (@save_current_frame_writes_the_slot ext world1 "out/s.jpg") as [_ H1].
  destruct (@save_current_frame_writes_the_slot ext world1 "out/shot") as [_ H2].
  destruct (H1 [5]%Z eq_refl) as (_ & _ & _ & Hres).
  destruct (H2 [5]%Z eq_refl) as (_ & Hdir & _ & _).
  assert (O : (@save_current_frame ext "out/s.jpg" world1).2 = Return true)
    by reflexivity.
  rewrite O in Hres. destruct Hres as (_ & Hyes & _).
  split; [exact (H0 eq_refl) |]. split; [exact O |].
  split; [exact (Hyes eq_refl) |]. split; [reflexivity | exact (Hdir eq_refl)].
Defined.

(** The log of [world1] exported to [/home/user], which is a directory once
    the default path has been computed: the slot raises and says nothing. *)
Lemma export_history_never_reports_failure_witness :
  exists e,
    (@export_history ext (fun _ => "/home/user") world1).2 = Raise e /\
    class_of e = LibraryError /\
    emitted (@export_history ext (fun _ => "/home/user") world1).1 = [].
Proof.
  destruct (@export_history_never_reports_failure ext world1 (fun _ => "/home/user"))
    as (_ & _ & _ & H).
  apply (H ltac:(discriminate) (@get_default_save_path ext "csv" world1).1
           "/home/user/手语识别结果/检测历史_0.csv" eq_refl
           ltac:(discriminate) eq_refl).
Defined.

(** Clearing the one-record log of [world1], confirmed and refused. *)
Lemma clear_history_asks_first_witness :
  history_of (@clear_history ext true world1).1 = [] /\
  history_of (@clear_history ext false world1).1 = history_of world1 /\
  emitted (@clear_history ext false world1).1
    = [@question ext "确认清空" "确定要清空所有历史记录吗？此操作不可撤销。"].
Proof.
  destruct (@clear_history_asks_first ext world1 ltac:(discriminate))
    as ((_ & Hy & _) & (_ & (_ & _ & Hd & He))).
  split; [exact Hy |]. split; [| exact He].
  unfold history_of. rewrite Hd. reflexivity.
Defined.

(** A click on the detect button of the image tab with the sample picture
    chosen. *)
Lemma image_tab_is_rearmed_after_a_run_witness :
  exists t',
    (@ImageDetectionTab.press_detect ext image_tab world0).2 = Return t' /\
    ImageDetectionTab.select_btn t' = true /\
    ImageDetectionTab.detect_btn t' = true /\
    ImageDetectionTab.save_btn t' = true /\
    ImageDetectionTab.image_label t' = Some [255; 1; 2]%Z.
Proof.
  destruct (@image_tab_is_rearmed_after_a_run ext image_tab world0) as [_ H].
  destruct (H "a.jpg" eq_refl) as (t' & Hr & B1 & B2 & _ & Hcase).
  exists t'. split; [exact Hr |]. split; [exact B1 |]. split; [exact B2 |].
  assert (D : (@detect_image ext "a.jpg"
                 (with_emitted
                    (fun l => l ++ [@status_message ext "正在进行图片检测..."]) world0)).2
              = Return ([255; 1; 2]%Z, ([1; 2]%Z, [1; 2]%Z)))
    by (vm_compute; reflexivity).
  destruct Hcase as [(w1 & img & r & Hd & S1 & S2 & _)|(w1 & e & Hd & _)];
    rewrite Hd in D; cbn [snd] in D; [| discriminate D].
  assert (Hi : img = [255; 1; 2]%Z) by congruence. subst img.
  split; [exact S1 | exact S2].
Defined.

(** A click on the detect button of the video tab with the three-frame clip
    chosen, never stopped. *)
Lemma video_tab_is_rearmed_after_a_run_witness :
  exists t',
    (@VideoDetectionTab.press_detect ext (fun _ => true) video_tab world0).2
      = Return t' /\
    VideoDetectionTab.select_btn t' = true /\
    VideoDetectionTab.detect_btn t' = true /\
    VideoDetectionTab.stop_btn t' = false /\
    VideoDetectionTab.current_worker t' = None /\
    VideoDetectionTab.save_btn t' = true /\
    VideoDetectionTab.output_path t' = Some "/home/user/手语识别结果/视频检测_0.mp4".
Proof.
  destruct (@video_tab_is_rearmed_after_a_run ext video_tab world0 (fun _ => true))
    as [_ H].
  destruct (H "v.mp4" eq_refl) as (w0 & out & t' & E0 & Hr & B1 & B2 & B3 & B4 & Hm).
  assert (E0' : @get_default_save_path ext "video" world0
                = ((@get_default_save_path ext "video" world0).1,
                   Return "/home/user/手语识别结果/视频检测_0.mp4"))
    by reflexivity.
  rewrite E0' in E0. injection E0 as Hw Ho. subst out. subst w0.
  match type of Hm with
  | match ?o with _ => _ end =>
      assert (O : o = Return tt) by (vm_compute; reflexivity); rewrite O in Hm; clear O
  end.
  destruct Hm as (S1 & S2 & _).
  exists t'. repeat (split; [assumption |]). exact S2.
Defined.

(** The same click: the tab ends up showing the annotated last frame of the
    clip, which is also the detector's current frame. *)
Lemma video_tab_shows_the_last_frame_witness :
  exists t',
    (@VideoDetectionTab.press_detect ext (fun _ => true) video_tab world0).2
      = Return t' /\
    VideoDetectionTab.video_label t' = Some [255; 3]%Z /\
    current_frame
      (detector (@VideoDetectionTab.press_detect ext (fun _ => true) video_tab world0).1)
      = Some [255; 3]%Z.
Proof.
  destruct (@video_tab_shows_the_last_frame ext video_tab world0 (fun _ => true)
              "v.mp4" eq_refl)
    as (w0 & out & ps & x & t' & E0 & He & _ & _ & Hr & Hl).
  assert (E0' : @get_default_save_path ext "video" world0
                = ((@get_default_save_path ext "video" world0).1,
                   Return "/home/user/手语识别结果/视频检测_0.mp4"))
    by reflexivity.
  rewrite E0' in E0. injection E0 as Hw Ho. subst out. subst w0.
  match type of He with
  | ?l = _ =>
      assert (L : l = [ @status_message ext "正在进行视频检测...";
                        @sig_progress ext 33%Z [255; 1]%Z;
                        @sig_progress ext 66%Z [255; 2]%Z;
                        @sig_progress ext 100%Z [255; 3]%Z;
                        @sig_result_video ext
                          (Some "/home/user/手语识别结果/视频检测_0.mp4")
                          [([1], [1]); ([2], [2]); ([3], [3])]%Z;
                        @sig_finished ext ])
        by (vm_compute; reflexivity);
      rewrite L in He; clear L
  end.
  match type of He with
  | _ = ?e ++ _ =>
      assert (L : e = []) by (vm_compute; reflexivity); rewrite L in He; clear L
  end.
  cbn [app] in He. injection He as He.
  change [x; @sig_finished ext] with ([x] ++ [@sig_finished ext]) in He.
  rewrite app_assoc in He.
  match type of He with
  | [?a; ?b; ?c; ?d; ?e] = _ => change ([a; b; c; d] ++ [e] = (ps ++ [x]) ++ [e]) in He
  end.
  apply app_inj_tail in He as [He _].
  match type of He with
  | [?a; ?b; ?c; ?d] = _ => change ([a; b; c] ++ [d] = ps ++ [x]) in He
  end.
  apply app_inj_tail in He as [He _]. subst ps.
  cbn [progress_frames omap last] in Hl. destruct Hl as [Hc Hv].
  exists t'. split; [exact Hr |]. split; [exact Hv | exact Hc].
Defined.

(** Camera 1 does not open: a click on the start button of the webcam tab
    ends with the tab idle and the label reading "stopped". *)
Lemma webcam_tab_dead_camera_ends_idle_witness :
  exists t',
    (@WebcamDetectionTab.press_start ext 5 (fun _ => true) webcam_tab world0).2
      = Return t' /\
    WebcamDetectionTab.detection_active t' = false /\
    WebcamDetectionTab.start_btn t' = true /\
    WebcamDetectionTab.status_label t' = "实时检测已停止" /\
    emitted (@WebcamDetectionTab.press_start ext 5 (fun _ => true) webcam_tab world0).1
      = [ @status_message ext "已开始摄像头实时检测";
          @sig_error ext "无法打开摄像头 ID: 1";
          @status_message ext "摄像头检测错误: 无法打开摄像头 ID: 1";
          @status_message ext "摄像头实时检测已停止" ].
Proof.
  destruct (@webcam_tab_dead_camera_ends_idle ext webcam_tab world0 5 (fun _ => true))
    as [_ H].
  destruct (H eq_refl eq_refl)
    as (t' & Hr & (_ & _ & _ & He) & A & _ & B & _ & _ & _ & L).
  exists t'. split; [exact Hr |]. split; [exact A |]. split; [exact B |].
  split; [exact L | exact He].
Defined.

(** Two runs that return, one that raises and a refused clearing: the log
    holds two records and the counts of the table add up to two. *)
Lemma history_counts_add_up_witness :
  exists image video webcam,
    image + video + webcam = 2 /\
    emitted
      (@update_history_table ext
         (@after_ops ext
            [ @op_detect_image ext "a.jpg";
              @op_detect_video ext "v.mp4" None None;
              @op_detect_image ext "missing.jpg";
              @op_clear_history ext false ] world0)).1
    = emitted
        (@after_ops ext
           [ @op_detect_image ext "a.jpg";
             @op_detect_video ext "v.mp4" None None;
             @op_detect_image ext "missing.jpg";
             @op_clear_history ext false ] world0)
      ++ [ @history_table ext 2 image video webcam;
           @status_message ext "检测历史已刷新" ].
Proof.
  destruct (@history_counts_add_up ext
              [ @op_detect_image ext "a.jpg";
                @op_detect_video ext "v.mp4" None None;
                @op_detect_image ext "missing.jpg";
                @op_clear_history ext false ] world0
              ltac:(repeat constructor) ltac:(constructor))
    as (_ & image & video & webcam & _ & (_ & _ & _ & He) & Hsum).
  exists image, video, webcam. split; [exact Hsum | exact He].
Defined.


(** The annotated copy of the three-frame clip, in a directory that the
    run makes. *)
Lemma detect_video_writes_the_annotated_video_witness :
  fs (@detect_video ext "v.mp4" (Some "out/r.mp4") None world0).1 !! "out/r.mp4"
    = Some (@VideoFile ext
              (@Build_Video ext 2500%Z 300%Z 200%Z 100%Z
                 [[255; 1]; [255; 2]; [255; 3]]%Z)) /\
  fs (@detect_video ext "v.mp4" (Some "out/r.mp4") None world0).1 !! "v.mp4"
    = Some (@VideoFile ext (clip 3 [[1]; [2]; [3]]%Z)) /\
  fs (@detect_video ext "v.mp4" (Some "out/r.mp4") None world0).1 !! "out"
    = Some (@Dir ext).
Proof.
  destruct (@detect_video_writes_the_annotated_video ext world0
              (@detect_video ext "v.mp4" (Some "out/r.mp4") None world0).1
              "v.mp4" "out/r.mp4" None (Some [255; 3]%Z)
              [([1], [1]); ([2], [2]); ([3], [3])]%Z
              ltac:(discriminate) ltac:(discriminate) I eq_refl)
    as (v & Hv & _ & Hyes & _ & Hq).
  assert (Ev : v = clip 3 [[1]; [2]; [3]]%Z).
  { assert (L : capture "v.mp4" (fs world0 !! "v.mp4")
                = Some (clip 3 [[1]; [2]; [3]]%Z)) by reflexivity.
    rewrite L in Hv. congruence. }
  subst v. split; [exact (Hyes eq_refl) |]. split.
  - destruct (Hq "v.mp4" ltac:(discriminate)) as [E|[E _]];
      [rewrite E; reflexivity | discriminate E].
  - destruct (Hq "out" ltac:(discriminate)) as [E|[_ E]]; [| exact E].
    reflexivity.
Defined.

(** Camera 0 stopped at the third test of the flag: two frames shown, one
    record with a frame count of two. *)
Lemma webcam_thread_records_what_it_showed_witness :
  exists rec,
    history_of (@WebcamDetectionThread_run ext 5 0 (fun n => (n <? 2)%nat) world0).1
      = [rec] /\
    dict_get "type" rec = Some (VStr "webcam") /\
    dict_get "frames" rec = Some (VInt 2).
Proof.
  destruct (@webcam_thread_records_what_it_showed ext 5 0%Z (fun n => (n <? 2)%nat)
              (fun _ => Some [9]%Z) world0
              (@WebcamDetectionThread_run ext 5 0 (fun n => (n <? 2)%nat) world0).1
              eq_refl eq_refl)
    as (evs & He & _ & Hm).
  vm_compute in He. subst evs.
  destruct Hm as (rec & Hh & Ht & _ & Hf).
  exists rec. split; [exact Hh |]. split; [exact Ht | exact Hf].
Defined.


End More_sample_runs.
